(** * AI Operations Assistant: plan execution engine

    A shallow embedding of the executor, the retry decorator, the Wikipedia and
    weather adapters and the verifier's aggregation loop, followed by the
    properties proved about them.

    Layout: Python values and exceptions ([Py]), [tools/retry_utils.py]
    ([Tenacity], [RetryUtils]), the HTTP boundary and the two adapters
    ([Httpx], [WikipediaTool], [WeatherTool]), [models/schemas.py]
    ([PlanStep], [ToolResult]), [agents/executor.py] ([Executor]) and
    [agents/verifier.py] ([Verifier]); then the lemmas. *)

From Stdlib Require Import ZArith List String Ascii Bool Arith Lia.
From Stdlib Require Import Permutation Sorted DecimalString.
Import ListNotations.
Local Open Scope list_scope.
Local Open Scope string_scope.

(* ================================================================== *)
(** ** Python values, dictionaries and exceptions *)
(* ================================================================== *)

Module Py.

Set Warnings "-register-all".

(** JSON-like values as the tools and the planner exchange them.  Numbers are
    integers: no function embedded below branches on a fractional number.
    Strings are held as their UTF-8 bytes; [len], indexing, slicing and
    iteration count characters (code points), see [char_length]. *)
Inductive value : Type :=
| VNone
| VBool (b : bool)
| VInt (n : Z)
| VStr (s : string)
| VList (items : list value)
| VDict (entries : list (string * value)).

(** A [dict] with string keys, in insertion order (keys are kept distinct by
    [set]). *)
Definition dict : Type := list (string * value).

(** [d.get(k)]; [None] stands for an absent key. *)
Fixpoint get (d : dict) (k : string) : option value :=
  match d with
  | [] => None
  | (k', v) :: rest => if String.eqb k' k then Some v else get rest k
  end.

(** [k in d] *)
Definition mem (k : string) (d : dict) : bool :=
  match get d k with Some _ => true | None => false end.

(** [d[k] = v]: replaces in place when the key exists, appends otherwise. *)
Fixpoint set (d : dict) (k : string) (v : value) : dict :=
  match d with
  | [] => [(k, v)]
  | (k', v') :: rest =>
      if String.eqb k' k then (k', v) :: rest else (k', v') :: set rest k v
  end.

(** [d.get(k)] as a Python value: an absent key reads as [None]. *)
Definition get_or_none (d : dict) (k : string) : value :=
  match get d k with Some v => v | None => VNone end.

(** Truth value of an object in a condition. *)
Definition truthy (v : value) : bool :=
  match v with
  | VNone => false
  | VBool b => b
  | VInt n => negb (n =? 0)%Z
  | VStr s => negb (String.eqb s "")
  | VList items => match items with [] => false | _ => true end
  | VDict entries => match entries with [] => false | _ => true end
  end.

(** [a == b]: booleans compare as the integers 0 and 1, lists element by
    element, dicts as mappings (order of insertion is irrelevant). *)
Fixpoint eqb (a b : value) {struct a} : bool :=
  match a, b with
  | VNone, VNone => true
  | VBool x, VBool y => Bool.eqb x y
  | VBool x, VInt n => (n =? (if x then 1 else 0))%Z
  | VInt n, VBool x => (n =? (if x then 1 else 0))%Z
  | VInt n, VInt m => (n =? m)%Z
  | VStr s, VStr t => String.eqb s t
  | VList l, VList m =>
      (fix go (l m : list value) {struct l} : bool :=
         match l, m with
         | [], [] => true
         | x :: l', y :: m' => eqb x y && go l' m'
         | _, _ => false
         end) l m
  | VDict d, VDict e =>
      (List.length d =? List.length e)%nat &&
      (fix go (d : list (string * value)) : bool :=
         match d with
         | [] => true
         | (k, v) :: d' =>
             match get e k with
             | Some w => eqb v w
             | None => false
             end && go d'
         end) d
  | _, _ => false
  end.

(** [needle in hay] on strings. *)
Fixpoint contains (needle hay : string) : bool :=
  String.prefix needle hay ||
  match hay with
  | EmptyString => false
  | String _ rest => contains needle rest
  end.

Definition str_of_Z (n : Z) : string := NilZero.string_of_int (Z.to_int n).

Fixpoint has_char (c : ascii) (s : string) : bool :=
  match s with
  | EmptyString => false
  | String c' rest => Ascii.eqb c c' || has_char c rest
  end.

Definition newline : ascii := Ascii.ascii_of_nat 10.
Definition carriage : ascii := Ascii.ascii_of_nat 13.
Definition tab : ascii := Ascii.ascii_of_nat 9.
Definition backslash : ascii := Ascii.ascii_of_nat 92.
Definition squote : ascii := Ascii.ascii_of_nat 39.
Definition dquote : ascii := Ascii.ascii_of_nat 34.

Fixpoint escape (q : ascii) (s : string) : string :=
  match s with
  | EmptyString => EmptyString
  | String c rest =>
      if Ascii.eqb c backslash then String backslash (String backslash (escape q rest))
      else if Ascii.eqb c q then String backslash (String q (escape q rest))
      else if Ascii.eqb c newline then String backslash (String "n" (escape q rest))
      else if Ascii.eqb c carriage then String backslash (String "r" (escape q rest))
      else if Ascii.eqb c tab then String backslash (String "t" (escape q rest))
      else String c (escape q rest)
  end.

(** [repr(s)] of a string: single quotes unless the text holds a single quote
    and no double quote; backslash, the quote and the usual control characters
    are escaped, every other byte is kept. *)
Definition repr_str (s : string) : string :=
  let q := if has_char squote s && negb (has_char dquote s) then dquote else squote in
  String q (escape q s ++ String q EmptyString).

(** [repr(v)]: lists and dicts print their items separated by [", "]. *)
Fixpoint repr (v : value) : string :=
  match v with
  | VNone => "None"
  | VBool true => "True"
  | VBool false => "False"
  | VInt n => str_of_Z n
  | VStr s => repr_str s
  | VList items => "[" ++ String.concat ", " (map repr items) ++ "]"
  | VDict entries =>
      "{" ++
      String.concat ", "
        (map (fun kv : string * value =>
                let (k, x) := kv in repr_str k ++ ": " ++ repr x) entries)
      ++ "}"
  end.

(** [str(v)], also what an f-string interpolates. *)
Definition str (v : value) : string :=
  match v with
  | VStr s => s
  | _ => repr v
  end.

(** Exceptions, by the classes the code tells apart with [isinstance] and
    [except]: the [httpx] hierarchy under [httpx.HTTPError], and everything
    else ([TypeError], [KeyError], [ValidationError], ...). *)
Inductive exn : Type :=
| ConnectError (msg : string)
| TimeoutException (msg : string)
| HTTPStatusError (status_code : Z) (msg : string)
| HTTPError (msg : string)
| Exception (cls : string) (msg : string).

(** [str(e)] *)
Definition exn_str (e : exn) : string :=
  match e with
  | ConnectError msg => msg
  | TimeoutException msg => msg
  | HTTPStatusError _ msg => msg
  | HTTPError msg => msg
  | Exception _ msg => msg
  end.

Definition is_ConnectError (e : exn) : bool :=
  match e with ConnectError _ => true | _ => false end.
Definition is_TimeoutException (e : exn) : bool :=
  match e with TimeoutException _ => true | _ => false end.
Definition is_HTTPStatusError (e : exn) : bool :=
  match e with HTTPStatusError _ _ => true | _ => false end.
(** [isinstance(e, httpx.HTTPError)]: the base of the three above. *)
Definition is_HTTPError (e : exn) : bool :=
  match e with Exception _ _ => false | _ => true end.

(** A computation that returns or raises. *)
Inductive result (A : Type) : Type :=
| Ok (a : A)
| Raise (e : exn).
Arguments Ok {A} a.
Arguments Raise {A} e.

Definition bind {A B : Type} (c : result A) (k : A -> result B) : result B :=
  match c with
  | Ok a => k a
  | Raise e => Raise e
  end.

(** [try: c  except Exception as e: h e] *)
Definition try_except {A : Type} (c : result A) (h : exn -> result A) : result A :=
  match c with
  | Ok a => Ok a
  | Raise e => h e
  end.

(** A UTF-8 continuation byte, [10xxxxxx]: every byte of a character but
    its first. *)
Definition is_continuation (c : ascii) : bool :=
  (128 <=? nat_of_ascii c)%nat && (nat_of_ascii c <? 192)%nat.

(** [len(s)] of a string: the number of characters, one per byte that is
    not a continuation byte. *)
Fixpoint char_length (s : string) : nat :=
  match s with
  | EmptyString => O
  | String c rest =>
      if is_continuation c then char_length rest else S (char_length rest)
  end.

(** [s[:n]]: the first [n] characters, each with its continuation bytes. *)
Fixpoint take_chars (n : nat) (s : string) : string :=
  match s with
  | EmptyString => EmptyString
  | String c rest =>
      if is_continuation c then String c (take_chars n rest)
      else
        match n with
        | O => EmptyString
        | S n' => String c (take_chars n' rest)
        end
  end.

(** [s[n:]]: what follows the first [n] characters. *)
Fixpoint drop_chars (n : nat) (s : string) : string :=
  match s with
  | EmptyString => EmptyString
  | String c rest =>
      if is_continuation c then drop_chars n rest
      else
        match n with
        | O => String c rest
        | S n' => drop_chars n' rest
        end
  end.

(** The characters of a string, in order. *)
Definition chars (s : string) : list string :=
  map (fun i => take_chars 1 (drop_chars i s)) (seq 0 (char_length s)).

(** [len(v)] *)
Definition len (v : value) : result Z :=
  match v with
  | VStr s => Ok (Z.of_nat (char_length s))
  | VList items => Ok (Z.of_nat (List.length items))
  | VDict entries => Ok (Z.of_nat (List.length entries))
  | VNone => Raise (Exception "TypeError" "object of type 'NoneType' has no len()")
  | VBool _ => Raise (Exception "TypeError" "object of type 'bool' has no len()")
  | VInt _ => Raise (Exception "TypeError" "object of type 'int' has no len()")
  end.

(** [v[i]] for a non-negative integer index. *)
Definition getitem_int (v : value) (i : nat) : result value :=
  match v with
  | VList items =>
      match nth_error items i with
      | Some x => Ok x
      | None => Raise (Exception "IndexError" "list index out of range")
      end
  | VStr s =>
      match nth_error (chars s) i with
      | Some c => Ok (VStr c)
      | None => Raise (Exception "IndexError" "string index out of range")
      end
  | VDict _ => Raise (Exception "KeyError" (str_of_Z (Z.of_nat i)))
  | _ => Raise (Exception "TypeError" "object is not subscriptable")
  end.

(** [v[k]] for a string key. *)
Definition getitem_str (v : value) (k : string) : result value :=
  match v with
  | VDict entries =>
      match get entries k with
      | Some x => Ok x
      | None => Raise (Exception "KeyError" (repr_str k))
      end
  | VList _ => Raise (Exception "TypeError" "list indices must be integers or slices, not str")
  | VStr _ => Raise (Exception "TypeError" "string indices must be integers, not 'str'")
  | _ => Raise (Exception "TypeError" "object is not subscriptable")
  end.

End Py.

Import Py.

Declare Scope py_scope.
Delimit Scope py_scope with py.
Notation "x <- c ;; k" := (Py.bind c (fun x => k))
  (at level 61, c at next level, right associativity) : py_scope.
Local Open Scope py_scope.

(* ================================================================== *)
(** ** tenacity, as [tools/retry_utils.py] uses it *)
(* ================================================================== *)

Module Tenacity.

(** [stop_after_attempt(n)]: stop once the attempt number reaches [n]. *)
Definition stop_after_attempt (max_attempt_number : nat) (attempt_number : nat) : bool :=
  (max_attempt_number <=? attempt_number)%nat.

(** [wait_exponential(multiplier, min, max)] with the library's base 2:
    [max(max(0, min), min(multiplier * 2 ** (attempt_number - 1), max))],
    in whole seconds. *)
Definition wait_exponential (multiplier min max : Z) (attempt_number : nat) : Z :=
  let exp := (2 ^ Z.of_nat (attempt_number - 1))%Z in
  let result := (multiplier * exp)%Z in
  Z.max (Z.max 0 min) (Z.min result max).

(** [retry_if_exception_type(cls)] and [retry_if_exception(predicate)] are
    predicates on the raised exception; [|] is their disjunction. *)
Definition retry_if_exception_type (isinstance_cls : exn -> bool) : exn -> bool :=
  isinstance_cls.
Definition retry_if_exception (predicate : exn -> bool) : exn -> bool :=
  predicate.
Definition retry_any (p q : exn -> bool) : exn -> bool :=
  fun e => p e || q e.

(** What one decorated call did: its outcome, the number of attempts made and
    the sleeps taken between them, in order. *)
Record Run (A : Type) : Type := mkRun {
  outcome : result A;
  attempts : nat;
  sleeps : list Z
}.
Arguments mkRun {A}.
Arguments outcome {A}.
Arguments attempts {A}.
Arguments sleeps {A}.

(** The retrying loop with [reraise=True].  [fn k] is the outcome of the
    wrapped coroutine on attempt number [k] (counted from 1).  A successful
    attempt returns; a failure the [retry] predicate rejects is raised at
    once; otherwise [stop] decides between re-raising the last exception and
    sleeping [wait k] before the next attempt.  [fuel] bounds the unfolding:
    with [stop_after_attempt n] the stop test fires first whenever
    [n - k <= fuel]. *)
Fixpoint retrying {A : Type} (stop : nat -> bool) (wait : nat -> Z)
    (retry : exn -> bool) (fn : nat -> result A)
    (fuel attempt_number : nat) (slept : list Z) : Run A :=
  match fn attempt_number with
  | Ok v => mkRun (Ok v) attempt_number slept
  | Raise e =>
      if negb (retry e) then mkRun (Raise e) attempt_number slept
      else if stop attempt_number then mkRun (Raise e) attempt_number slept
      else
        match fuel with
        | O => mkRun (Raise e) attempt_number slept
        | S fuel' =>
            retrying stop wait retry fn fuel' (S attempt_number)
              (slept ++ [wait attempt_number])%list
        end
  end.

End Tenacity.

Module RetryUtils.

(** [should_retry_http_error(exception)] *)
Definition should_retry_http_error (exception : exn) : bool :=
  if is_ConnectError exception || is_TimeoutException exception then true
  else
    match exception with
    | HTTPStatusError status_code _ =>
        if (500 <=? status_code)%Z || (status_code =? 429)%Z then true
        else false
    | _ => false
    end.

(** The [retry=] argument of the decorator. *)
Definition retry_condition : exn -> bool :=
  Tenacity.retry_any
    (Tenacity.retry_any
       (Tenacity.retry_if_exception_type is_ConnectError)
       (Tenacity.retry_if_exception_type is_TimeoutException))
    (Tenacity.retry_if_exception should_retry_http_error).

(** [retry_api_call(max_attempts, initial_wait, max_wait, multiplier)] applied
    to a coroutine [fn]. *)
Definition retry_api_call {A : Type}
    (max_attempts : nat) (initial_wait max_wait multiplier : Z)
    (fn : nat -> result A) : Tenacity.Run A :=
  Tenacity.retrying
    (Tenacity.stop_after_attempt max_attempts)
    (Tenacity.wait_exponential multiplier initial_wait max_wait)
    retry_condition
    fn max_attempts 1 [].

(** The defaults of the signature. *)
Definition default_max_attempts : nat := 3.
Definition default_initial_wait : Z := 1.
Definition default_max_wait : Z := 10.
Definition default_multiplier : Z := 2.

(** The classification of §4.1 in its own words: a connectivity or timeout
    fault, or a status error that is a server error or a rate limit. *)
Definition documented_retryable (e : exn) : Prop :=
  (exists msg, e = ConnectError msg) \/
  (exists msg, e = TimeoutException msg) \/
  (exists status msg,
      e = HTTPStatusError status msg /\ (500 <= status \/ status = 429)%Z).

(** The delay §4.1 of the specification describes, for comparison with
    [Tenacity.wait_exponential]. *)
Definition documented_backoff (cap initial multiplier : Z) (attempt : nat) : Z :=
  Z.min cap (initial * multiplier ^ Z.of_nat (attempt - 1))%Z.

End RetryUtils.

(* ================================================================== *)
(** ** The HTTP boundary *)
(* ================================================================== *)

Module Httpx.

Record Request : Type := mkRequest {
  url : string;
  query_params : option dict
}.

(** What [await client.get(...)] hands back: the status line, the result of
    [response.json()] and [response.text]. *)
Record Response : Type := mkResponse {
  status_code : Z;
  json : result value;
  text : string
}.

(** An [httpx.AsyncClient] as the code sees it: the outcome of the request
    with ordinal [k] (counted from 0) made during one tool action. *)
Definition Client : Type := nat -> Request -> result Response.

(** [response.raise_for_status()]: anything but 2xx raises
    [HTTPStatusError] (message text abbreviated). *)
Definition raise_for_status (response : Response) : result unit :=
  if (200 <=? status_code response)%Z && (status_code response <? 300)%Z
  then Ok tt
  else Raise (HTTPStatusError (status_code response)
                ("HTTP status " ++ str_of_Z (status_code response))).

End Httpx.

(* ================================================================== *)
(** ** Tool objects as the executor dispatches on them *)
(* ================================================================== *)

(** A coroutine method: the parameter names [inspect.signature] reports
    (without [self]), those without a default, and the body run on the
    keyword arguments. *)
Record Method : Type := mkMethod {
  parameters : list string;
  required : list string;
  body : dict -> result value
}.

(** An attribute of a tool: a coroutine method, or any other attribute
    (a constant, the client, an inherited [object] member), for which
    inspecting, calling and awaiting it raises [e]. *)
Inductive Attr : Type :=
| Coroutine (m : Method)
| NotAwaitable (e : exn).

(** [hasattr]/[getattr] on a tool instance. *)
Definition Tool : Type := string -> option Attr.

(** Awaiting the method on the keyword arguments: binding fails with [TypeError] when a
    parameter without default is missing. *)
Definition call (m : Method) (kwargs : dict) : result value :=
  match filter (fun p => negb (mem p kwargs)) (required m) with
  | [] => body m kwargs
  | missing :: _ =>
      Raise (Exception "TypeError"
               ("missing required positional argument: " ++ repr_str missing))
  end.

(** [kwargs.get(name)] with the default of the signature. *)
Definition arg (kwargs : dict) (name : string) (default : value) : value :=
  match get kwargs name with
  | Some v => v
  | None => default
  end.

(** [s.replace(" ", "_")]; [AttributeError] when [s] is not a string. *)
Fixpoint replace_spaces (s : string) : string :=
  match s with
  | EmptyString => EmptyString
  | String c rest =>
      String (if Ascii.eqb c " "%char then "_"%char else c) (replace_spaces rest)
  end.

Definition str_replace_spaces (v : value) : result string :=
  match v with
  | VStr s => Ok (replace_spaces s)
  | _ => Raise (Exception "AttributeError" "object has no attribute 'replace'")
  end.

(** [{"success": False, "error": msg}] *)
Definition failure (msg : string) : dict :=
  [("success", VBool false); ("error", VStr msg)].

(* ================================================================== *)
(** ** [tools/wikipedia_tool.py] *)
(* ================================================================== *)

Module WikipediaTool.

Definition BASE_URL : string := "https://en.wikipedia.org/api/rest_v1".

(** The loop [for i in range(len(titles)): results.append({...})]. *)
Fixpoint build_results (titles descriptions urls : value) (indices : list nat)
    : result (list value) :=
  match indices with
  | [] => Ok []
  | i :: rest =>
      title <- getitem_int titles i ;;
      description <- getitem_int descriptions i ;;
      url <- getitem_int urls i ;;
      more <- build_results titles descriptions urls rest ;;
      Ok (VDict [("title", title); ("description", description); ("url", url)]
            :: more)
  end.

(** An entry of the result list [search] builds. *)
Definition search_item (x : value) : Prop :=
  exists t d u, x = VDict [("title", t); ("description", d); ("url", u)].

(** [WikipediaTool.search(query, limit)]: one request, no retry. *)
Definition search (client : Httpx.Client) (query limit : value) : dict :=
  let attempt : result dict :=
    response <- client 0%nat
      (Httpx.mkRequest "https://en.wikipedia.org/w/api.php"
         (Some [("action", VStr "opensearch"); ("search", query);
                ("limit", limit); ("format", VStr "json")])) ;;
    _ <- Httpx.raise_for_status response ;;
    data <- Httpx.json response ;;
    n <- len data ;;
    results <-
      (if (4 <=? n)%Z then
         titles <- getitem_int data 1 ;;
         descriptions <- getitem_int data 2 ;;
         urls <- getitem_int data 3 ;;
         m <- len titles ;;
         build_results titles descriptions urls (seq 0 (Z.to_nat m))
       else Ok []) ;;
    Ok [("success", VBool true); ("query", query); ("results", VList results)]
  in
  match attempt with
  | Ok payload => payload
  | Raise e =>
      if is_HTTPError e then failure ("Wikipedia API error: " ++ exn_str e)
      else failure ("Unexpected error: " ++ exn_str e)
  end.

(** [data.get("thumbnail", {}).get("source")] *)
Definition thumbnail_source (data : value) : result value :=
  match data with
  | VDict entries =>
      match get entries "thumbnail" with
      | None => Ok VNone
      | Some (VDict thumb) => Ok (get_or_none thumb "source")
      | Some _ => Raise (Exception "AttributeError" "object has no attribute 'get'")
      end
  | _ => Raise (Exception "AttributeError" "object has no attribute 'get'")
  end.

(** [WikipediaTool.get_summary(title)] *)
Definition get_summary (client : Httpx.Client) (title : value) : dict :=
  let attempt : result dict :=
    title_encoded <- str_replace_spaces title ;;
    response <- client 0%nat
      (Httpx.mkRequest (BASE_URL ++ "/page/summary/" ++ title_encoded) None) ;;
    _ <- Httpx.raise_for_status response ;;
    data <- Httpx.json response ;;
    t <- getitem_str data "title" ;;
    extract <- getitem_str data "extract" ;;
    content_urls <- getitem_str data "content_urls" ;;
    desktop <- getitem_str content_urls "desktop" ;;
    page <- getitem_str desktop "page" ;;
    thumbnail <- thumbnail_source data ;;
    Ok [("success", VBool true); ("title", t); ("extract", extract);
        ("url", page); ("thumbnail", thumbnail)]
  in
  match attempt with
  | Ok payload => payload
  | Raise e =>
      match e with
      | HTTPStatusError status _ =>
          if (status =? 404)%Z
          then failure ("Article '" ++ str title ++ "' not found")
          else failure ("Wikipedia API error: " ++ exn_str e)
      | _ => failure ("Unexpected error: " ++ exn_str e)
      end
  end.

(** [WikipediaTool.get_article_html(title)]: only [httpx.HTTPError] is
    handled, anything else leaves the method. *)
Definition get_article_html (client : Httpx.Client) (title : value) : result dict :=
  let attempt : result dict :=
    title_encoded <- str_replace_spaces title ;;
    response <- client 0%nat
      (Httpx.mkRequest (BASE_URL ++ "/page/html/" ++ title_encoded) None) ;;
    _ <- Httpx.raise_for_status response ;;
    Ok [("success", VBool true); ("title", title);
        ("html", VStr (take_chars 1000 (Httpx.text response)))]
  in
  match attempt with
  | Ok payload => Ok payload
  | Raise e =>
      if is_HTTPError e then Ok (failure ("Wikipedia API error: " ++ exn_str e))
      else Raise e
  end.

Definition not_callable : exn :=
  Exception "TypeError" "object is not a callable object".

(** The attributes of an instance.  [inherited] gives, for the members every
    Python object carries, the exception their dispatch raises. *)
Definition getattr (client : Httpx.Client) (inherited : string -> option exn)
    : Tool :=
  fun name =>
    if String.eqb name "search" then
      Some (Coroutine (mkMethod ["query"; "limit"] ["query"]
        (fun kw => Ok (VDict (search client (get_or_none kw "query")
                                (arg kw "limit" (VInt 5)))))))
    else if String.eqb name "get_summary" then
      Some (Coroutine (mkMethod ["title"] ["title"]
        (fun kw => Ok (VDict (get_summary client (get_or_none kw "title"))))))
    else if String.eqb name "get_article_html" then
      Some (Coroutine (mkMethod ["title"] ["title"]
        (fun kw => payload <- get_article_html client (get_or_none kw "title") ;;
                   Ok (VDict payload))))
    else if String.eqb name "close" then
      Some (Coroutine (mkMethod [] [] (fun _ => Ok VNone)))
    else if String.eqb name "BASE_URL" || String.eqb name "client" then
      Some (NotAwaitable not_callable)
    else option_map NotAwaitable (inherited name).

End WikipediaTool.

(* ================================================================== *)
(** ** [tools/weather_tool.py] *)
(* ================================================================== *)

(** [QueryOptimizer], the language-model collaborator of the adapters: its
    two entry points are taken as given. *)
Record QueryOptimizer : Type := mkQueryOptimizer {
  correct_query : value -> string -> result (value * value);
  get_error_reason : string -> value -> string -> string
}.

Module WeatherTool.

Definition BASE_URL : string := "https://api.openweathermap.org/data/2.5".

(** The body of [_fetch_weather_data], run as request number [k]. *)
Definition fetch_weather_once (client : Httpx.Client) (api_key : string)
    (city units : value) (k : nat) : result value :=
  response <- client k
    (Httpx.mkRequest (BASE_URL ++ "/weather")
       (Some [("q", city); ("appid", VStr api_key); ("units", units)])) ;;
  _ <- Httpx.raise_for_status response ;;
  Httpx.json response.

(** [_fetch_weather_data], under [@retry_api_call(max_attempts=3)]. *)
Definition _fetch_weather_data (client : Httpx.Client) (api_key : string)
    (city units : value) : Tenacity.Run value :=
  RetryUtils.retry_api_call 3
    RetryUtils.default_initial_wait RetryUtils.default_max_wait
    RetryUtils.default_multiplier
    (fun attempt_number =>
       fetch_weather_once client api_key city units (attempt_number - 1)).

Definition temp_unit (units : value) : string :=
  if eqb units (VStr "metric") then "°C"
  else if eqb units (VStr "imperial") then "°F"
  else "K".

(** The "Format response" block. *)
Definition format_weather (data units correction_note : value) : result dict :=
  name <- getitem_str data "name" ;;
  sys <- getitem_str data "sys" ;;
  country <- getitem_str sys "country" ;;
  main <- getitem_str data "main" ;;
  temp <- getitem_str main "temp" ;;
  feels_like <- getitem_str main "feels_like" ;;
  humidity <- getitem_str main "humidity" ;;
  weather <- getitem_str data "weather" ;;
  weather0 <- getitem_int weather 0 ;;
  description <- getitem_str weather0 "description" ;;
  wind <- getitem_str data "wind" ;;
  speed <- getitem_str wind "speed" ;;
  coord <- getitem_str data "coord" ;;
  lat <- getitem_str coord "lat" ;;
  lon <- getitem_str coord "lon" ;;
  let result :=
    [("success", VBool true);
     ("city", name);
     ("country", country);
     ("temperature", VStr (str temp ++ temp_unit units));
     ("feels_like", VStr (str feels_like ++ temp_unit units));
     ("humidity", VStr (str humidity ++ "%"));
     ("description", description);
     ("wind_speed", VStr (str speed ++ " m/s"));
     ("coordinates", VDict [("lat", lat); ("lon", lon)])] in
  Ok (if truthy correction_note
      then set result "correction_note" correction_note
      else result).

(** [WeatherTool.get_current_weather(city, units)] *)
Definition get_current_weather (client : Httpx.Client) (api_key : string)
    (optimizer : QueryOptimizer) (city units : value) : result dict :=
  let original_city := city in
  corrected <- correct_query optimizer city "city" ;;
  let '(corrected_city, correction_note) := corrected in
  let attempt : result dict :=
    data <- Tenacity.outcome (_fetch_weather_data client api_key corrected_city units) ;;
    format_weather data units correction_note
  in
  match attempt with
  | Ok payload => Ok payload
  | Raise e =>
      match e with
      | HTTPStatusError status _ =>
          if (status =? 404)%Z
          then Ok (failure (get_error_reason optimizer "weather" original_city
                              "City not found"))
          else Ok (failure ("Weather API error: " ++ exn_str e))
      | ConnectError _ | TimeoutException _ =>
          Ok (failure ("Network error: " ++ exn_str e
                         ++ ". Please check your connection."))
      | _ => Ok (failure ("Unexpected error: " ++ exn_str e))
      end
  end.

(** The two attributes embedded here; every other attribute of the instance
    (the forecast pair, [close], constants) is read from [other]. *)
Definition getattr (client : Httpx.Client) (api_key : string)
    (optimizer : QueryOptimizer) (other : Tool) : Tool :=
  fun name =>
    if String.eqb name "get_current_weather" then
      Some (Coroutine (mkMethod ["city"; "units"] ["city"]
        (fun kw =>
           payload <- get_current_weather client api_key optimizer
                        (get_or_none kw "city") (arg kw "units" (VStr "metric")) ;;
           Ok (VDict payload))))
    else if String.eqb name "_fetch_weather_data" then
      Some (Coroutine (mkMethod ["city"; "units"] ["city"; "units"]
        (fun kw =>
           Tenacity.outcome
             (_fetch_weather_data client api_key
                (get_or_none kw "city") (get_or_none kw "units")))))
    else other name.

End WeatherTool.

(* ================================================================== *)
(** ** [models/schemas.py] *)
(* ================================================================== *)

Module PlanStep.
Record t : Type := mk {
  step_number : Z;
  action : string;
  tool : string;
  params : dict;
  reasoning : string
}.
(** [step.params[k] = v] *)
Definition set_param (step : t) (k : string) (v : value) : t :=
  mk (step_number step) (action step) (tool step) (set (params step) k v)
     (reasoning step).
End PlanStep.

Module ExecutionPlan.
Record t : Type := mk {
  task : string;
  steps : list PlanStep.t;
  estimated_tools : list string
}.
End ExecutionPlan.

Module ToolResult.
Record t : Type := mk {
  tool : string;
  success : bool;
  data : option dict;
  error : option string
}.

(** Construction through the model's validation: [data] must be a dict or
    [None], [error] a string or [None]. *)
Definition validate (tool : string) (success : bool) (data error : value)
    : result t :=
  data' <- match data with
           | VNone => Ok None
           | VDict d => Ok (Some d)
           | _ => Raise (Exception "ValidationError"
                           "1 validation error for ToolResult: data")
           end ;;
  error' <- match error with
            | VNone => Ok None
            | VStr s => Ok (Some s)
            | _ => Raise (Exception "ValidationError"
                            "1 validation error for ToolResult: error")
            end ;;
  Ok (mk tool success data' error').
End ToolResult.

(** [ExecutionResult] without its wall-clock [execution_time]. *)
Module ExecutionResult.
Record t : Type := mk {
  plan : ExecutionPlan.t;
  results : list ToolResult.t
}.
End ExecutionResult.

(* ================================================================== *)
(** ** [agents/executor.py] *)
(* ================================================================== *)

Module Executor.

Import PlanStep.

(** Everything outside the process that one step execution can observe:
    the clients of the two embedded adapters, the collaborators they call,
    and the four adapters that are not embedded (any attribute table). *)
Record World : Type := mkWorld {
  github_tool : Tool;
  weather_client : Httpx.Client;
  weather_api_key : string;
  optimizer : QueryOptimizer;
  weather_other : Tool;
  news_tool : Tool;
  countries_tool : Tool;
  crypto_tool : Tool;
  wikipedia_client : Httpx.Client;
  inherited : string -> option exn
}.

(** [self.tools], as [__init__] fills it. *)
Definition tools (w : World) : list (string * Tool) :=
  [("github", github_tool w);
   ("weather", WeatherTool.getattr (weather_client w) (weather_api_key w)
                 (optimizer w) (weather_other w));
   ("news", news_tool w);
   ("countries", countries_tool w);
   ("crypto", crypto_tool w);
   ("wikipedia", WikipediaTool.getattr (wikipedia_client w) (inherited w))].

(** [self.tools.get(tool_name)] *)
Fixpoint tools_get (registry : list (string * Tool)) (tool_name : string)
    : option Tool :=
  match registry with
  | [] => None
  | (name, tool) :: rest =>
      if String.eqb name tool_name then Some tool else tools_get rest tool_name
  end.

(** [{k: v for k, v in params.items() if k in valid_params}] *)
Definition filter_params (valid_params : list string) (params : dict) : dict :=
  filter (fun kv => existsb (String.eqb (fst kv)) valid_params) params.

(** The [try] block of [_execute_step]. *)
Definition execute_step_body (w : World) (step : PlanStep.t) : result ToolResult.t :=
  let tool_name := tool step in
  let action := action step in
  let params := params step in
  match tools_get (tools w) tool_name with
  | None =>
      ToolResult.validate tool_name false VNone
        (VStr ("Tool '" ++ tool_name ++ "' not found"))
  | Some tool =>
      match tool action with
      | None =>
          ToolResult.validate tool_name false VNone
            (VStr ("Action '" ++ action ++ "' not found in tool '"
                     ++ tool_name ++ "'"))
      | Some (NotAwaitable e) => Raise e
      | Some (Coroutine method) =>
          let valid_params := parameters method in
          let filtered_params := filter_params valid_params params in
          result_data <- call method filtered_params ;;
          match result_data with
          | VDict d =>
              if mem "success" d then
                let success := get_or_none d "success" in
                if truthy success
                then ToolResult.validate tool_name true result_data VNone
                else
                  let error_msg := arg d "error" (VStr "Unknown error") in
                  ToolResult.validate tool_name false VNone error_msg
              else ToolResult.validate tool_name true result_data VNone
          | _ => ToolResult.validate tool_name true result_data VNone
          end
      end
  end.

(** [ExecutorAgent._execute_step(step)] *)
Definition _execute_step (w : World) (step : PlanStep.t) : ToolResult.t :=
  match execute_step_body w step with
  | Ok r => r
  | Raise e =>
      ToolResult.mk (tool step) false None
        (Some ("Execution error: " ++ exn_str e))
  end.

(** What surrounds one run of a plan: the world each step meets when it is
    dispatched, and the instant at which it completes. *)
Record Env : Type := mkEnv {
  world_at : nat -> World;
  finished_at : nat -> nat
}.

(** The test inside the inner loop. *)
Definition depends_on_previous (steps : list PlanStep.t) (i : nat) : bool :=
  match nth_error steps i with
  | None => false
  | Some step =>
      String.eqb (tool step) "wikipedia" && String.eqb (action step) "get_summary" &&
      (0 <? i)%nat &&
      match nth_error steps (i - 1) with
      | None => false
      | Some prev =>
          String.eqb (tool prev) "wikipedia" && String.eqb (action prev) "search"
      end
  end.

Definition is_empty {A : Type} (l : list A) : bool :=
  match l with [] => true | _ => false end.

(** The inner [while]: [rest] is [plan.steps[i:]]; returns the index reached
    and the batch. *)
Fixpoint collect_batch (steps rest : list PlanStep.t) (i : nat)
    (parallel_batch : list (nat * PlanStep.t)) : nat * list (nat * PlanStep.t) :=
  match rest with
  | [] => (i, parallel_batch)
  | step :: rest' =>
      if depends_on_previous steps i && negb (is_empty parallel_batch)
      then (i, parallel_batch)
      else collect_batch steps rest' (S i) (parallel_batch ++ [(i, step)])%list
  end.

(** A stable sort by a numeric key ([list.sort(key=...)]). *)
Fixpoint insert_by {A : Type} (key : A -> nat) (x : A) (l : list A) : list A :=
  match l with
  | [] => [x]
  | y :: l' => if (key x <=? key y)%nat then x :: y :: l' else y :: insert_by key x l'
  end.

Definition sort_by {A : Type} (key : A -> nat) (l : list A) : list A :=
  fold_right (insert_by key) [] l.

(** [execute_with_index] *)
Definition execute_with_index (env : Env) (idx_and_step : nat * PlanStep.t)
    : nat * ToolResult.t :=
  let '(idx, step) := idx_and_step in
  (idx, _execute_step (world_at env idx) step).

(** The batch after all members completed.  [asyncio.gather] hands the
    outcomes back in argument order; the embedding lets them come back in
    completion order instead, so that plan order in the result rests on the
    re-sort alone. *)
Definition gather (env : Env) (parallel_batch : list (nat * PlanStep.t))
    : list (nat * ToolResult.t) :=
  sort_by (fun r => finished_at env (fst r))
    (map (execute_with_index env) parallel_batch).

(** [results[-1]], when there is one. *)
Definition last_result (results : list ToolResult.t) : option ToolResult.t :=
  last (map Some results) None.

(** Truth value of [result.data]: set and not the empty dict. *)
Definition data_truthy (r : ToolResult.t) : bool :=
  match ToolResult.data r with
  | Some d => truthy (VDict d)
  | None => false
  end.

(** The "smart parameter injection" ahead of the dependent step's dispatch:
    the step as dispatched, or the exception a malformed predecessor payload
    raises while the title is read. *)
Definition inject_title (results : list ToolResult.t) (step : PlanStep.t)
    : result PlanStep.t :=
  if String.eqb (tool step) "wikipedia" && String.eqb (action step) "get_summary" &&
     (0 <? List.length results)%nat &&
     match last_result results with
     | Some prev =>
         String.eqb (ToolResult.tool prev) "wikipedia" &&
         ToolResult.success prev && data_truthy prev
     | None => false
     end
  then
    match last_result results with
    | Some (ToolResult.mk _ _ (Some prev_result) _) =>
        if negb (mem "title" (params step)) ||
           eqb (get_or_none (params step) "title") (get_or_none prev_result "query")
        then
          if truthy (get_or_none prev_result "results") then
            n <- len (get_or_none prev_result "results") ;;
            if (0 <? n)%Z then
              results0 <- getitem_int (get_or_none prev_result "results") 0 ;;
              extracted_title <- getitem_str results0 "title" ;;
              Ok (set_param step "title" extracted_title)
            else Ok step
          else Ok step
        else Ok step
    | _ => Ok step
    end
  else Ok step.

(** [steps[i] = step] *)
Fixpoint replace_nth {A : Type} (i : nat) (x : A) (l : list A) : list A :=
  match l, i with
  | [], _ => []
  | _ :: l', O => x :: l'
  | y :: l', S i' => y :: replace_nth i' x l'
  end.

(** The outer [while], one unfolding per iteration.  Every iteration moves
    [i] forward, so [length steps] unfoldings are enough; [None] is an
    unfolding budget that ran out. *)
Fixpoint run (env : Env) (fuel : nat) (steps : list PlanStep.t) (i : nat)
    (results : list ToolResult.t)
    : option (result (list PlanStep.t * list ToolResult.t)) :=
  if (i <? List.length steps)%nat then
    match fuel with
    | O => None
    | S fuel' =>
        let '(i1, parallel_batch) := collect_batch steps (skipn i steps) i [] in
        let results1 :=
          if is_empty parallel_batch then results
          else (results
                  ++ map snd (sort_by (fun r => fst r) (gather env parallel_batch)))%list
        in
        match nth_error steps i1 with
        | Some step =>
            match inject_title results1 step with
            | Raise e => Some (Raise e)
            | Ok step' =>
                let result := _execute_step (world_at env i1) step' in
                run env fuel' (replace_nth i1 step' steps) (S i1)
                  (results1 ++ [result])%list
            end
        | None => run env fuel' steps i1 results1
        end
    end
  else Some (Ok (steps, results)).

(** [ExecutorAgent.execute_plan(plan)] *)
Definition execute_plan (env : Env) (plan : ExecutionPlan.t)
    : option (result ExecutionResult.t) :=
  match run env (List.length (ExecutionPlan.steps plan))
          (ExecutionPlan.steps plan) 0 [] with
  | None => None
  | Some (Raise e) => Some (Raise e)
  | Some (Ok (steps, results)) =>
      Some (Ok (ExecutionResult.mk
                  (ExecutionPlan.mk (ExecutionPlan.task plan) steps
                     (ExecutionPlan.estimated_tools plan))
                  results))
  end.

(** The plan read one step at a time, in plan order: what §4.3 promises the
    batched run amounts to.  [rest] is [steps[i:]]. *)
Fixpoint sequential (env : Env) (steps rest : list PlanStep.t) (i : nat)
    (results : list ToolResult.t)
    : result (list PlanStep.t * list ToolResult.t) :=
  match rest with
  | [] => Ok (steps, results)
  | step :: rest' =>
      if depends_on_previous steps i then
        match inject_title results step with
        | Raise e => Raise e
        | Ok step' =>
            sequential env (replace_nth i step' steps) rest' (S i)
              (results ++ [_execute_step (world_at env i) step'])%list
        end
      else
        sequential env steps rest' (S i)
          (results ++ [_execute_step (world_at env i) step])%list
  end.

(** The tool and action of every step, which no injection changes. *)
Definition signature (steps : list PlanStep.t) : list (string * string) :=
  map (fun s => (tool s, action s)) steps.

(** How step [j] of the plan [steps0] was dispatched as [s']: after
    injection from the outcome just before it when it is a dependent step,
    unchanged otherwise. *)
Definition dispatched_as (steps0 : list PlanStep.t) (results : list ToolResult.t)
    (j : nat) (s s' : PlanStep.t) : Prop :=
  if depends_on_previous steps0 j
  then exists prev,
         nth_error results (j - 1) = Some prev /\ inject_title [prev] s = Ok s'
  else s' = s.

(** A run of [steps0] that ended with the steps [steps'] and the outcomes
    [results']: slot [j] of the outcomes is the outcome of step [j] as it
    was dispatched. *)
Definition outcome_of (env : Env) (steps0 steps' : list PlanStep.t)
    (results' : list ToolResult.t) : Prop :=
  signature steps' = signature steps0 /\
  List.length results' = List.length steps0 /\
  (forall j s', nth_error steps' j = Some s' ->
     nth_error results' j = Some (_execute_step (world_at env j) s')) /\
  (forall j s, nth_error steps0 j = Some s ->
     exists s', nth_error steps' j = Some s' /\ dispatched_as steps0 results' j s s').

(** The condition under which the dependent step [step] receives the title
    [t] from the outcome [prev] of the search before it: the search
    succeeded with a payload, the step's ["title"] is absent or equal to the
    payload's ["query"], and the payload's result list has a first item
    whose title is [t]. *)
Definition injects (prev : ToolResult.t) (step : PlanStep.t) (t : value) : Prop :=
  ToolResult.success prev = true /\
  exists payload,
    ToolResult.data prev = Some payload /\ payload <> [] /\
    (mem "title" (params step) = false \/
     eqb (get_or_none (params step) "title") (get_or_none payload "query") = true) /\
    exists first rest,
      get payload "results" = Some (VList (first :: rest)) /\
      getitem_str first "title" = Ok t.

(** What dispatching the step's action gave: the value the coroutine
    returned or the exception raised on the way, and [None] when the tool or
    the action does not resolve. *)
Definition invoke (w : World) (step : PlanStep.t) : option (result value) :=
  match tools_get (tools w) (tool step) with
  | None => None
  | Some tool =>
      match tool (action step) with
      | None => None
      | Some (NotAwaitable e) => Some (Raise e)
      | Some (Coroutine method) =>
          Some (call method (filter_params (parameters method) (params step)))
      end
  end.

(** The keys of [self.tools]. *)
Definition registered (tool_name : string) : bool :=
  existsb (String.eqb tool_name)
    ["github"; "weather"; "news"; "countries"; "crypto"; "wikipedia"].

End Executor.

(* ================================================================== *)
(** ** [agents/verifier.py] *)
(* ================================================================== *)

Module Verifier.

(** [query[:47] + "..."], for the sized values [len] accepts. *)
Definition truncate_query (query : value) : result value :=
  match query with
  | VStr s => Ok (VStr (take_chars 47 s ++ "..."))
  | VList _ =>
      Raise (Exception "TypeError" "can only concatenate list (not 'str') to list")
  | _ => Raise (Exception "TypeError" "unhashable type: 'slice'")
  end.

(** [VerifierAgent._generate_context_label(tool_name, data)] *)
Definition _generate_context_label (tool_name : string) (data : dict)
    : result (option string) :=
  if String.eqb tool_name "weather" && mem "city" data then
    Ok (Some ("Weather for " ++ str (get_or_none data "city")))
  else if String.eqb tool_name "github" && mem "query" data then
    let query := get_or_none data "query" in
    n <- len query ;;
    query' <- (if (50 <? n)%Z then truncate_query query else Ok query) ;;
    Ok (Some ("GitHub search: " ++ str query'))
  else if String.eqb tool_name "news" && mem "query" data then
    Ok (Some ("News about " ++ str (get_or_none data "query")))
  else if String.eqb tool_name "wikipedia" then
    if mem "title" data then
      Ok (Some ("Wikipedia: " ++ str (get_or_none data "title")))
    else if mem "query" data then
      Ok (Some ("Wikipedia search: " ++ str (get_or_none data "query")))
    else Ok None
  else if String.eqb tool_name "crypto" && mem "coin" data then
    Ok (Some ("Crypto: " ++ str (get_or_none data "coin")))
  else if String.eqb tool_name "countries" then
    if mem "name" data then
      Ok (Some ("Country: " ++ str (get_or_none data "name")))
    else if mem "region" data then
      Ok (Some ("Region: " ++ str (get_or_none data "region")))
    else Ok None
  else Ok None.

Definition is_url_key (key : string) : bool :=
  String.eqb key "url" || String.eqb key "html_url".

(** [sources.append(value)] unless [value in sources]. *)
Definition add_source (value : string) (sources : list string) : list string :=
  if existsb (String.eqb value) sources then sources
  else (sources ++ [value])%list.

(** [VerifierAgent._extract_sources(data, sources)]; the list it mutates is
    passed through. *)
Fixpoint _extract_sources (data : value) (sources : list string) : list string :=
  match data with
  | VDict entries =>
      (fix items (es : list (string * value)) (sources : list string) : list string :=
         match es with
         | [] => sources
         | (key, value) :: es' =>
             items es'
               match value with
               | VStr s => if is_url_key key then add_source s sources else sources
               | VDict _ => _extract_sources value sources
               | VList _ => _extract_sources value sources
               | _ => sources
               end
         end) entries sources
  | VList l =>
      (fix each (l : list value) (sources : list string) : list string :=
         match l with
         | [] => sources
         | item :: l' => each l' (_extract_sources item sources)
         end) l sources
  | _ => sources
  end.

(** The state the loop over [successful_steps] builds up. *)
Record Collected : Type := mkCollected {
  collected_data : dict;
  sources : list string;
  suggestions : list value;
  correction_notes : list value
}.

(** [result_with_context]: a copy of the payload with the label, when there
    is one, under ["_context"]. *)
Definition with_context (tool_name : string) (data : dict) : result dict :=
  context_label <- _generate_context_label tool_name data ;;
  match context_label with
  | Some label =>
      if truthy (VStr label) then Ok (set data "_context" (VStr label)) else Ok data
  | None => Ok data
  end.

(** The branch [if tool_name in collected_data: ... else: ...]. *)
Definition store (tool_name : string) (result_with_context : dict)
    (collected : dict) : result dict :=
  match get collected tool_name with
  | Some existing =>
      promoted <-
        match existing with
        | VList entries => Ok entries
        | VDict first =>
            first' <- with_context tool_name first ;;
            Ok [VDict first']
        | other => Ok [other]
        end ;;
      Ok (set collected tool_name (VList (promoted ++ [VDict result_with_context])%list))
  | None => Ok (set collected tool_name (VDict result_with_context))
  end.

(** One iteration of the loop over [successful_steps]. *)
Definition collect_one (acc : Collected) (r : ToolResult.t) : result Collected :=
  match ToolResult.data r with
  | Some data =>
      if truthy (VDict data) then
        let tool_name := ToolResult.tool r in
        result_with_context <- with_context tool_name data ;;
        collected <- store tool_name result_with_context (collected_data acc) ;;
        let suggestions' :=
          if mem "suggestion" data
          then (suggestions acc ++ [get_or_none data "suggestion"])%list
          else suggestions acc in
        let correction_notes' :=
          if mem "correction_note" data
          then (correction_notes acc ++ [get_or_none data "correction_note"])%list
          else correction_notes acc in
        let sources' :=
          if contains "url" (str (VDict data))
          then _extract_sources (VDict data) (sources acc)
          else sources acc in
        Ok (mkCollected collected sources' suggestions' correction_notes')
      else Ok acc
  | None => Ok acc
  end.

Fixpoint collect (acc : Collected) (successful_steps : list ToolResult.t)
    : result Collected :=
  match successful_steps with
  | [] => Ok acc
  | r :: rest =>
      acc' <- collect_one acc r ;;
      collect acc' rest
  end.

(** [FinalResult] without the narrator's [summary] and the notes text. *)
Record FinalResult : Type := mkFinalResult {
  task : string;
  details : dict;
  final_sources : list string;
  execution_plan : ExecutionPlan.t;
  raw_results : list ToolResult.t;
  verified : bool
}.

(** [VerifierAgent.verify_and_format(task, execution_result)] *)
Definition verify_and_format (task : string) (execution_result : ExecutionResult.t)
    : result FinalResult :=
  let results := ExecutionResult.results execution_result in
  let failed_steps := filter (fun r => negb (ToolResult.success r)) results in
  let successful_steps := filter (fun r => ToolResult.success r) results in
  acc <- collect (mkCollected [] [] [] []) successful_steps ;;
  let verified := (List.length failed_steps =? 0)%nat in
  Ok (mkFinalResult task (collected_data acc) (sources acc)
        (ExecutionResult.plan execution_result) results verified).

(** What one scan of [_extract_sources] meets, before the membership test:
    the strings under the keys [is_url_key] accepts, in scan order. *)
Fixpoint links (data : value) : list string :=
  match data with
  | VDict entries =>
      (fix items (es : list (string * value)) : list string :=
         match es with
         | [] => []
         | (key, value) :: es' =>
             (match value with
              | VStr s => if is_url_key key then [s] else []
              | _ => links value
              end ++ items es')%list
         end) entries
  | VList l =>
      (fix each (l : list value) : list string :=
         match l with
         | [] => []
         | item :: l' => (links item ++ each l')%list
         end) l
  | _ => []
  end.

(** [add_source] applied to the strings of [l] in turn, from [seen]. *)
Definition dedup (seen : list string) (l : list string) : list string :=
  fold_left (fun acc x => add_source x acc) l seen.

(** §4.4 in its own words.  A field counts as a link by its name. *)
Definition named_link (key : string) : bool :=
  existsb (String.eqb key) ["url"; "html_url"].

(** The link strings of a payload in reading order: the text under a field
    named as a link, and the link strings of every nested dict and list. *)
Fixpoint cited (data : value) : list string :=
  match data with
  | VDict entries =>
      flat_map (fun kv : string * value =>
                  let (key, value) := kv in
                  match value with
                  | VStr text => if named_link key then [text] else []
                  | nested => cited nested
                  end) entries
  | VList items => flat_map cited items
  | _ => []
  end.

(** Each string once, at the place of its first occurrence. *)
Fixpoint first_seen (l : list string) : list string :=
  match l with
  | [] => []
  | x :: rest => x :: filter (fun y => negb (String.eqb y x)) (first_seen rest)
  end.

(** The payloads of the successful outcomes, in outcome order. *)
Definition successful_payloads (results : list ToolResult.t) : list value :=
  flat_map (fun r =>
              match ToolResult.success r, ToolResult.data r with
              | true, Some d => [VDict d]
              | _, _ => []
              end) results.

(** The citation list §4.4 describes: the link strings of the successful
    payloads in outcome order, each once, first seen first. *)
Definition documented_sources (results : list ToolResult.t) : list string :=
  first_seen (flat_map cited (successful_payloads results)).

(** A payload whose label can be computed without [len] or slicing failing:
    for the GitHub adapter, a ["query"] that is a string when present. *)
Definition label_safe (tool_name : string) (data : dict) : bool :=
  negb (String.eqb tool_name "github") ||
  match get data "query" with
  | None => true
  | Some (VStr _) => true
  | Some _ => false
  end.

Definition labels_computable (results : list ToolResult.t) : bool :=
  forallb (fun r =>
             negb (ToolResult.success r) ||
             match ToolResult.data r with
             | Some d => label_safe (ToolResult.tool r) d
             | None => true
             end) results.

End Verifier.

(* ================================================================== *)
(** ** Concrete worlds and plans used as test points *)
(* ================================================================== *)

Module Examples.

Definition no_tool : Tool := fun _ => None.

Definition offline : Httpx.Client :=
  fun _ _ => Raise (ConnectError "offline").

Definition plain_optimizer : QueryOptimizer :=
  mkQueryOptimizer (fun q _ => Ok (q, VNone)) (fun _ _ err => "Error: " ++ err).

Definition world (wikipedia_client weather_client : Httpx.Client) : Executor.World :=
  Executor.mkWorld no_tool weather_client "key" plain_optimizer no_tool
    no_tool no_tool no_tool wikipedia_client (fun _ => None).

Definition reply (data : value) : Httpx.Response :=
  Httpx.mkResponse 200 (Ok data) "".

(** An OpenSearch answer without hits. *)
Definition no_hits : Httpx.Client :=
  fun _ _ => Ok (reply (VList [VStr "Nepal"; VList []; VList []; VList []])).

(** An OpenSearch answer whose first hit is "Nepal (country)". *)
Definition nepal_hits : Httpx.Client :=
  fun _ _ =>
    Ok (reply (VList [VStr "Nepal";
                      VList [VStr "Nepal (country)"; VStr "Nepali language"];
                      VList [VStr ""; VStr ""];
                      VList [VStr "https://en.wikipedia.org/wiki/Nepal";
                             VStr "https://en.wikipedia.org/wiki/Nepali_language"]])).

(** A connection that fails once and works from the second request on. *)
Definition flaky (then_ok : Httpx.Client) : Httpx.Client :=
  fun k request =>
    match k with
    | O => Raise (ConnectError "connection reset")
    | S _ => then_ok k request
    end.

Definition step (n : Z) (tool action : string) (params : dict) : PlanStep.t :=
  PlanStep.mk n action tool params "".

Definition search_then_summary : ExecutionPlan.t :=
  ExecutionPlan.mk "Tell me about Nepal"
    [step 1 "wikipedia" "search" [("query", VStr "Nepal")];
     step 2 "wikipedia" "get_summary" []]
    ["wikipedia"].

Definition unknown_then_search : ExecutionPlan.t :=
  ExecutionPlan.mk "Use a tool that does not exist"
    [step 1 "doesnotexist" "run" [];
     step 2 "wikipedia" "search" [("query", VStr "Nepal")]]
    ["doesnotexist"; "wikipedia"].

Definition github_hits : ToolResult.t :=
  ToolResult.mk "github" true
    (Some [("success", VBool true); ("query", VStr "ml"); ("total_count", VInt 2);
           ("repositories",
            VList [VDict [("name", VStr "a/b");
                          ("url", VStr "https://github.com/a/b");
                          ("topics", VList [])];
                   VDict [("name", VStr "c/d");
                          ("url", VStr "https://github.com/c/d");
                          ("topics", VList [VStr "ml"])]])])
    None.

Definition news_hits : ToolResult.t :=
  ToolResult.mk "news" true
    (Some [("success", VBool true); ("total_results", VInt 2); ("query", VStr "ml");
           ("articles",
            VList [VDict [("title", VStr "About a/b");
                          ("url", VStr "https://github.com/a/b")];
                   VDict [("title", VStr "Elsewhere");
                          ("url", VStr "https://news.example/x")]])])
    None.

Definition weather_in (city : string) : dict :=
  [("success", VBool true); ("city", VStr city); ("country", VStr "XX");
   ("temperature", VStr "20°C")].

Definition weather_outcome (city : string) : ToolResult.t :=
  ToolResult.mk "weather" true (Some (weather_in city)) None.

Definition labelled_weather (city : string) : dict :=
  [("success", VBool true); ("city", VStr city); ("country", VStr "XX");
   ("temperature", VStr "20°C"); ("_context", VStr ("Weather for " ++ city))].

(** Every step meets the same world; later steps complete first. *)
Definition env_of (w : Executor.World) : Executor.Env :=
  Executor.mkEnv (fun _ => w) (fun i => 100 - i)%nat.

End Examples.

(* ================================================================== *)
(** ** [tools/weather_tool.py], the forecast pair *)
(* ================================================================== *)

Module WeatherForecast.

Fixpoint repeat_string (s : string) (n : nat) : string :=
  match n with
  | O => ""
  | S n' => s ++ repeat_string s n'
  end.

Fixpoint repeat_list {A : Type} (l : list A) (n : nat) : list A :=
  match n with
  | O => []
  | S n' => (l ++ repeat_list l n')%list
  end.

(** [v * n] for an integer [n]: arithmetic on numbers, repetition on strings
    and lists. *)
Definition mul_int (v : value) (n : Z) : result value :=
  match v with
  | VInt k => Ok (VInt (k * n))
  | VBool b => Ok (VInt ((if b then 1 else 0) * n))
  | VStr s => Ok (VStr (repeat_string s (Z.to_nat n)))
  | VList l => Ok (VList (repeat_list l (Z.to_nat n)))
  | VNone => Raise (Exception "TypeError"
                      "unsupported operand type(s) for *: 'NoneType' and 'int'")
  | VDict _ => Raise (Exception "TypeError"
                        "unsupported operand type(s) for *: 'dict' and 'int'")
  end.

(** [type(v).__name__] *)
Definition type_name (v : value) : string :=
  match v with
  | VNone => "NoneType"
  | VBool _ => "bool"
  | VInt _ => "int"
  | VStr _ => "str"
  | VList _ => "list"
  | VDict _ => "dict"
  end.

(** [min(v, n)] for an integer [n]: [n] when [n < v], else [v]. *)
Definition min_int (v : value) (n : Z) : result value :=
  match v with
  | VInt k => Ok (VInt (Z.min k n))
  | VBool b => if (n <? (if b then 1 else 0))%Z then Ok (VInt n) else Ok (VBool b)
  | _ => Raise (Exception "TypeError"
                  ("'<' not supported between instances of 'int' and '"
                     ++ type_name v ++ "'"))
  end.

(** Where a slice [[:stop]] of a sequence of length [len] ends. *)
Definition slice_stop (len : nat) (stop : Z) : nat :=
  if (stop <? 0)%Z then Z.to_nat (Z.max 0 (Z.of_nat len + stop))
  else Nat.min (Z.to_nat stop) len.

(** [l[:stop:8]]: the items at positions 0, 8, 16, ... below the stop. *)
Definition slice8 {A : Type} (l : list A) (stop : Z) : list A :=
  flat_map (fun k => match nth_error l (8 * k) with
                     | Some x => [x]
                     | None => []
                     end)
    (seq 0 ((slice_stop (List.length l) stop + 7) / 8)).

(** [x[:stop:8]] on values. *)
Definition slice8_value (x stop : value) : result value :=
  match stop with
  | VInt n =>
      match x with
      | VList l => Ok (VList (slice8 l n))
      | VStr s => Ok (VStr (String.concat "" (slice8 (chars s) n)))
      | VDict _ => Raise (Exception "TypeError" "unhashable type: 'slice'")
      | _ => Raise (Exception "TypeError" "object is not subscriptable")
      end
  | _ => Raise (Exception "TypeError"
                  "slice indices must be integers or None or have an __index__ method")
  end.

(** The items a [for] loop draws from a value. *)
Definition iterate (v : value) : result (list value) :=
  match v with
  | VList l => Ok l
  | VStr s => Ok (map VStr (chars s))
  | VDict entries => Ok (map (fun kv : string * value => VStr (fst kv)) entries)
  | _ => Raise (Exception "TypeError" "object is not iterable")
  end.

(** The body of [_fetch_forecast_data], run as request number [k]. *)
Definition fetch_forecast_once (client : Httpx.Client) (api_key : string)
    (city units days : value) (k : nat) : result value :=
  days8 <- mul_int days 8 ;;
  cnt <- min_int days8 40 ;;
  response <- client k
    (Httpx.mkRequest (WeatherTool.BASE_URL ++ "/forecast")
       (Some [("q", city); ("appid", VStr api_key); ("units", units);
              ("cnt", cnt)])) ;;
  _ <- Httpx.raise_for_status response ;;
  Httpx.json response.

(** [_fetch_forecast_data], under [@retry_api_call(max_attempts=3)]. *)
Definition _fetch_forecast_data (client : Httpx.Client) (api_key : string)
    (city units days : value) : Tenacity.Run value :=
  RetryUtils.retry_api_call 3
    RetryUtils.default_initial_wait RetryUtils.default_max_wait
    RetryUtils.default_multiplier
    (fun attempt_number =>
       fetch_forecast_once client api_key city units days (attempt_number - 1)).

(** One entry of the forecast list. *)
Definition forecast_entry (units item : value) : result value :=
  date <- getitem_str item "dt_txt" ;;
  main <- getitem_str item "main" ;;
  temp <- getitem_str main "temp" ;;
  weather <- getitem_str item "weather" ;;
  weather0 <- getitem_int weather 0 ;;
  description <- getitem_str weather0 "description" ;;
  main' <- getitem_str item "main" ;;
  humidity <- getitem_str main' "humidity" ;;
  Ok (VDict [("date", date);
             ("temperature", VStr (str temp ++ WeatherTool.temp_unit units));
             ("description", description);
             ("humidity", VStr (str humidity ++ "%"))]).

(** The loop [for item in ...: forecast_list.append({...})]. *)
Fixpoint forecast_entries (units : value) (items : list value)
    : result (list value) :=
  match items with
  | [] => Ok []
  | item :: rest =>
      entry <- forecast_entry units item ;;
      more <- forecast_entries units rest ;;
      Ok (entry :: more)
  end.

(** The "Format forecast" block. *)
Definition format_forecast (data units days correction_note : value)
    : result dict :=
  list <- getitem_str data "list" ;;
  stop <- mul_int days 8 ;;
  sliced <- slice8_value list stop ;;
  items <- iterate sliced ;;
  forecast_list <- forecast_entries units items ;;
  city <- getitem_str data "city" ;;
  name <- getitem_str city "name" ;;
  city' <- getitem_str data "city" ;;
  country <- getitem_str city' "country" ;;
  let result :=
    [("success", VBool true); ("city", name); ("country", country);
     ("forecast", VList forecast_list)] in
  Ok (if truthy correction_note
      then set result "correction_note" correction_note
      else result).

(** [WeatherTool.get_forecast(city, days, units)]: only [httpx] faults are
    handled, anything else leaves the method. *)
Definition get_forecast (client : Httpx.Client) (api_key : string)
    (optimizer : QueryOptimizer) (city days units : value) : result dict :=
  let original_city := city in
  corrected <- correct_query optimizer city "city" ;;
  let '(corrected_city, correction_note) := corrected in
  let attempt : result dict :=
    data <- Tenacity.outcome
              (_fetch_forecast_data client api_key corrected_city units days) ;;
    format_forecast data units days correction_note
  in
  match attempt with
  | Ok payload => Ok payload
  | Raise e =>
      match e with
      | HTTPStatusError status _ =>
          if (status =? 404)%Z
          then Ok (failure (get_error_reason optimizer "weather" original_city
                              "City not found"))
          else Ok (failure ("Weather API error: " ++ exn_str e))
      | ConnectError _ | TimeoutException _ =>
          Ok (failure ("Network error: " ++ exn_str e
                         ++ ". Please check your connection."))
      | HTTPError _ => Ok (failure ("Weather API error: " ++ exn_str e))
      | Exception _ _ => Raise e
      end
  end.

(** The attributes of the instance with [get_forecast] resolved: its
    signature is [(city, days=3, units="metric")]; every other name is read
    from [other]. *)
Definition getattr (client : Httpx.Client) (api_key : string)
    (optimizer : QueryOptimizer) (other : Tool) : Tool :=
  fun name =>
    if String.eqb name "get_forecast" then
      Some (Coroutine (mkMethod ["city"; "days"; "units"] ["city"]
        (fun kw =>
           payload <- get_forecast client api_key optimizer
                        (get_or_none kw "city") (arg kw "days" (VInt 3))
                        (arg kw "units" (VStr "metric")) ;;
           Ok (VDict payload))))
    else other name.

End WeatherForecast.

(* ================================================================== *)
(** ** [agents/verifier.py], the verification notes *)
(* ================================================================== *)

Module VerifierNotes.

Definition line_break : string := String Py.newline EmptyString.

(** The lines added for the failed steps. *)
Definition failure_lines (failed_steps : list ToolResult.t) : list string :=
  match failed_steps with
  | [] => []
  | _ :: _ =>
      ("Some steps failed: "
         ++ str (VList (map (fun f => VStr (ToolResult.tool f)) failed_steps)))
      :: flat_map (fun failed =>
                     match ToolResult.error failed with
                     | Some error =>
                         if truthy (VStr error)
                         then ["- " ++ ToolResult.tool failed ++ ": " ++ error]
                         else []
                     | None => []
                     end) failed_steps
  end.

(** The lines added for a list of advisories under its heading. *)
Definition advisory_lines (heading : string) (advisories : list value)
    : list string :=
  match advisories with
  | [] => []
  | _ :: _ => heading :: map (fun a => "- " ++ str a) advisories
  end.

Definition notes_parts (failed_steps : list ToolResult.t)
    (suggestions correction_notes : list value) : list string :=
  (failure_lines failed_steps
     ++ advisory_lines "Suggestions:" suggestions
     ++ advisory_lines "Corrections applied:" correction_notes)%list.

(** [verification_notes] as [verify_and_format] computes it. *)
Definition verification_notes (failed_steps : list ToolResult.t)
    (suggestions correction_notes : list value) : option string :=
  match notes_parts failed_steps suggestions correction_notes with
  | [] => None
  | parts => Some (String.concat line_break parts)
  end.

(** The notes of a whole run: the loop of [verify_and_format] followed by
    the notes block. *)
Definition notes_of (execution_result : ExecutionResult.t)
    : result (option string) :=
  let results := ExecutionResult.results execution_result in
  let failed_steps := filter (fun r => negb (ToolResult.success r)) results in
  let successful_steps := filter (fun r => ToolResult.success r) results in
  acc <- Verifier.collect (Verifier.mkCollected [] [] [] []) successful_steps ;;
  Ok (verification_notes failed_steps (Verifier.suggestions acc)
        (Verifier.correction_notes acc)).

(** The tagged payloads of one tool among the successful outcomes, in
    outcome order. *)
Fixpoint tagged_of (tool_name : string) (successful_steps : list ToolResult.t)
    : list dict :=
  match successful_steps with
  | [] => []
  | r :: rest =>
      match ToolResult.data r with
      | Some (kv :: data) =>
          if String.eqb (ToolResult.tool r) tool_name then
            match Verifier.with_context tool_name (kv :: data) with
            | Ok tagged => tagged :: tagged_of tool_name rest
            | Raise _ => tagged_of tool_name rest
            end
          else tagged_of tool_name rest
      | _ => tagged_of tool_name rest
      end
  end.

(** How a tool's tagged payloads appear in the by-tool map. *)
Definition entry_of (tagged : list dict) : option value :=
  match tagged with
  | [] => None
  | [one] => Some (VDict one)
  | _ => Some (VList (map VDict tagged))
  end.

(** What the loop appends to [suggestions] (key ["suggestion"]) and to
    [correction_notes] (key ["correction_note"]): the value under the key in
    every payload that has it, in outcome order. *)
Definition advisories (key : string) (successful_steps : list ToolResult.t)
    : list value :=
  flat_map (fun r => match ToolResult.data r with
                     | Some (kv :: data) =>
                         if mem key (kv :: data)
                         then [get_or_none (kv :: data) key]
                         else []
                     | _ => []
                     end) successful_steps.

(** The tools that produced a payload, in outcome order. *)
Definition payload_tools (successful_steps : list ToolResult.t) : list string :=
  flat_map (fun r => match ToolResult.data r with
                     | Some (_ :: _) => [ToolResult.tool r]
                     | _ => []
                     end) successful_steps.

End VerifierNotes.

(* ================================================================== *)
(** ** Further test points *)
(* ================================================================== *)

Module Cases.

Definition status_reply (status : Z) : Httpx.Response :=
  Httpx.mkResponse status (Ok VNone) "".

(** A service that answers every request with the given status. *)
Definition always_status (status : Z) : Httpx.Client :=
  fun _ _ => Ok (status_reply status).

(** An OpenSearch answer with two titles and one description. *)
Definition ragged_hits : Httpx.Client :=
  fun _ _ =>
    Ok (Examples.reply
          (VList [VStr "Nepal";
                  VList [VStr "Nepal"; VStr "Nepali language"];
                  VList [VStr "Country in Asia"];
                  VList [VStr "https://en.wikipedia.org/wiki/Nepal";
                         VStr "https://en.wikipedia.org/wiki/Nepali_language"]])).

Definition forecast_item (n : Z) : value :=
  VDict [("dt_txt", VStr ("slot " ++ str_of_Z n));
         ("main", VDict [("temp", VInt n); ("humidity", VInt 50)]);
         ("weather", VList [VDict [("description", VStr "clear sky")]])].

(** A forecast answer with 24 three-hour slots. *)
Definition forecast_reply : value :=
  VDict [("list", VList (map (fun k => forecast_item (Z.of_nat k)) (seq 0 24)));
         ("city", VDict [("name", VStr "Paris"); ("country", VStr "FR")])].

Definition forecast_service : Httpx.Client :=
  fun _ _ => Ok (Examples.reply forecast_reply).

Definition failed (tool error : string) : ToolResult.t :=
  ToolResult.mk tool false None (Some error).

(** A current-weather answer for Paris. *)
Definition weather_reply : value :=
  VDict [("name", VStr "Paris");
         ("sys", VDict [("country", VStr "FR")]);
         ("main", VDict [("temp", VInt 20); ("feels_like", VInt 19);
                         ("humidity", VInt 50)]);
         ("weather", VList [VDict [("description", VStr "clear sky")]]);
         ("wind", VDict [("speed", VInt 3)]);
         ("coord", VDict [("lat", VInt 48); ("lon", VInt 2)])].

Definition weather_service : Httpx.Client :=
  fun _ _ => Ok (Examples.reply weather_reply).

(** A world whose weather adapter also resolves [get_forecast]. *)
Definition forecast_world (weather_client : Httpx.Client) : Executor.World :=
  Executor.mkWorld Examples.no_tool weather_client "key" Examples.plain_optimizer
    (WeatherForecast.getattr weather_client "key" Examples.plain_optimizer
       Examples.no_tool)
    Examples.no_tool Examples.no_tool Examples.no_tool Examples.offline
    (fun _ => None).

End Cases.

(* ================================================================== *)
(** * Properties *)
(* ================================================================== *)

(** ** The retry decorator *)

Section RetryFacts.

Context {A : Type}.
Variables (max_attempts : nat) (wait : nat -> Z) (fn : nat -> result A).

Local Abbreviation loop :=
  (Tenacity.retrying (Tenacity.stop_after_attempt max_attempts) wait
     RetryUtils.retry_condition fn).

(** The loop never reports fewer attempts than the one it starts from. *)
Lemma retrying_attempts_ge (fuel a : nat) (slept : list Z) :
  (a <= Tenacity.attempts (loop fuel a slept))%nat.
Proof.
  revert a slept.
  induction fuel as [|fuel IH]; intros a slept; simpl;
    destruct (fn a) as [v|e]; simpl; try lia;
    destruct (RetryUtils.retry_condition e); simpl; try lia;
    destruct (Tenacity.stop_after_attempt max_attempts a); simpl; try lia.
  specialize (IH (S a) (slept ++ [wait a])%list). lia.
Qed.

(** [d] retryable failures in a row, with attempts to spare, are slept
    through one by one. *)
Lemma retrying_advance (d : nat) :
  forall fuel a slept,
    (forall j, (a <= j < a + d)%nat ->
               exists e, fn j = Raise e /\ RetryUtils.retry_condition e = true) ->
    (a + d <= max_attempts)%nat ->
    (d <= fuel)%nat ->
    loop fuel a slept =
    loop (fuel - d) (a + d)%nat (slept ++ map wait (seq a d))%list.
Proof.
  induction d as [|d IH]; intros fuel a slept Hfail Hmax Hfuel.
  - simpl. rewrite Nat.sub_0_r, Nat.add_0_r, app_nil_r. reflexivity.
  - destruct fuel as [|fuel]; [lia|].
    destruct (Hfail a ltac:(lia)) as (e & He & Hr).
    simpl Tenacity.retrying at 1. rewrite He, Hr. simpl negb. cbv iota.
    unfold Tenacity.stop_after_attempt at 1.
    destruct (Nat.leb_spec max_attempts a) as [Hle|_]; [lia|].
    rewrite IH; try lia.
    + replace (S a + d)%nat with (a + S d)%nat by lia.
      simpl seq. simpl map. rewrite <- app_assoc. reflexivity.
    + intros j Hj. apply Hfail. lia.
Qed.

(** A failure the predicate rejects ends the call where it happens. *)
Lemma retrying_terminal (fuel a : nat) (slept : list Z) (e : exn) :
  fn a = Raise e -> RetryUtils.retry_condition e = false ->
  loop fuel a slept = Tenacity.mkRun (Raise e) a slept.
Proof.
  intros He Hr. destruct fuel; simpl; rewrite He, Hr; reflexivity.
Qed.

(** A success ends the call where it happens. *)
Lemma retrying_success (fuel a : nat) (slept : list Z) (v : A) :
  fn a = Ok v -> loop fuel a slept = Tenacity.mkRun (Ok v) a slept.
Proof.
  intros Hv. destruct fuel; simpl; rewrite Hv; reflexivity.
Qed.

(** A retryable failure on the last allowed attempt is re-raised as it is. *)
Lemma retrying_exhausted (fuel a : nat) (slept : list Z) (e : exn) :
  fn a = Raise e -> (max_attempts <= a)%nat ->
  loop fuel a slept = Tenacity.mkRun (Raise e) a slept.
Proof.
  intros He Hmax.
  assert (Hstop : Tenacity.stop_after_attempt max_attempts a = true)
    by (apply Nat.leb_le; exact Hmax).
  destruct fuel; simpl; rewrite He, Hstop;
    destruct (RetryUtils.retry_condition e); reflexivity.
Qed.

End RetryFacts.

(** The predicate handed to tenacity is the documented classification. *)
Lemma retry_condition_spec (e : exn) :
  RetryUtils.retry_condition e = true <-> RetryUtils.documented_retryable e.
Proof.
  unfold RetryUtils.documented_retryable, RetryUtils.retry_condition,
    Tenacity.retry_any, Tenacity.retry_if_exception_type,
    Tenacity.retry_if_exception, RetryUtils.should_retry_http_error.
  destruct e as [m|m|s m|m|c m]; simpl.
  - split; [intros _; left; eauto | reflexivity].
  - split; [intros _; right; left; eauto | reflexivity].
  - destruct (Z.leb_spec 500 s) as [H5|H5]; simpl.
    + split; [intros _; right; right; exists s, m; split; [reflexivity | lia] | reflexivity].
    + destruct (Z.eqb_spec s 429) as [H4|H4]; simpl.
      * split; [intros _; right; right; exists s, m; split; [reflexivity | lia] | reflexivity].
      * split; [discriminate|].
        intros [[x Hx]|[[x Hx]|(s' & m' & Heq & Hs)]]; try discriminate.
        inversion Heq; subst. lia.
  - split; [discriminate|].
    intros [[x Hx]|[[x Hx]|(s' & m' & Heq & _)]]; discriminate.
  - split; [discriminate|].
    intros [[x Hx]|[[x Hx]|(s' & m' & Heq & _)]]; discriminate.
Qed.

(** C3.  The retry predicate accepts exactly connectivity faults, timeouts
    and status errors with status >= 500 or = 429.  When attempt [k] fails
    after [k - 1] retried failures: a retryable fault with attempts to spare
    leads to a further attempt; any other fault is the outcome of the call,
    after exactly [k] attempts and [k - 1] sleeps. *)
Theorem retry_iff_transient_fault :
  forall (A : Type) (max_attempts : nat) (initial_wait max_wait multiplier : Z)
         (fn : nat -> result A) (k : nat) (e : exn),
    (1 <= k <= max_attempts)%nat ->
    (forall j, (1 <= j < k)%nat ->
               exists e', fn j = Raise e' /\ RetryUtils.retry_condition e' = true) ->
    fn k = Raise e ->
    let run := RetryUtils.retry_api_call max_attempts initial_wait max_wait
                 multiplier fn in
    (RetryUtils.retry_condition e = true <-> RetryUtils.documented_retryable e) /\
    (RetryUtils.documented_retryable e -> (k < max_attempts)%nat ->
       (k < Tenacity.attempts run)%nat) /\
    (~ RetryUtils.documented_retryable e ->
       Tenacity.outcome run = Raise e /\
       Tenacity.attempts run = k /\
       List.length (Tenacity.sleeps run) = (k - 1)%nat).
Proof.
  intros A max_attempts iw mw mult fn k e Hk Hprev Hfail run.
  assert (Hadv :
    run = Tenacity.retrying (Tenacity.stop_after_attempt max_attempts)
            (Tenacity.wait_exponential mult iw mw) RetryUtils.retry_condition fn
            (max_attempts - (k - 1)) k
            (map (Tenacity.wait_exponential mult iw mw) (seq 1 (k - 1)))).
  { subst run. unfold RetryUtils.retry_api_call.
    rewrite (retrying_advance max_attempts _ fn (k - 1)); try lia.
    - replace (1 + (k - 1))%nat with k by lia. reflexivity.
    - intros j Hj. apply Hprev. lia. }
  split; [apply retry_condition_spec|]. split.
  - intros Hre Hlt. apply retry_condition_spec in Hre.
    rewrite Hadv.
    destruct (max_attempts - (k - 1))%nat as [|fuel] eqn:Hf; [lia|].
    simpl. rewrite Hfail, Hre. simpl.
    unfold Tenacity.stop_after_attempt at 1.
    destruct (Nat.leb_spec max_attempts k) as [Hle|_]; [lia|].
    pose proof (retrying_attempts_ge max_attempts
                  (Tenacity.wait_exponential mult iw mw) fn fuel (S k)
                  (map (Tenacity.wait_exponential mult iw mw) (seq 1 (k - 1))
                     ++ [Tenacity.wait_exponential mult iw mw k])%list) as Hge.
    lia.
  - intros Hnot.
    assert (Hr : RetryUtils.retry_condition e = false).
    { destruct (RetryUtils.retry_condition e) eqn:E; [|reflexivity].
      exfalso. apply Hnot. apply retry_condition_spec. exact E. }
    rewrite Hadv, (retrying_terminal max_attempts _ fn _ _ _ e Hfail Hr). simpl.
    rewrite length_map, length_seq. auto.
Qed.

(** A terminal fault on the first attempt of the default policy. *)
Lemma retry_iff_transient_fault_witness :
  let fn : nat -> result value :=
    fun _ => Raise (HTTPStatusError 404 "not found") in
  let run := RetryUtils.retry_api_call 3 1 10 2 fn in
  (RetryUtils.retry_condition (HTTPStatusError 404 "not found") = true <->
   RetryUtils.documented_retryable (HTTPStatusError 404 "not found")) /\
  (RetryUtils.documented_retryable (HTTPStatusError 404 "not found") ->
     (1 < 3)%nat -> (1 < Tenacity.attempts run)%nat) /\
  (~ RetryUtils.documented_retryable (HTTPStatusError 404 "not found") ->
     Tenacity.outcome run = Raise (HTTPStatusError 404 "not found") /\
     Tenacity.attempts run = 1%nat /\
     List.length (Tenacity.sleeps run) = 0%nat).
Proof.
  intros fn run.
  apply (retry_iff_transient_fault value 3 1 10 2 fn 1
           (HTTPStatusError 404 "not found")).
  - lia.
  - intros j Hj. lia.
  - reflexivity.
Defined.

(** C4, evaluated on the code.  With the defaults, two retryable failures
    followed by a success give the success after 3 attempts and 2 sleeps,
    and the sleeps are 2 s then 4 s, where the documented schedule
    [min(cap, initial * multiplier^(attempt-1))] asks for 1 s then 2 s. *)
Theorem default_backoff_sleeps_2_then_4 :
  forall (A : Type) (fn : nat -> result A) (e1 e2 : exn) (v : A),
    fn 1%nat = Raise e1 -> RetryUtils.retry_condition e1 = true ->
    fn 2%nat = Raise e2 -> RetryUtils.retry_condition e2 = true ->
    fn 3%nat = Ok v ->
    RetryUtils.retry_api_call RetryUtils.default_max_attempts
      RetryUtils.default_initial_wait RetryUtils.default_max_wait
      RetryUtils.default_multiplier fn
    = Tenacity.mkRun (Ok v) 3 [2; 4]%Z /\
    map (RetryUtils.documented_backoff RetryUtils.default_max_wait
           RetryUtils.default_initial_wait RetryUtils.default_multiplier)
        [1; 2]%nat = [1; 2]%Z.
Proof.
  intros A fn e1 e2 v H1 R1 H2 R2 H3. split; [|reflexivity].
  unfold RetryUtils.retry_api_call, RetryUtils.default_max_attempts.
  simpl Tenacity.retrying. rewrite H1, R1. simpl. rewrite H2, R2. simpl.
  rewrite H3. reflexivity.
Qed.

Lemma default_backoff_sleeps_2_then_4_witness :
  let fn : nat -> result value :=
    fun k => if (k <=? 2)%nat then Raise (ConnectError "connection refused")
             else Ok (VStr "payload") in
  RetryUtils.retry_api_call RetryUtils.default_max_attempts
    RetryUtils.default_initial_wait RetryUtils.default_max_wait
    RetryUtils.default_multiplier fn
  = Tenacity.mkRun (Ok (VStr "payload")) 3 [2; 4]%Z /\
  map (RetryUtils.documented_backoff RetryUtils.default_max_wait
         RetryUtils.default_initial_wait RetryUtils.default_multiplier)
      [1; 2]%nat = [1; 2]%Z.
Proof.
  intros fn.
  apply (default_backoff_sleeps_2_then_4 value fn
           (ConnectError "connection refused") (ConnectError "connection refused")
           (VStr "payload")); reflexivity.
Defined.

(** ** Sorting a batch back into plan order *)

Section SortFacts.

Context {A : Type}.
Variable key : A -> nat.

Lemma insert_by_perm (x : A) (l : list A) :
  Permutation (Executor.insert_by key x l) (x :: l).
Proof.
  induction l as [|y l IH]; simpl; [reflexivity|].
  destruct (key x <=? key y)%nat; [reflexivity|].
  rewrite IH. apply perm_swap.
Qed.

Lemma sort_by_perm (l : list A) : Permutation (Executor.sort_by key l) l.
Proof.
  induction l as [|x l IH]; simpl; [reflexivity|].
  rewrite insert_by_perm. apply perm_skip, IH.
Qed.

Lemma insert_by_sorted (x : A) (l : list A) :
  StronglySorted (fun a b => key a <= key b)%nat l ->
  StronglySorted (fun a b => key a <= key b)%nat (Executor.insert_by key x l).
Proof.
  induction l as [|y l IH]; intros Hs; simpl.
  - constructor; constructor.
  - apply StronglySorted_inv in Hs. destruct Hs as [Hs Hy].
    destruct (Nat.leb_spec (key x) (key y)) as [Hle|Hgt].
    + constructor; [constructor; assumption|].
      constructor; [exact Hle|].
      eapply Forall_impl; [|exact Hy]. simpl. intros; lia.
    + constructor; [apply IH; exact Hs|].
      eapply Permutation_Forall; [symmetry; apply insert_by_perm|].
      constructor; [lia | exact Hy].
Qed.

Lemma sort_by_sorted (l : list A) :
  StronglySorted (fun a b => key a <= key b)%nat (Executor.sort_by key l).
Proof.
  induction l as [|x l IH]; simpl; [constructor|].
  apply insert_by_sorted, IH.
Qed.

(** Two sorted arrangements of elements with distinct keys coincide. *)
Lemma sorted_perm_unique (l1 : list A) :
  forall l2,
    StronglySorted (fun a b => key a <= key b)%nat l1 ->
    StronglySorted (fun a b => key a <= key b)%nat l2 ->
    Permutation l1 l2 ->
    NoDup (map key l2) ->
    l1 = l2.
Proof.
  induction l1 as [|a l1 IH]; intros l2 S1 S2 HP HN.
  - apply Permutation_nil in HP. subst. reflexivity.
  - destruct l2 as [|b l2];
      [apply Permutation_sym, Permutation_nil in HP; discriminate|].
    apply StronglySorted_inv in S1. destruct S1 as [S1 Ha].
    apply StronglySorted_inv in S2. destruct S2 as [S2 Hb].
    assert (Hab : a = b).
    { assert (Ia : In a (b :: l2))
        by (eapply Permutation_in; [exact HP | left; reflexivity]).
      assert (Ib : In b (a :: l1))
        by (eapply Permutation_in; [symmetry; exact HP | left; reflexivity]).
      destruct Ia as [->|Ia]; [reflexivity|].
      destruct Ib as [->|Ib]; [reflexivity|].
      rewrite Forall_forall in Ha, Hb.
      pose proof (Ha _ Ib). pose proof (Hb _ Ia).
      assert (Hk : key b = key a) by lia.
      exfalso. simpl in HN. inversion HN as [|? ? Hnotin _]; subst.
      apply Hnotin. rewrite Hk. apply in_map. exact Ia. }
    subst b. f_equal.
    apply IH; try assumption.
    + eapply Permutation_cons_inv; exact HP.
    + simpl in HN. inversion HN; assumption.
Qed.

Lemma strictly_sorted_keys (l : list A) :
  StronglySorted (fun a b => key a < key b)%nat l ->
  StronglySorted (fun a b => key a <= key b)%nat l /\ NoDup (map key l).
Proof.
  induction 1 as [|a l Hs [IH1 IH2] Ha]; split; try constructor; try assumption.
  - eapply Forall_impl; [|exact Ha]. simpl; intros; lia.
  - intros Hin. apply in_map_iff in Hin. destruct Hin as (b & Hk & Hb).
    rewrite Forall_forall in Ha. specialize (Ha _ Hb). lia.
Qed.

(** Sorting any arrangement of a strictly increasing list gives it back. *)
Lemma sort_by_restores (l l0 : list A) :
  Permutation l l0 ->
  StronglySorted (fun a b => key a < key b)%nat l0 ->
  Executor.sort_by key l = l0.
Proof.
  intros HP Hs. destruct (strictly_sorted_keys l0 Hs) as [Hle Hnd].
  apply sorted_perm_unique; try assumption.
  - apply sort_by_sorted.
  - rewrite sort_by_perm. exact HP.
Qed.

End SortFacts.

Lemma seq_strictly_sorted (n i : nat) :
  StronglySorted lt (seq i n).
Proof.
  revert i. induction n as [|n IH]; intros i; simpl; constructor; [apply IH|].
  apply Forall_forall. intros x Hx. apply in_seq in Hx. lia.
Qed.

Lemma strongly_sorted_map {A B : Type} (f : A -> B) (R : B -> B -> Prop)
    (l : list A) :
  StronglySorted R (map f l) -> StronglySorted (fun a b => R (f a) (f b)) l.
Proof.
  induction l as [|a l IH]; simpl; intros Hs; [constructor|].
  apply StronglySorted_inv in Hs. destruct Hs as [Hs Ha].
  constructor; [apply IH; exact Hs|].
  rewrite Forall_map in Ha. exact Ha.
Qed.

(** Whatever the completion order, a batch whose indices increase comes out
    of the re-sort in batch order. *)
Lemma batch_resorted (env : Executor.Env) (batch : list (nat * PlanStep.t))
    (i : nat) :
  map fst batch = seq i (List.length batch) ->
  map snd (Executor.sort_by (fun r => fst r) (Executor.gather env batch))
  = map (fun p => Executor._execute_step (Executor.world_at env (fst p)) (snd p))
        batch.
Proof.
  intros Hidx.
  rewrite (sort_by_restores (fun r : nat * ToolResult.t => fst r)
             (Executor.gather env batch)
             (map (Executor.execute_with_index env) batch)).
  - rewrite map_map. apply map_ext. intros [idx step]. reflexivity.
  - unfold Executor.gather. apply sort_by_perm.
  - apply strongly_sorted_map with (R := lt).
    rewrite map_map.
    replace (map (fun x => fst (Executor.execute_with_index env x)) batch)
      with (map fst batch)
      by (apply map_ext; intros [idx step]; reflexivity).
    rewrite Hidx. apply seq_strictly_sorted.
Qed.

(** ** One step *)

Lemma validate_tool (t : string) (s : bool) (d e : value) (r : ToolResult.t) :
  ToolResult.validate t s d e = Ok r ->
  ToolResult.tool r = t /\ ToolResult.success r = s.
Proof.
  unfold ToolResult.validate.
  destruct d; simpl; try discriminate; destruct e; simpl; try discriminate;
    intros H; inversion H; subst; auto.
Qed.

Lemma execute_step_body_tool (w : Executor.World) (step : PlanStep.t)
    (r : ToolResult.t) :
  Executor.execute_step_body w step = Ok r ->
  ToolResult.tool r = PlanStep.tool step.
Proof.
  unfold Executor.execute_step_body.
  destruct (Executor.tools_get (Executor.tools w) (PlanStep.tool step)) as [tool|];
    [|intros H; apply validate_tool in H; tauto].
  destruct (tool (PlanStep.action step)) as [[m|e]|];
    [| discriminate | intros H; apply validate_tool in H; tauto].
  destruct (call m _) as [v|e]; simpl; [|discriminate].
  destruct v; try (intros H; apply validate_tool in H; tauto).
  destruct (mem "success" entries);
    [destruct (truthy _)|]; intros H; apply validate_tool in H; tauto.
Qed.

(** The outcome always names the step's tool. *)
Lemma execute_step_tool (w : Executor.World) (step : PlanStep.t) :
  ToolResult.tool (Executor._execute_step w step) = PlanStep.tool step.
Proof.
  unfold Executor._execute_step.
  destruct (Executor.execute_step_body w step) as [r|e] eqn:E; [|reflexivity].
  apply execute_step_body_tool in E. exact E.
Qed.

(** ** Injection *)

Lemma last_result_snoc (results : list ToolResult.t) (r : ToolResult.t) :
  Executor.last_result (results ++ [r]) = Some r.
Proof.
  unfold Executor.last_result. rewrite map_app. simpl. apply last_last.
Qed.

(** Injection reads the outcome list through its last element only. *)
Lemma inject_title_last (results : list ToolResult.t) (r : ToolResult.t)
    (step : PlanStep.t) :
  Executor.inject_title (results ++ [r]) step = Executor.inject_title [r] step.
Proof.
  unfold Executor.inject_title.
  rewrite last_result_snoc.
  replace (0 <? List.length (results ++ [r]))%nat with true
    by (symmetry; apply Nat.ltb_lt; rewrite length_app; simpl; lia).
  reflexivity.
Qed.

(** Injection leaves the step alone or sets its ["title"]. *)
Lemma inject_title_cases (results : list ToolResult.t) (step step' : PlanStep.t) :
  Executor.inject_title results step = Ok step' ->
  step' = step \/ exists t, step' = PlanStep.set_param step "title" t.
Proof.
  unfold Executor.inject_title.
  destruct (_ && _ && _ && _); [|intros H; inversion H; auto].
  destruct (Executor.last_result results) as [[t s [d|] e]|];
    try (intros H; inversion H; auto; fail).
  destruct (_ || _); [|intros H; inversion H; auto].
  destruct (truthy _); [|intros H; inversion H; auto].
  destruct (len _) as [n|]; simpl; [|discriminate].
  destruct (0 <? n)%Z; [|intros H; inversion H; auto].
  destruct (getitem_int _ 0) as [x|]; simpl; [|discriminate].
  destruct (getitem_str x "title") as [ti|]; simpl; [|discriminate].
  intros H; inversion H. right. eauto.
Qed.

Lemma inject_title_signature (results : list ToolResult.t) (step step' : PlanStep.t) :
  Executor.inject_title results step = Ok step' ->
  PlanStep.tool step' = PlanStep.tool step /\
  PlanStep.action step' = PlanStep.action step.
Proof.
  intros H. apply inject_title_cases in H. destruct H as [->|[t ->]]; auto.
Qed.

(** ** The Wikipedia search payload *)

Lemma build_results_items (titles descriptions urls : value) (indices : list nat) :
  forall l,
    WikipediaTool.build_results titles descriptions urls indices = Ok l ->
    Forall WikipediaTool.search_item l.
Proof.
  induction indices as [|i rest IH]; simpl; intros l H.
  - inversion H. constructor.
  - destruct (getitem_int titles i); simpl in H; [|discriminate].
    destruct (getitem_int descriptions i); simpl in H; [|discriminate].
    destruct (getitem_int urls i); simpl in H; [|discriminate].
    destruct (WikipediaTool.build_results titles descriptions urls rest);
      simpl in H; [|discriminate].
    inversion H; subst. constructor; [|apply IH; reflexivity].
    unfold WikipediaTool.search_item. eauto.
Qed.

(** [search] answers with a well-formed result list or with a failure. *)
Lemma search_shape (client : Httpx.Client) (query limit : value) :
  (exists rs,
      WikipediaTool.search client query limit
      = [("success", VBool true); ("query", query); ("results", VList rs)] /\
      Forall WikipediaTool.search_item rs) \/
  (exists msg, WikipediaTool.search client query limit = failure msg).
Proof.
  unfold WikipediaTool.search.
  destruct (client 0%nat _) as [response|e]; simpl;
    [|right; destruct (is_HTTPError e); eauto].
  destruct (Httpx.raise_for_status response) as [[]|e]; simpl;
    [|right; destruct (is_HTTPError e); eauto].
  destruct (Httpx.json response) as [data|e]; simpl;
    [|right; destruct (is_HTTPError e); eauto].
  destruct (len data) as [n|e]; simpl;
    [|right; destruct (is_HTTPError e); eauto].
  destruct (4 <=? n)%Z.
  - destruct (getitem_int data 1) as [titles|e]; simpl;
      [|right; destruct (is_HTTPError e); eauto].
    destruct (getitem_int data 2) as [descriptions|e]; simpl;
      [|right; destruct (is_HTTPError e); eauto].
    destruct (getitem_int data 3) as [urls|e]; simpl;
      [|right; destruct (is_HTTPError e); eauto].
    destruct (len titles) as [m|e]; simpl;
      [|right; destruct (is_HTTPError e); eauto].
    destruct (WikipediaTool.build_results _ _ _ _) as [l|e] eqn:B; simpl;
      [|right; destruct (is_HTTPError e); eauto].
    left. exists l. split; [reflexivity|].
    eapply build_results_items; exact B.
  - simpl. left. exists []. split; [reflexivity | constructor].
Qed.

(** The outcome of a [wikipedia.search] step, when it succeeded, carries a
    payload of that shape. *)
Lemma search_step_outcome (w : Executor.World) (p : PlanStep.t) :
  PlanStep.tool p = "wikipedia" -> PlanStep.action p = "search" ->
  ToolResult.success (Executor._execute_step w p) = true ->
  exists q rs,
    ToolResult.data (Executor._execute_step w p)
    = Some [("success", VBool true); ("query", q); ("results", VList rs)] /\
    Forall WikipediaTool.search_item rs.
Proof.
  intros Ht Ha.
  unfold Executor._execute_step, Executor.execute_step_body.
  rewrite Ht, Ha. simpl Executor.tools_get. cbv beta iota.
  change (WikipediaTool.getattr (Executor.wikipedia_client w) (Executor.inherited w)
            "search")
    with (Some (Coroutine (mkMethod ["query"; "limit"] ["query"]
           (fun kw => Ok (VDict (WikipediaTool.search (Executor.wikipedia_client w)
                                   (get_or_none kw "query")
                                   (arg kw "limit" (VInt 5)))))))).
  cbv beta iota. unfold call. simpl required. simpl parameters.
  destruct (filter _ ["query"]) as [|missing rest]; simpl; [|discriminate].
  destruct (search_shape (Executor.wikipedia_client w)
              (get_or_none (Executor.filter_params ["query"; "limit"] (PlanStep.params p))
                 "query")
              (arg (Executor.filter_params ["query"; "limit"] (PlanStep.params p))
                 "limit" (VInt 5)))
    as [(rs & Hs & Hitems)|(msg & Hf)].
  - rewrite Hs. simpl. intros _. eauto.
  - rewrite Hf. simpl. discriminate.
Qed.

(** After a [wikipedia.search] step, reading the title never raises. *)
Lemma inject_after_search (w : Executor.World) (p step : PlanStep.t) :
  PlanStep.tool p = "wikipedia" -> PlanStep.action p = "search" ->
  exists step', Executor.inject_title [Executor._execute_step w p] step = Ok step'.
Proof.
  intros Ht Ha.
  pose proof (search_step_outcome w p Ht Ha) as Hshape.
  unfold Executor.inject_title. simpl Executor.last_result.
  destruct (String.eqb (PlanStep.tool step) "wikipedia" &&
            String.eqb (PlanStep.action step) "get_summary" &&
            (0 <? List.length [Executor._execute_step w p])%nat);
    [|simpl; eauto].
  rewrite andb_true_l.
  unfold Executor.data_truthy.
  destruct (Executor._execute_step w p) as [t s d e]. simpl in *.
  destruct (String.eqb t "wikipedia"); simpl; [|eauto].
  destruct s; simpl; [|eauto].
  destruct (Hshape eq_refl) as (q & rs & Hd & Hitems). subst d. simpl.
  destruct (_ || _); [|eauto].
  destruct rs as [|x rs]; simpl; [eauto|].
  inversion Hitems as [|? ? Hx _]; subst.
  destruct Hx as (ti & de & u & ->). simpl.
  destruct (0 <? Z.pos (Pos.of_succ_nat (List.length rs)))%Z; eauto.
Qed.

(** ** The dependency test *)

Lemma depends_on_previous_signature (a b : list PlanStep.t) (i : nat) :
  Executor.signature a = Executor.signature b ->
  Executor.depends_on_previous a i = Executor.depends_on_previous b i.
Proof.
  intros Hsig.
  assert (Hnth : forall j,
             option_map (fun s => (PlanStep.tool s, PlanStep.action s)) (nth_error a j)
             = option_map (fun s => (PlanStep.tool s, PlanStep.action s)) (nth_error b j)).
  { intros j. unfold Executor.signature in Hsig.
    rewrite <- !nth_error_map, Hsig. reflexivity. }
  unfold Executor.depends_on_previous.
  pose proof (Hnth i) as Hi. pose proof (Hnth (i - 1)%nat) as Hp.
  destruct (nth_error a i) as [sa|], (nth_error b i) as [sb|];
    simpl in Hi; try discriminate; [|reflexivity].
  inversion Hi as [[Ht Hac]]. rewrite Ht, Hac.
  destruct (nth_error a (i - 1)) as [pa|], (nth_error b (i - 1)) as [pb|];
    simpl in Hp; try discriminate; [|reflexivity].
  inversion Hp as [[Ht' Hac']]. rewrite Ht', Hac'. reflexivity.
Qed.

Lemma depends_on_previous_true (steps : list PlanStep.t) (i : nat) :
  Executor.depends_on_previous steps i = true ->
  exists s p,
    nth_error steps i = Some s /\ (0 < i)%nat /\
    nth_error steps (i - 1) = Some p /\
    PlanStep.tool s = "wikipedia" /\ PlanStep.action s = "get_summary" /\
    PlanStep.tool p = "wikipedia" /\ PlanStep.action p = "search".
Proof.
  unfold Executor.depends_on_previous.
  destruct (nth_error steps i) as [s|]; [|discriminate].
  destruct (nth_error steps (i - 1)) as [p|];
    [|rewrite andb_false_r; discriminate].
  intros H.
  apply andb_prop in H. destruct H as [H Hp].
  apply andb_prop in H. destruct H as [H Hi].
  apply andb_prop in H. destruct H as [Ht Ha].
  apply andb_prop in Hp. destruct Hp as [Hpt Hpa].
  exists s, p. repeat split; try reflexivity;
    try (apply String.eqb_eq; assumption).
  apply Nat.ltb_lt. assumption.
Qed.

Lemma nth_error_replace_nth_eq {A : Type} (l : list A) (i : nat) (x : A) :
  (i < List.length l)%nat ->
  nth_error (Executor.replace_nth i x l) i = Some x.
Proof.
  revert i. induction l as [|y l IH]; intros [|i] H; simpl in *; try lia;
    [reflexivity | apply IH; lia].
Qed.

Lemma nth_error_replace_nth_neq {A : Type} (l : list A) (i j : nat) (x : A) :
  i <> j -> nth_error (Executor.replace_nth i x l) j = nth_error l j.
Proof.
  revert i j. induction l as [|y l IH]; intros [|i] [|j] H; simpl;
    try reflexivity; try lia.
  apply IH. lia.
Qed.

Lemma length_replace_nth {A : Type} (l : list A) (i : nat) (x : A) :
  List.length (Executor.replace_nth i x l) = List.length l.
Proof.
  revert i. induction l as [|y l IH]; intros [|i]; simpl; auto.
Qed.

Lemma skipn_replace_nth {A : Type} (l : list A) (i : nat) (x : A) :
  skipn (S i) (Executor.replace_nth i x l) = skipn (S i) l.
Proof.
  revert i. induction l as [|y l IH]; intros [|i]; simpl; auto.
  apply (IH i).
Qed.

Lemma signature_replace_nth (steps : list PlanStep.t) (i : nat)
    (s s' : PlanStep.t) :
  nth_error steps i = Some s ->
  PlanStep.tool s' = PlanStep.tool s -> PlanStep.action s' = PlanStep.action s ->
  Executor.signature (Executor.replace_nth i s' steps) = Executor.signature steps.
Proof.
  unfold Executor.signature.
  revert i. induction steps as [|y l IH]; intros [|i] Hn Ht Ha; simpl in *;
    try discriminate.
  - inversion Hn; subst. rewrite Ht, Ha. reflexivity.
  - f_equal. apply (IH i); assumption.
Qed.

(** The step after a [get_summary] never counts as dependent. *)
Lemma not_dependent_after_summary (steps : list PlanStep.t) (i : nat)
    (s : PlanStep.t) :
  nth_error steps i = Some s -> PlanStep.action s = "get_summary" ->
  Executor.depends_on_previous steps (S i) = false.
Proof.
  intros Hn Ha. unfold Executor.depends_on_previous.
  destruct (nth_error steps (S i)); [|reflexivity].
  simpl. rewrite Nat.sub_0_r, Hn, Ha. simpl.
  rewrite !andb_false_r. reflexivity.
Qed.

Lemma skipn_nth_error_cons {A : Type} (l : list A) (i : nat) (x : A) (rest : list A) :
  skipn i l = x :: rest ->
  nth_error l i = Some x /\ skipn (S i) l = rest /\ (i < List.length l)%nat.
Proof.
  revert i. induction l as [|y l IH]; intros [|i] H; simpl in *; try discriminate.
  - inversion H; subst. repeat split. lia.
  - destruct (IH i H) as (H1 & H2 & H3). repeat split; auto. lia.
Qed.

(** ** The batched run against the sequential reading *)

Local Abbreviation run_step env p :=
  (Executor._execute_step (Executor.world_at env (fst p)) (snd p)).

(** The inner loop gathers exactly the steps the sequential reading would
    run next without injection. *)
Lemma collect_batch_sequential (env : Executor.Env) (steps : list PlanStep.t) :
  forall rest i batch results,
    (batch = [] -> Executor.depends_on_previous steps i = false) ->
    exists added,
      Executor.collect_batch steps rest i batch
      = ((i + List.length added)%nat, (batch ++ added)%list) /\
      map fst added = seq i (List.length added) /\
      Executor.sequential env steps rest i results
      = Executor.sequential env steps (skipn (List.length added) rest)
          (i + List.length added)
          (results ++ map (fun p => run_step env p) added)%list /\
      (List.length added = List.length rest \/
       (Executor.depends_on_previous steps (i + List.length added) = true /\
        (batch ++ added)%list <> [])).
Proof.
  induction rest as [|step rest IH]; intros i batch results Hfirst.
  - exists []. simpl. rewrite Nat.add_0_r, !app_nil_r. auto.
  - simpl Executor.collect_batch.
    destruct (Executor.depends_on_previous steps i
              && negb (Executor.is_empty batch)) eqn:Hbreak.
    + exists []. simpl. rewrite Nat.add_0_r, !app_nil_r.
      apply andb_prop in Hbreak. destruct Hbreak as [Hdep Hne].
      repeat split; auto. right. split; [exact Hdep|].
      destruct batch; [discriminate | discriminate].
    + assert (Hdep : Executor.depends_on_previous steps i = false).
      { destruct batch as [|b batch]; [apply Hfirst; reflexivity|].
        simpl in Hbreak. rewrite andb_true_r in Hbreak. exact Hbreak. }
      destruct (IH (S i) (batch ++ [(i, step)])%list
                  (results ++ [Executor._execute_step (Executor.world_at env i) step])%list)
        as (added & Hc & Hidx & Hseq & Hend).
      { intros Hnil. destruct batch; discriminate. }
      exists ((i, step) :: added). simpl List.length.
      rewrite Hc. rewrite <- !app_assoc. simpl app.
      replace (S i + List.length added)%nat with (i + S (List.length added))%nat
        in * by lia.
      repeat split.
      * simpl. rewrite Hidx. reflexivity.
      * simpl Executor.sequential. rewrite Hdep, Hseq.
        rewrite <- app_assoc. reflexivity.
      * destruct Hend as [Hlen|[Hd Hne]]; [left; simpl; lia|].
        right. split; [exact Hd|]. rewrite <- app_assoc in Hne. exact Hne.
Qed.

Lemma run_unfold (env : Executor.Env) (fuel : nat) (steps : list PlanStep.t)
    (i : nat) (results : list ToolResult.t) :
  Executor.run env (S fuel) steps i results =
  if (i <? List.length steps)%nat then
    let '(i1, parallel_batch) :=
      Executor.collect_batch steps (skipn i steps) i [] in
    let results1 :=
      if Executor.is_empty parallel_batch then results
      else (results ++ map snd (Executor.sort_by (fun r => fst r)
                                  (Executor.gather env parallel_batch)))%list in
    match nth_error steps i1 with
    | Some step =>
        match Executor.inject_title results1 step with
        | Raise e => Some (Raise e)
        | Ok step' =>
            Executor.run env fuel (Executor.replace_nth i1 step' steps) (S i1)
              (results1 ++ [Executor._execute_step (Executor.world_at env i1) step'])%list
        end
    | None => Executor.run env fuel steps i1 results1
    end
  else Some (Ok (steps, results)).
Proof. reflexivity. Qed.

Lemma run_done (env : Executor.Env) (fuel : nat) (steps : list PlanStep.t)
    (i : nat) (results : list ToolResult.t) :
  (List.length steps <= i)%nat ->
  Executor.run env fuel steps i results = Some (Ok (steps, results)).
Proof.
  intros H.
  assert (Hlt : (i <? List.length steps)%nat = false) by (apply Nat.ltb_ge; exact H).
  destruct fuel; simpl; rewrite Hlt; reflexivity.
Qed.

(** The batched, re-sorted run computes what the sequential reading does,
    within [length steps - i] unfoldings and for every completion order. *)
Lemma run_sequential (env : Executor.Env) :
  forall fuel steps i results,
    (List.length steps - i <= fuel)%nat ->
    Executor.depends_on_previous steps i = false ->
    Executor.run env fuel steps i results
    = Some (Executor.sequential env steps (skipn i steps) i results).
Proof.
  induction fuel as [|fuel IH]; intros steps i results Hfuel Hdep.
  - rewrite run_done by lia. rewrite skipn_all2 by lia. reflexivity.
  - rewrite run_unfold.
    destruct (Nat.ltb_spec i (List.length steps)) as [Hlt|Hge];
      [|rewrite skipn_all2 by lia; reflexivity].
    destruct (collect_batch_sequential env steps (skipn i steps) i [] results
                (fun _ => Hdep))
      as (added & Hc & Hidx & Hseq & Hend).
    rewrite Hc, Hseq. simpl app.
    set (i1 := (i + List.length added)%nat) in *.
    assert (Hres :
      (if Executor.is_empty added then results
       else (results ++ map snd (Executor.sort_by (fun r => fst r)
                                   (Executor.gather env added)))%list)
      = (results ++ map (fun p => run_step env p) added)%list).
    { destruct added as [|a added'] eqn:Ea; [simpl; rewrite app_nil_r; reflexivity|].
      simpl Executor.is_empty. cbv iota. f_equal.
      apply (batch_resorted env (a :: added') i). exact Hidx. }
    rewrite Hres. clear Hres.
    rewrite skipn_skipn. replace (List.length added + i)%nat with i1 by lia.
    destruct Hend as [Hlen|[Hd Hne]].
    + rewrite length_skipn in Hlen.
      assert (Hi1 : (List.length steps <= i1)%nat) by lia.
      assert (Hnone : nth_error steps i1 = None) by (apply nth_error_None; exact Hi1).
      rewrite Hnone, run_done by exact Hi1.
      rewrite skipn_all2 by exact Hi1. reflexivity.
    + destruct (depends_on_previous_true steps i1 Hd)
        as (s & p & Hs & Hpos & Hp & Hts & Has & Htp & Hap).
      rewrite Hs.
      assert (Hskip : exists rest', skipn i1 steps = s :: rest').
      { destruct (skipn i1 steps) as [|x rest'] eqn:Esk.
        - apply skipn_all_iff in Esk. apply nth_error_None in Esk. congruence.
        - destruct (skipn_nth_error_cons steps i1 x rest' Esk) as (Hx & _ & _).
          rewrite Hs in Hx. inversion Hx. eauto. }
      destruct Hskip as (rest' & Hskip). rewrite Hskip.
      destruct (skipn_nth_error_cons steps i1 s rest' Hskip) as (_ & Hrest & Hlt1).
      simpl Executor.sequential. rewrite Hd. cbv zeta.
      destruct (Executor.inject_title _ s) as [step'|e] eqn:Hinj; [|reflexivity].
      destruct (inject_title_signature _ _ _ Hinj) as [Ht' Ha'].
      rewrite IH.
      * rewrite skipn_replace_nth, Hrest. reflexivity.
      * rewrite length_replace_nth. lia.
      * apply (not_dependent_after_summary _ i1 step').
        -- apply nth_error_replace_nth_eq. exact Hlt1.
        -- congruence.
Qed.

(** ** What the sequential reading produces *)

Lemma signature_length (a b : list PlanStep.t) :
  Executor.signature a = Executor.signature b -> List.length a = List.length b.
Proof.
  unfold Executor.signature. intros H.
  rewrite <- (length_map (fun s => (PlanStep.tool s, PlanStep.action s)) a), H.
  apply length_map.
Qed.

Lemma snoc_of_last {A : Type} (l : list A) (n : nat) (x : A) :
  List.length l = S n -> nth_error l n = Some x -> exists l', l = (l' ++ [x])%list.
Proof.
  revert n. induction l as [|y l IH]; intros n Hlen Hn; [discriminate|].
  destruct n as [|n].
  - simpl in Hn. inversion Hn; subst. destruct l; [|discriminate].
    exists []. reflexivity.
  - simpl in *. destruct (IH n) as (l' & ->); [lia | exact Hn |].
    exists (y :: l'). reflexivity.
Qed.

Lemma dispatched_as_snoc (steps0 : list PlanStep.t) (results : list ToolResult.t)
    (r : ToolResult.t) (j : nat) (s s' : PlanStep.t) :
  Executor.dispatched_as steps0 results j s s' ->
  Executor.dispatched_as steps0 (results ++ [r]) j s s'.
Proof.
  unfold Executor.dispatched_as.
  destruct (Executor.depends_on_previous steps0 j); [|auto].
  intros (prev & Hp & Hi). exists prev. split; [|exact Hi].
  rewrite nth_error_app1; [exact Hp|].
  apply nth_error_Some. congruence.
Qed.

Lemma sequential_outcome (env : Executor.Env) (steps0 : list PlanStep.t) :
  forall rest steps i results,
    skipn i steps = rest ->
    Executor.signature steps = Executor.signature steps0 ->
    List.length results = i ->
    (i <= List.length steps)%nat ->
    (forall j s, nth_error steps j = Some s -> (j < i)%nat ->
       nth_error results j
       = Some (Executor._execute_step (Executor.world_at env j) s)) ->
    (forall j, (i <= j)%nat -> nth_error steps j = nth_error steps0 j) ->
    (forall j s, (j < i)%nat -> nth_error steps0 j = Some s ->
       exists s', nth_error steps j = Some s' /\
                  Executor.dispatched_as steps0 results j s s') ->
    exists steps' results',
      Executor.sequential env steps rest i results = Ok (steps', results') /\
      Executor.outcome_of env steps0 steps' results'.
Proof.
  induction rest as [|s rest IH];
    intros steps i results Hskip Hsig Hlen Hle Halign Horig Hdisp.
  - exists steps, results. split; [reflexivity|].
    apply skipn_all_iff in Hskip.
    pose proof (signature_length _ _ Hsig) as Hl.
    assert (Hi : i = List.length steps) by lia.
    unfold Executor.outcome_of. repeat split.
    + exact Hsig.
    + lia.
    + intros j s' Hj. apply Halign; [exact Hj|].
      assert (j < List.length steps)%nat by (apply nth_error_Some; congruence). lia.
    + intros j x Hj. apply Hdisp; [|exact Hj].
      assert (j < List.length steps0)%nat by (apply nth_error_Some; congruence). lia.
  - destruct (skipn_nth_error_cons steps i s rest Hskip) as (Hs & Hrest & Hlt).
    assert (Hs0 : nth_error steps0 i = Some s)
      by (rewrite <- Horig by lia; exact Hs).
    simpl Executor.sequential.
    destruct (Executor.depends_on_previous steps i) eqn:Hdep.
    + destruct (depends_on_previous_true steps i Hdep)
        as (s1 & p & Hs1 & Hpos & Hp & _ & _ & Htp & Hap).
      assert (Hr : nth_error results (i - 1)
                   = Some (Executor._execute_step (Executor.world_at env (i - 1)) p))
        by (apply Halign; [exact Hp | lia]).
      destruct (snoc_of_last results (i - 1) _ ltac:(lia) Hr) as (rs & Hrs).
      assert (Hinj : Executor.inject_title results s
                     = Executor.inject_title
                         [Executor._execute_step (Executor.world_at env (i - 1)) p] s)
        by (rewrite Hrs; apply inject_title_last).
      destruct (inject_after_search (Executor.world_at env (i - 1)) p s Htp Hap)
        as (step' & Hok).
      rewrite Hinj, Hok.
      destruct (inject_title_signature _ _ _ Hok) as [Ht' Ha'].
      apply IH.
      * rewrite skipn_replace_nth. exact Hrest.
      * rewrite (signature_replace_nth steps i s step' Hs Ht' Ha'). exact Hsig.
      * rewrite length_app. simpl. lia.
      * rewrite length_replace_nth. lia.
      * intros j x Hj Hji.
        destruct (Nat.eq_dec j i) as [->|Hne].
        -- rewrite nth_error_replace_nth_eq in Hj by exact Hlt.
           inversion Hj; subst x.
           rewrite nth_error_app2 by lia.
           replace (i - List.length results)%nat with 0%nat by lia. reflexivity.
        -- rewrite nth_error_replace_nth_neq in Hj by congruence.
           rewrite nth_error_app1 by lia. apply Halign; [exact Hj | lia].
      * intros j Hj. rewrite nth_error_replace_nth_neq by lia. apply Horig. lia.
      * intros j x Hji Hj.
        destruct (Nat.eq_dec j i) as [->|Hne].
        -- rewrite Hs0 in Hj. inversion Hj; subst x.
           exists step'. split; [apply nth_error_replace_nth_eq; exact Hlt|].
           unfold Executor.dispatched_as.
           rewrite <- (depends_on_previous_signature steps steps0 i Hsig), Hdep.
           exists (Executor._execute_step (Executor.world_at env (i - 1)) p).
           split; [|exact Hok].
           rewrite nth_error_app1 by lia. exact Hr.
        -- destruct (Hdisp j x ltac:(lia) Hj) as (x' & Hx' & Hd).
           exists x'. split; [|apply dispatched_as_snoc; exact Hd].
           rewrite nth_error_replace_nth_neq by congruence. exact Hx'.
    + apply IH.
      * exact Hrest.
      * exact Hsig.
      * rewrite length_app. simpl. lia.
      * lia.
      * intros j x Hj Hji.
        destruct (Nat.eq_dec j i) as [->|Hne].
        -- rewrite Hs in Hj. inversion Hj; subst x.
           rewrite nth_error_app2 by lia.
           replace (i - List.length results)%nat with 0%nat by lia. reflexivity.
        -- rewrite nth_error_app1 by lia. apply Halign; [exact Hj | lia].
      * intros j Hj. apply Horig. lia.
      * intros j x Hji Hj.
        destruct (Nat.eq_dec j i) as [->|Hne].
        -- rewrite Hs0 in Hj. inversion Hj; subst x.
           exists s. split; [exact Hs|].
           unfold Executor.dispatched_as.
           rewrite <- (depends_on_previous_signature steps steps0 i Hsig), Hdep.
           reflexivity.
        -- destruct (Hdisp j x ltac:(lia) Hj) as (x' & Hx' & Hd).
           exists x'. split; [exact Hx' | apply dispatched_as_snoc; exact Hd].
Qed.

Lemma depends_on_previous_0 (steps : list PlanStep.t) :
  Executor.depends_on_previous steps 0 = false.
Proof.
  unfold Executor.depends_on_previous.
  destruct (nth_error steps 0); [|reflexivity].
  simpl. rewrite andb_false_r. reflexivity.
Qed.

(** Every plan runs to completion, and the result is index-aligned with the
    plan, each slot holding the outcome of its step as dispatched. *)
Lemma execute_plan_outcome (env : Executor.Env) (plan : ExecutionPlan.t) :
  exists er,
    Executor.execute_plan env plan = Some (Ok er) /\
    Executor.outcome_of env (ExecutionPlan.steps plan)
      (ExecutionPlan.steps (ExecutionResult.plan er)) (ExecutionResult.results er).
Proof.
  unfold Executor.execute_plan.
  rewrite run_sequential; [|lia|apply depends_on_previous_0].
  destruct (sequential_outcome env (ExecutionPlan.steps plan)
              (ExecutionPlan.steps plan) (ExecutionPlan.steps plan) 0 [])
    as (steps' & results' & Hseq & Hout).
  - reflexivity.
  - reflexivity.
  - reflexivity.
  - lia.
  - intros j s _ Hj. lia.
  - reflexivity.
  - intros j s Hj. lia.
  - simpl skipn. rewrite Hseq. eexists. split; [reflexivity|]. exact Hout.
Qed.

Lemma dispatched_signature (steps0 : list PlanStep.t) (results : list ToolResult.t)
    (j : nat) (s s' : PlanStep.t) :
  Executor.dispatched_as steps0 results j s s' ->
  PlanStep.tool s' = PlanStep.tool s /\ PlanStep.action s' = PlanStep.action s.
Proof.
  unfold Executor.dispatched_as.
  destruct (Executor.depends_on_previous steps0 j).
  - intros (prev & _ & Hinj). eapply inject_title_signature; exact Hinj.
  - intros ->. auto.
Qed.

Lemma sequential_any_order (w : nat -> Executor.World) (f1 f2 : nat -> nat) :
  forall rest steps i results,
    Executor.sequential (Executor.mkEnv w f1) steps rest i results
    = Executor.sequential (Executor.mkEnv w f2) steps rest i results.
Proof.
  induction rest as [|s rest IH]; intros steps i results; simpl; [reflexivity|].
  destruct (Executor.depends_on_previous steps i).
  - destruct (Executor.inject_title results s); [apply IH | reflexivity].
  - apply IH.
Qed.

(** The completion order leaves no trace in the result. *)
Lemma execute_plan_any_order (w : nat -> Executor.World) (f1 f2 : nat -> nat)
    (plan : ExecutionPlan.t) :
  Executor.execute_plan (Executor.mkEnv w f1) plan
  = Executor.execute_plan (Executor.mkEnv w f2) plan.
Proof.
  unfold Executor.execute_plan.
  rewrite !run_sequential by (try lia; apply depends_on_previous_0).
  rewrite (sequential_any_order w f1 f2). reflexivity.
Qed.

(** C1.  Every plan runs to completion with exactly one outcome per step;
    the outcome in slot [i] names the tool of step [i]; and the same result
    comes out whatever the order in which the steps of a batch complete. *)
Theorem execute_plan_index_aligned :
  forall (env : Executor.Env) (plan : ExecutionPlan.t),
  exists er,
    Executor.execute_plan env plan = Some (Ok er) /\
    List.length (ExecutionResult.results er)
    = List.length (ExecutionPlan.steps plan) /\
    (forall i step,
        nth_error (ExecutionPlan.steps plan) i = Some step ->
        exists r, nth_error (ExecutionResult.results er) i = Some r /\
                  ToolResult.tool r = PlanStep.tool step) /\
    (forall completion : nat -> nat,
        Executor.execute_plan
          (Executor.mkEnv (Executor.world_at env) completion) plan
        = Some (Ok er)).
Proof.
  intros env plan.
  destruct (execute_plan_outcome env plan) as (er & Hrun & Hsig & Hlen & Halign & Hdisp).
  exists er. repeat split; auto.
  - intros i step Hi.
    destruct (Hdisp i step Hi) as (s' & Hs' & Hd).
    exists (Executor._execute_step (Executor.world_at env i) s').
    split; [apply Halign; exact Hs'|].
    rewrite execute_step_tool. apply (dispatched_signature _ _ _ _ _ Hd).
  - intros completion. rewrite <- Hrun. destruct env as [w f].
    apply execute_plan_any_order.
Qed.

(** ** Unknown tools *)

Lemma unregistered_lookup (w : Executor.World) (tool_name : string) :
  Executor.registered tool_name = false ->
  Executor.tools_get (Executor.tools w) tool_name = None.
Proof.
  unfold Executor.registered. cbn [existsb]. intros H.
  repeat (apply orb_false_elim in H; destruct H as [?H H]).
  unfold Executor.tools. cbn [Executor.tools_get].
  rewrite !(String.eqb_sym _ tool_name).
  repeat match goal with Hx : String.eqb _ _ = false |- _ => rewrite Hx; clear Hx end.
  reflexivity.
Qed.

Lemma unregistered_outcome (w : Executor.World) (step : PlanStep.t) :
  Executor.registered (PlanStep.tool step) = false ->
  Executor._execute_step w step
  = ToolResult.mk (PlanStep.tool step) false None
      (Some ("Tool '" ++ PlanStep.tool step ++ "' not found")).
Proof.
  intros H. unfold Executor._execute_step, Executor.execute_step_body.
  rewrite (unregistered_lookup w _ H). reflexivity.
Qed.

(** C9, as the code has it.  A step whose tool is not a key of the registry
    gets the outcome [success = false] with the error text
    ["Tool '<id>' not found"], in its own slot, and every step of the plan,
    the later ones included, still gets its outcome. *)
Theorem unknown_tool_fails_alone :
  forall (env : Executor.Env) (plan : ExecutionPlan.t) (i : nat) (step : PlanStep.t),
    nth_error (ExecutionPlan.steps plan) i = Some step ->
    Executor.registered (PlanStep.tool step) = false ->
    exists er,
      Executor.execute_plan env plan = Some (Ok er) /\
      nth_error (ExecutionResult.results er) i
      = Some (ToolResult.mk (PlanStep.tool step) false None
                (Some ("Tool '" ++ PlanStep.tool step ++ "' not found"))) /\
      List.length (ExecutionResult.results er)
      = List.length (ExecutionPlan.steps plan) /\
      (forall j other,
          nth_error (ExecutionPlan.steps plan) j = Some other ->
          exists r, nth_error (ExecutionResult.results er) j = Some r /\
                    ToolResult.tool r = PlanStep.tool other).
Proof.
  intros env plan i step Hi Hreg.
  destruct (execute_plan_outcome env plan) as (er & Hrun & Hsig & Hlen & Halign & Hdisp).
  exists er. repeat split; auto.
  - destruct (Hdisp i step Hi) as (s' & Hs' & Hd).
    rewrite (Halign i s' Hs').
    destruct (dispatched_signature _ _ _ _ _ Hd) as [Ht _].
    rewrite unregistered_outcome by (rewrite Ht; exact Hreg).
    rewrite Ht. reflexivity.
  - intros j other Hj.
    destruct (Hdisp j other Hj) as (s' & Hs' & Hd).
    exists (Executor._execute_step (Executor.world_at env j) s').
    split; [apply Halign; exact Hs'|].
    rewrite execute_step_tool. apply (dispatched_signature _ _ _ _ _ Hd).
Qed.

Lemma unknown_tool_fails_alone_witness :
  exists er,
    Executor.execute_plan
      (Examples.env_of (Examples.world Examples.nepal_hits Examples.offline))
      Examples.unknown_then_search = Some (Ok er) /\
    nth_error (ExecutionResult.results er) 0
    = Some (ToolResult.mk "doesnotexist" false None
              (Some "Tool 'doesnotexist' not found")) /\
    List.length (ExecutionResult.results er) = 2%nat /\
    (forall j other,
        nth_error (ExecutionPlan.steps Examples.unknown_then_search) j = Some other ->
        exists r, nth_error (ExecutionResult.results er) j = Some r /\
                  ToolResult.tool r = PlanStep.tool other).
Proof.
  apply (unknown_tool_fails_alone
           (Examples.env_of (Examples.world Examples.nepal_hits Examples.offline))
           Examples.unknown_then_search 0
           (Examples.step 1 "doesnotexist" "run" [])); reflexivity.
Defined.

(** C9 as worded fails on the code: the error text of the step
    ["doesnotexist"] is ["Tool 'doesnotexist' not found"], which does not
    contain ["tool not found"]. *)
Lemma unknown_tool_error_text :
  ToolResult.success
    (Executor._execute_step (Examples.world Examples.nepal_hits Examples.offline)
       (Examples.step 1 "doesnotexist" "run" [])) = false /\
  ToolResult.error
    (Executor._execute_step (Examples.world Examples.nepal_hits Examples.offline)
       (Examples.step 1 "doesnotexist" "run" []))
  = Some "Tool 'doesnotexist' not found" /\
  contains "tool not found" "Tool 'doesnotexist' not found" = false.
Proof. repeat split. Qed.

(** ** Parameter injection *)

(** Reading the first title of a result list: the list has a first item
    with a title, or nothing is injected, or the read raises. *)
Lemma first_title_cases (v : value) (step dispatched : PlanStep.t) :
  (if truthy v then
     n <- len v ;;
     if (0 <? n)%Z then
       results0 <- getitem_int v 0 ;;
       extracted_title <- getitem_str results0 "title" ;;
       Ok (PlanStep.set_param step "title" extracted_title)
     else Ok step
   else Ok step) = Ok dispatched ->
  (exists first rest t,
      v = VList (first :: rest) /\ getitem_str first "title" = Ok t /\
      dispatched = PlanStep.set_param step "title" t) \/
  ((forall first rest, v <> VList (first :: rest)) /\ dispatched = step).
Proof.
  destruct v as [|b|n|s|items|entries]; simpl truthy.
  - intros H; inversion H. right. split; [intros; discriminate | reflexivity].
  - destruct b; simpl; [discriminate|].
    intros H; inversion H. right. split; [intros; discriminate | reflexivity].
  - destruct (negb (n =? 0)%Z); simpl; [discriminate|].
    intros H; inversion H. right. split; [intros; discriminate | reflexivity].
  - destruct (negb (s =? "")).
    + cbn [len bind]. destruct (0 <? Z.of_nat (char_length s))%Z.
      * cbn [getitem_int].
        destruct (nth_error (chars s) 0); cbn [bind getitem_str]; discriminate.
      * intros H; inversion H. right. split; [intros; discriminate | reflexivity].
    + intros H; inversion H. right. split; [intros; discriminate | reflexivity].
  - destruct items as [|first rest].
    + intros H; inversion H. right. split; [intros; discriminate | reflexivity].
    + cbn [len bind List.length].
      replace (0 <? Z.of_nat (S (List.length rest)))%Z with true
        by (symmetry; apply Z.ltb_lt; lia).
      cbn [getitem_int nth_error bind].
      destruct (getitem_str first "title") as [t|e] eqn:Ht; cbn [bind]; [|discriminate].
      intros H; inversion H. left. exists first, rest, t. auto.
  - destruct entries as [|e entries].
    + intros H; inversion H. right. split; [intros; discriminate | reflexivity].
    + cbn [len bind List.length].
      replace (0 <? Z.of_nat (S (List.length entries)))%Z with true
        by (symmetry; apply Z.ltb_lt; lia).
      cbn [getitem_int bind]. discriminate.
Qed.

Lemma inject_title_spec (prev : ToolResult.t) (step dispatched : PlanStep.t) :
  PlanStep.tool step = "wikipedia" -> PlanStep.action step = "get_summary" ->
  ToolResult.tool prev = "wikipedia" ->
  Executor.inject_title [prev] step = Ok dispatched ->
  (exists t, Executor.injects prev step t /\
             dispatched = PlanStep.set_param step "title" t) \/
  ((forall t, ~ Executor.injects prev step t) /\ dispatched = step).
Proof.
  intros Hts Has Htp.
  unfold Executor.inject_title, Executor.last_result.
  cbn [map last List.length].
  rewrite Hts, Has, Htp, !String.eqb_refl.
  change (0 <? 1)%nat with true. cbn [andb].
  unfold Executor.data_truthy, Executor.injects.
  destruct prev as [pt ps pd pe]. cbn [ToolResult.success ToolResult.data].
  destruct ps;
    [|intros H; inversion H; right; split;
      [intros t (Hs & _); discriminate | reflexivity]].
  destruct pd as [payload|];
    [|intros H; inversion H; right; split;
      [intros t (_ & p & Hp & _); discriminate | reflexivity]].
  destruct payload as [|kv payload]; cbn [truthy andb];
    [intros H; inversion H; right; split;
      [intros t (_ & p & Hp & Hne & _); inversion Hp; subst; congruence | reflexivity]|].
  set (pl := kv :: payload) in *.
  destruct (negb (mem "title" (PlanStep.params step))
            || eqb (get_or_none (PlanStep.params step) "title") (get_or_none pl "query"))
    eqn:Hcond.
  - assert (Hyes : mem "title" (PlanStep.params step) = false \/
                   eqb (get_or_none (PlanStep.params step) "title")
                     (get_or_none pl "query") = true).
    { apply orb_prop in Hcond. destruct Hcond as [Hm|He]; [left|right; exact He].
      destruct (mem "title" (PlanStep.params step)); [discriminate | reflexivity]. }
    intros H. apply first_title_cases in H.
    destruct H as [(first & rest & t & Hv & Ht & Hd)|[Hv Hd]].
    + left. exists t. split; [|exact Hd].
      split; [reflexivity|]. exists pl. repeat split; auto.
      * subst pl. discriminate.
      * exists first, rest. split; [|exact Ht].
        unfold get_or_none in Hv. destruct (get pl "results"); [congruence | discriminate].
    + right. split; [|exact Hd].
      intros t (_ & p & Hp & _ & _ & f & r & Hg & _). inversion Hp; subst p.
      apply (Hv f r). unfold get_or_none. rewrite Hg. reflexivity.
  - intros H. right. split; [|congruence].
    intros t (_ & p & Hp & _ & Hor & _). inversion Hp; subst p.
    apply orb_false_elim in Hcond. destruct Hcond as [Hm He].
    destruct Hor as [Hor|Hor]; [rewrite Hor in Hm; discriminate | congruence].
Qed.

(** The outcome just before a dependent step, and the step as dispatched. *)
Lemma dependent_step_dispatch (env : Executor.Env) (plan : ExecutionPlan.t)
    (i : nat) (step : PlanStep.t) :
  nth_error (ExecutionPlan.steps plan) i = Some step ->
  Executor.depends_on_previous (ExecutionPlan.steps plan) i = true ->
  exists er prev dispatched,
    Executor.execute_plan env plan = Some (Ok er) /\
    nth_error (ExecutionResult.results er) (i - 1) = Some prev /\
    ToolResult.tool prev = "wikipedia" /\
    nth_error (ExecutionPlan.steps (ExecutionResult.plan er)) i = Some dispatched /\
    nth_error (ExecutionResult.results er) i
    = Some (Executor._execute_step (Executor.world_at env i) dispatched) /\
    Executor.inject_title [prev] step = Ok dispatched.
Proof.
  intros Hi Hdep.
  destruct (execute_plan_outcome env plan) as (er & Hrun & Hsig & Hlen & Halign & Hdisp).
  destruct (Hdisp i step Hi) as (s' & Hs' & Hd).
  unfold Executor.dispatched_as in Hd. rewrite Hdep in Hd.
  destruct Hd as (prev & Hprev & Hinj).
  exists er, prev, s'. repeat split; auto.
  destruct (depends_on_previous_true _ _ Hdep)
    as (s1 & p & _ & _ & Hp & _ & _ & Htp & _).
  destruct (Hdisp (i - 1)%nat p Hp) as (p' & Hp' & Hdp).
  rewrite (Halign _ _ Hp') in Hprev. inversion Hprev.
  rewrite execute_step_tool.
  destruct (dispatched_signature _ _ _ _ _ Hdp) as [Ht _]. congruence.
Qed.

(** A dependent step is dispatched with the injected title exactly under
    [Executor.injects], and unchanged otherwise. *)
Lemma dependent_step_cases :
  forall (env : Executor.Env) (plan : ExecutionPlan.t) (i : nat) (step : PlanStep.t),
    nth_error (ExecutionPlan.steps plan) i = Some step ->
    Executor.depends_on_previous (ExecutionPlan.steps plan) i = true ->
    exists er prev dispatched,
      Executor.execute_plan env plan = Some (Ok er) /\
      nth_error (ExecutionResult.results er) (i - 1) = Some prev /\
      nth_error (ExecutionPlan.steps (ExecutionResult.plan er)) i = Some dispatched /\
      nth_error (ExecutionResult.results er) i
      = Some (Executor._execute_step (Executor.world_at env i) dispatched) /\
      ((exists t, Executor.injects prev step t /\
                  dispatched = PlanStep.set_param step "title" t) \/
       ((forall t, ~ Executor.injects prev step t) /\ dispatched = step)).
Proof.
  intros env plan i step Hi Hdep.
  destruct (dependent_step_dispatch env plan i step Hi Hdep)
    as (er & prev & dispatched & Hrun & Hprev & Htool & Hd & Hres & Hinj).
  exists er, prev, dispatched. repeat split; auto.
  destruct (depends_on_previous_true _ _ Hdep)
    as (s1 & p & Hs1 & _ & _ & Hts & Has & _ & _).
  rewrite Hi in Hs1. inversion Hs1; subst s1.
  apply inject_title_spec; assumption.
Qed.

(** C2, as the code has it.  A declared-dependent step is always executed,
    its outcome in its own slot.  Its ["title"] is overwritten with the
    title of the first item of the predecessor's result list if and only if
    the predecessor succeeded with a payload, the ["title"] is absent or
    equal to the payload's ["query"], and the result list is not empty;
    in every other case (predecessor failed, explicit distinct title, no
    hit) it is dispatched with exactly the planner's parameters. *)
Theorem dependent_step_injection :
  forall (env : Executor.Env) (plan : ExecutionPlan.t) (i : nat) (step : PlanStep.t),
    nth_error (ExecutionPlan.steps plan) i = Some step ->
    Executor.depends_on_previous (ExecutionPlan.steps plan) i = true ->
    exists er prev dispatched,
      Executor.execute_plan env plan = Some (Ok er) /\
      nth_error (ExecutionResult.results er) (i - 1) = Some prev /\
      nth_error (ExecutionPlan.steps (ExecutionResult.plan er)) i = Some dispatched /\
      nth_error (ExecutionResult.results er) i
      = Some (Executor._execute_step (Executor.world_at env i) dispatched) /\
      ((exists t, Executor.injects prev step t /\
                  dispatched = PlanStep.set_param step "title" t) \/
       ((forall t, ~ Executor.injects prev step t) /\ dispatched = step)).
Proof.
  intros env plan i step Hi Hdep.
  exact (dependent_step_cases env plan i step Hi Hdep).
Qed.

Lemma dependent_step_injection_witness :
  exists er prev dispatched,
    Executor.execute_plan
      (Examples.env_of (Examples.world Examples.nepal_hits Examples.offline))
      Examples.search_then_summary = Some (Ok er) /\
    nth_error (ExecutionResult.results er) (1 - 1) = Some prev /\
    nth_error (ExecutionPlan.steps (ExecutionResult.plan er)) 1 = Some dispatched /\
    nth_error (ExecutionResult.results er) 1
    = Some (Executor._execute_step
              (Executor.world_at
                 (Examples.env_of (Examples.world Examples.nepal_hits Examples.offline)) 1)
              dispatched) /\
    ((exists t, Executor.injects prev (Examples.step 2 "wikipedia" "get_summary" []) t /\
                dispatched
                = PlanStep.set_param (Examples.step 2 "wikipedia" "get_summary" [])
                    "title" t) \/
     ((forall t, ~ Executor.injects prev (Examples.step 2 "wikipedia" "get_summary" []) t) /\
      dispatched = Examples.step 2 "wikipedia" "get_summary" [])).
Proof.
  apply (dependent_step_injection
           (Examples.env_of (Examples.world Examples.nepal_hits Examples.offline))
           Examples.search_then_summary 1
           (Examples.step 2 "wikipedia" "get_summary" [])); reflexivity.
Defined.

(** C2 as worded fails on the code: the search before the dependent step
    succeeded with a payload and the step has no ["title"], yet nothing is
    injected, because the search returned no hit. *)
Lemma injection_needs_a_search_hit :
  exists er prev dispatched,
    Executor.execute_plan
      (Examples.env_of (Examples.world Examples.no_hits Examples.offline))
      Examples.search_then_summary = Some (Ok er) /\
    Executor.depends_on_previous
      (ExecutionPlan.steps Examples.search_then_summary) 1 = true /\
    nth_error (ExecutionResult.results er) 0 = Some prev /\
    ToolResult.success prev = true /\
    Executor.data_truthy prev = true /\
    mem "title" (PlanStep.params (Examples.step 2 "wikipedia" "get_summary" [])) = false /\
    nth_error (ExecutionPlan.steps (ExecutionResult.plan er)) 1 = Some dispatched /\
    mem "title" (PlanStep.params dispatched) = false.
Proof.
  eexists. eexists. eexists.
  split; [vm_compute; reflexivity|].
  repeat split.
Qed.

(** C10.  When the outcome before a declared-dependent step carries a
    payload whose ["results"] list is empty or absent, nothing is injected:
    the step is dispatched with exactly its original parameters, whether or
    not it has a ["title"]. *)
Theorem empty_search_injects_nothing :
  forall (env : Executor.Env) (plan : ExecutionPlan.t) (i : nat) (step : PlanStep.t),
    nth_error (ExecutionPlan.steps plan) i = Some step ->
    Executor.depends_on_previous (ExecutionPlan.steps plan) i = true ->
    exists er prev,
      Executor.execute_plan env plan = Some (Ok er) /\
      nth_error (ExecutionResult.results er) (i - 1) = Some prev /\
      ((forall payload,
           ToolResult.data prev = Some payload ->
           get payload "results" = None \/
           get payload "results" = Some (VList [])) ->
       nth_error (ExecutionPlan.steps (ExecutionResult.plan er)) i = Some step /\
       nth_error (ExecutionResult.results er) i
       = Some (Executor._execute_step (Executor.world_at env i) step)).
Proof.
  intros env plan i step Hi Hdep.
  destruct (dependent_step_cases env plan i step Hi Hdep)
    as (er & prev & dispatched & Hrun & Hprev & Hd & Hres & Hcases).
  exists er, prev. split; [exact Hrun|]. split; [exact Hprev|].
  intros Hempty.
  assert (Hsame : dispatched = step).
  { destruct Hcases as [(t & Hinj & _)|[_ Heq]]; [exfalso | exact Heq].
    destruct Hinj as (_ & payload & Hp & _ & _ & first & rest & Hg & _).
    destruct (Hempty payload Hp) as [Hn|Hn]; congruence. }
  subst dispatched. auto.
Qed.

Lemma empty_search_injects_nothing_witness :
  exists er prev,
    Executor.execute_plan
      (Examples.env_of (Examples.world Examples.no_hits Examples.offline))
      Examples.search_then_summary = Some (Ok er) /\
    nth_error (ExecutionResult.results er) (1 - 1) = Some prev /\
    ((forall payload,
         ToolResult.data prev = Some payload ->
         get payload "results" = None \/
         get payload "results" = Some (VList [])) ->
     nth_error (ExecutionPlan.steps (ExecutionResult.plan er)) 1
     = Some (Examples.step 2 "wikipedia" "get_summary" []) /\
     nth_error (ExecutionResult.results er) 1
     = Some (Executor._execute_step
               (Executor.world_at
                  (Examples.env_of (Examples.world Examples.no_hits Examples.offline)) 1)
               (Examples.step 2 "wikipedia" "get_summary" []))).
Proof.
  apply (empty_search_injects_nothing
           (Examples.env_of (Examples.world Examples.no_hits Examples.offline))
           Examples.search_then_summary 1
           (Examples.step 2 "wikipedia" "get_summary" [])); reflexivity.
Defined.

(** ** The step runner *)

(** Closes one leaf of the case analysis of [_execute_step]. *)
Ltac settle_outcome :=
  solve [ cbn; repeat split; try discriminate; eauto;
          try (intros e [H|H]; inversion H; reflexivity);
          try (eexists; split; [reflexivity|]; eauto) ].

(** C5, as the code has it.  [_execute_step] always returns an outcome
    naming the step's tool.  An exception raised anywhere in the [try]
    block -- by the dispatched action in particular -- becomes
    [success = false] with the error ["Execution error: <cause>"].  A
    successful outcome has no error and carries as data what the action
    returned: its dict, or nothing when the action returned [None].  A
    failed outcome has no data, and has an error unless the action's own
    payload carried a null ["error"]. *)
Theorem execute_step_captures_faults :
  forall (w : Executor.World) (step : PlanStep.t),
    ToolResult.tool (Executor._execute_step w step) = PlanStep.tool step /\
    (forall e,
        Executor.execute_step_body w step = Raise e \/
        Executor.invoke w step = Some (Raise e) ->
        Executor._execute_step w step
        = ToolResult.mk (PlanStep.tool step) false None
            (Some ("Execution error: " ++ exn_str e))) /\
    (ToolResult.success (Executor._execute_step w step) = true ->
       ToolResult.error (Executor._execute_step w step) = None /\
       exists returned,
         Executor.invoke w step = Some (Ok returned) /\
         ((returned = VNone /\ ToolResult.data (Executor._execute_step w step) = None) \/
          (exists d, returned = VDict d /\
                     ToolResult.data (Executor._execute_step w step) = Some d))) /\
    (ToolResult.success (Executor._execute_step w step) = false ->
       ToolResult.data (Executor._execute_step w step) = None /\
       (ToolResult.error (Executor._execute_step w step) = None ->
          exists d, Executor.invoke w step = Some (Ok (VDict d)) /\
                    get d "error" = Some VNone)).
Proof.
  intros w step. split; [apply execute_step_tool|].
  unfold Executor._execute_step, Executor.execute_step_body, Executor.invoke.
  destruct (Executor.tools_get (Executor.tools w) (PlanStep.tool step)) as [tool|];
    [|settle_outcome].
  destruct (tool (PlanStep.action step)) as [[m|e0]|]; [|settle_outcome..].
  destruct (call m _) as [v|e0]; cbn [bind]; [|settle_outcome].
  unfold ToolResult.validate, arg.
  destruct v as [|b|n|s|items|entries]; try settle_outcome.
  destruct (mem "success" entries); [|settle_outcome].
  destruct (truthy (get_or_none entries "success")); [settle_outcome|].
  destruct (get entries "error") as [[]|] eqn:Herr; settle_outcome.
Qed.

Lemma execute_step_captures_faults_witness :
  Executor._execute_step (Examples.world Examples.nepal_hits Examples.offline)
    (Examples.step 1 "wikipedia" "client" [])
  = ToolResult.mk "wikipedia" false None
      (Some "Execution error: object is not a callable object").
Proof.
  apply (proj1 (proj2 (execute_step_captures_faults
                         (Examples.world Examples.nepal_hits Examples.offline)
                         (Examples.step 1 "wikipedia" "client" [])))
           WikipediaTool.not_callable).
  right. reflexivity.
Defined.

(** C5 as worded fails on the code: the action [close] of the Wikipedia
    adapter returns nothing, and the step comes out with [success = true]
    and no data. *)
Lemma close_succeeds_without_data :
  Executor._execute_step (Examples.world Examples.nepal_hits Examples.offline)
    (Examples.step 1 "wikipedia" "close" [])
  = ToolResult.mk "wikipedia" true None None.
Proof. reflexivity. Qed.

(** ** Which adapters retry *)

(** A retryable fault leaves the weather fetch only once the three attempts
    are used up. *)
Lemma fetch_weather_exhausted (client : Httpx.Client) (api_key : string)
    (city units : value) (e : exn) :
  Tenacity.outcome (WeatherTool._fetch_weather_data client api_key city units)
  = Raise e ->
  RetryUtils.retry_condition e = true ->
  Tenacity.attempts (WeatherTool._fetch_weather_data client api_key city units) = 3%nat.
Proof.
  unfold WeatherTool._fetch_weather_data, RetryUtils.retry_api_call.
  cbn [Tenacity.retrying Nat.sub].
  destruct (WeatherTool.fetch_weather_once client api_key city units 0) as [v|e1];
    [discriminate|].
  destruct (RetryUtils.retry_condition e1) eqn:R1; cbn;
    [|intros H; inversion H; congruence].
  destruct (WeatherTool.fetch_weather_once client api_key city units 1) as [v|e2];
    [discriminate|].
  destruct (RetryUtils.retry_condition e2) eqn:R2; cbn;
    [|intros H; inversion H; congruence].
  destruct (WeatherTool.fetch_weather_once client api_key city units 2) as [v|e3];
    [discriminate|].
  destruct (RetryUtils.retry_condition e3) eqn:R3; cbn; reflexivity.
Qed.

Lemma wikipedia_search_fault (client : Httpx.Client) (query limit : value) (e : exn) :
  (forall request, client 0%nat request = Raise e) ->
  is_HTTPError e = true ->
  WikipediaTool.search client query limit
  = failure ("Wikipedia API error: " ++ exn_str e).
Proof.
  intros Hc He. unfold WikipediaTool.search. rewrite Hc. cbn. rewrite He. reflexivity.
Qed.

(** C6, as the code has it.  The weather fetch runs under the retry
    policy: a retryable fault on the first attempt followed by a good answer
    gives the answer after 2 attempts, and a retryable fault leaves the
    fetch only after all 3 attempts.  [wikipedia.search] makes its one
    request without the policy: a fault on it is the step's failed outcome
    straight away. *)
Theorem retry_only_in_weather_fetch :
  (forall (client : Httpx.Client) (api_key : string) (city units : value)
          (e1 : exn) (data : value),
      WeatherTool.fetch_weather_once client api_key city units 0 = Raise e1 ->
      RetryUtils.retry_condition e1 = true ->
      WeatherTool.fetch_weather_once client api_key city units 1 = Ok data ->
      WeatherTool._fetch_weather_data client api_key city units
      = Tenacity.mkRun (Ok data) 2 [2%Z]) /\
  (forall (client : Httpx.Client) (api_key : string) (city units : value) (e : exn),
      Tenacity.outcome (WeatherTool._fetch_weather_data client api_key city units)
      = Raise e ->
      RetryUtils.retry_condition e = true ->
      Tenacity.attempts (WeatherTool._fetch_weather_data client api_key city units)
      = 3%nat) /\
  (forall (w : Executor.World) (step : PlanStep.t) (e : exn),
      PlanStep.tool step = "wikipedia" -> PlanStep.action step = "search" ->
      mem "query" (PlanStep.params step) = true ->
      (forall request, Executor.wikipedia_client w 0%nat request = Raise e) ->
      is_HTTPError e = true ->
      Executor._execute_step w step
      = ToolResult.mk "wikipedia" false None
          (Some ("Wikipedia API error: " ++ exn_str e))).
Proof.
  split; [|split].
  - intros client api_key city units e1 data H1 R1 H2.
    unfold WeatherTool._fetch_weather_data, RetryUtils.retry_api_call.
    cbn [Tenacity.retrying Nat.sub]. rewrite H1, R1. cbn. rewrite H2. reflexivity.
  - apply fetch_weather_exhausted.
  - intros w step e Ht Ha Hq Hc He.
    unfold Executor._execute_step, Executor.execute_step_body.
    rewrite Ht, Ha. simpl Executor.tools_get. cbv beta iota.
    change (WikipediaTool.getattr (Executor.wikipedia_client w) (Executor.inherited w)
              "search")
      with (Some (Coroutine (mkMethod ["query"; "limit"] ["query"]
             (fun kw => Ok (VDict (WikipediaTool.search (Executor.wikipedia_client w)
                                     (get_or_none kw "query")
                                     (arg kw "limit" (VInt 5)))))))).
    cbv beta iota. unfold call. simpl required. simpl parameters.
    assert (Hm : mem "query" (Executor.filter_params ["query"; "limit"]
                                (PlanStep.params step)) = true).
    { revert Hq. unfold mem. induction (PlanStep.params step) as [|[k v] ps IH];
        simpl; [discriminate|].
      destruct (String.eqb_spec k "query") as [->|Hk]; simpl.
      - intros _. reflexivity.
      - intros Hq. destruct (k =? "limit"); simpl.
        + apply String.eqb_neq in Hk. rewrite Hk. apply IH. exact Hq.
        + apply IH. exact Hq. }
    simpl filter. rewrite Hm. cbn [negb filter body bind].
    rewrite (wikipedia_search_fault _ _ _ e Hc He). reflexivity.
Qed.

Lemma retry_only_in_weather_fetch_witness :
  WeatherTool._fetch_weather_data
    (Examples.flaky (fun _ _ => Ok (Examples.reply (VDict [("name", VStr "Paris")]))))
    "key" (VStr "Paris") (VStr "metric")
  = Tenacity.mkRun (Ok (VDict [("name", VStr "Paris")])) 2 [2%Z].
Proof.
  apply (proj1 retry_only_in_weather_fetch
           (Examples.flaky (fun _ _ => Ok (Examples.reply (VDict [("name", VStr "Paris")]))))
           "key" (VStr "Paris") (VStr "metric")
           (ConnectError "connection reset") (VDict [("name", VStr "Paris")]));
    reflexivity.
Defined.

(** C6 as worded fails on the code: a connection fault on the only request
    of [wikipedia.search] is the step's failed outcome at once, although the
    same request would have been served on a second try. *)
Lemma wikipedia_search_fails_on_first_fault :
  Executor._execute_step
    (Examples.world (Examples.flaky Examples.nepal_hits) Examples.offline)
    (Examples.step 1 "wikipedia" "search" [("query", VStr "Nepal")])
  = ToolResult.mk "wikipedia" false None
      (Some "Wikipedia API error: connection reset") /\
  RetryUtils.retry_condition (ConnectError "connection reset") = true /\
  Httpx.raise_for_status
    (Examples.reply (VList [VStr "Nepal";
                      VList [VStr "Nepal (country)"; VStr "Nepali language"];
                      VList [VStr ""; VStr ""];
                      VList [VStr "https://en.wikipedia.org/wiki/Nepal";
                             VStr "https://en.wikipedia.org/wiki/Nepali_language"]]))
  = Ok tt /\
  Examples.flaky Examples.nepal_hits 1%nat
    (Httpx.mkRequest "https://en.wikipedia.org/w/api.php"
       (Some [("action", VStr "opensearch"); ("search", VStr "Nepal");
              ("limit", VInt 5); ("format", VStr "json")]))
  = Ok (Examples.reply (VList [VStr "Nepal";
                      VList [VStr "Nepal (country)"; VStr "Nepali language"];
                      VList [VStr ""; VStr ""];
                      VList [VStr "https://en.wikipedia.org/wiki/Nepal";
                             VStr "https://en.wikipedia.org/wiki/Nepali_language"]])).
Proof. repeat split. Qed.

(** ** Values, strings and dictionaries *)

(** Induction on values through the lists and dicts they nest. *)
Lemma value_nested_ind (P : value -> Prop) :
  P VNone -> (forall b, P (VBool b)) -> (forall n, P (VInt n)) ->
  (forall s, P (VStr s)) ->
  (forall items, Forall P items -> P (VList items)) ->
  (forall entries, Forall (fun kv => P (snd kv)) entries -> P (VDict entries)) ->
  forall v, P v.
Proof.
  intros HNone HBool HInt HStr HList HDict.
  fix IH 1. intros [|b|n|s|items|entries].
  - exact HNone.
  - apply HBool.
  - apply HInt.
  - apply HStr.
  - apply HList. induction items as [|x items IHitems]; constructor.
    + apply IH.
    + exact IHitems.
  - apply HDict. induction entries as [|[k x] entries IHentries]; constructor.
    + apply IH.
    + exact IHentries.
Qed.

Lemma prefix_app (p a b : string) :
  String.prefix p a = true -> String.prefix p (a ++ b) = true.
Proof.
  revert a. induction p as [|c p IH]; intros a H;
    [destruct a; simpl; [destruct b|]; reflexivity|].
  destruct a as [|c' a]; simpl in *; [discriminate|].
  destruct (ascii_dec c c'); [apply IH; exact H | discriminate].
Qed.

Lemma contains_app_l (p a b : string) :
  contains p a = true -> contains p (a ++ b) = true.
Proof.
  induction a as [|c a IH]; intros H.
  - unfold contains in H. rewrite orb_false_r in H.
    destruct p; [|discriminate]. destruct b; reflexivity.
  - cbn [contains] in H. apply orb_prop in H.
    change ((String c a) ++ b) with (String c (a ++ b)). cbn [contains].
    destruct H as [H|H].
    + pose proof (prefix_app p (String c a) b H) as Hp.
      change (String c a ++ b) with (String c (a ++ b)) in Hp.
      rewrite Hp. reflexivity.
    + rewrite (IH H). apply orb_true_r.
Qed.

Lemma contains_app_r (p a b : string) :
  contains p b = true -> contains p (a ++ b) = true.
Proof.
  intros H. induction a as [|c a IH]; [exact H|].
  change ((String c a) ++ b) with (String c (a ++ b)). cbn [contains].
  rewrite IH. apply orb_true_r.
Qed.

Lemma get_set (d : dict) (k k' : string) (v : value) :
  get (set d k v) k' = if String.eqb k k' then Some v else get d k'.
Proof.
  induction d as [|[k0 v0] d IH]; simpl.
  - destruct (String.eqb k k'); reflexivity.
  - destruct (String.eqb_spec k0 k) as [->|Hne]; simpl.
    + destruct (String.eqb k k'); reflexivity.
    + rewrite IH. destruct (String.eqb_spec k k') as [<-|Hne'].
      * apply String.eqb_neq in Hne. rewrite Hne. reflexivity.
      * reflexivity.
Qed.

Lemma get_set_other (d : dict) (k k' : string) (v : value) :
  k' <> k -> get (set d k v) k' = get d k'.
Proof.
  intros H. rewrite get_set.
  destruct (String.eqb_spec k k'); [congruence | reflexivity].
Qed.

Lemma mem_set_other (d : dict) (k k' : string) (v : value) :
  k' <> k -> mem k' (set d k v) = mem k' d.
Proof. intros H. unfold mem. rewrite get_set_other by exact H. reflexivity. Qed.

Lemma get_or_none_set_other (d : dict) (k k' : string) (v : value) :
  k' <> k -> get_or_none (set d k v) k' = get_or_none d k'.
Proof. intros H. unfold get_or_none. rewrite get_set_other by exact H. reflexivity. Qed.

Lemma set_set (d : dict) (k : string) (v : value) :
  set (set d k v) k v = set d k v.
Proof.
  induction d as [|[k0 v0] d IH]; simpl.
  - rewrite String.eqb_refl. reflexivity.
  - destruct (String.eqb k0 k) eqn:E; simpl; rewrite E; [reflexivity|].
    rewrite IH. reflexivity.
Qed.

(** ** Citations *)

Lemma dedup_app (seen a b : list string) :
  Verifier.dedup seen (a ++ b)%list = Verifier.dedup (Verifier.dedup seen a) b.
Proof. unfold Verifier.dedup. apply fold_left_app. Qed.

(** The recursive scan appends, in order and without repeats, the links the
    payload holds. *)
Lemma extract_sources_links :
  forall data sources,
    Verifier._extract_sources data sources
    = Verifier.dedup sources (Verifier.links data).
Proof.
  induction data as [| | | |items IH|entries IH] using value_nested_ind;
    intros sources; try reflexivity.
  - simpl. revert sources.
    induction IH as [|x items Hx _ IHitems]; intros sources; [reflexivity|].
    rewrite dedup_app, <- Hx. apply IHitems.
  - simpl. revert sources.
    induction IH as [|[k x] entries Hx _ IHentries]; intros sources; [reflexivity|].
    rewrite dedup_app. rewrite IHentries. f_equal.
    simpl in Hx. destruct x; try reflexivity.
    + destruct (Verifier.is_url_key k); reflexivity.
    + apply Hx.
    + apply Hx.
Qed.

Lemma add_source_NoDup (x : string) (l : list string) :
  NoDup l -> NoDup (Verifier.add_source x l).
Proof.
  intros H. unfold Verifier.add_source.
  destruct (existsb (String.eqb x) l) eqn:E; [exact H|].
  apply NoDup_app; [exact H | repeat constructor; intros [] |].
  intros y Hy [Heq|[]]. subst y.
  assert (existsb (String.eqb x) l = true)
    by (apply existsb_exists; exists x; split; [exact Hy | apply String.eqb_refl]).
  congruence.
Qed.

Lemma add_source_In (x u : string) (l : list string) :
  In u (Verifier.add_source x l) <-> In u l \/ u = x.
Proof.
  unfold Verifier.add_source.
  destruct (existsb (String.eqb x) l) eqn:E.
  - split; [auto|]. intros [H|H]; [exact H|]. subst u.
    apply existsb_exists in E. destruct E as (y & Hy & Heq).
    apply String.eqb_eq in Heq. subst. exact Hy.
  - rewrite in_app_iff. simpl. intuition.
Qed.

Lemma dedup_NoDup (l seen : list string) :
  NoDup seen -> NoDup (Verifier.dedup seen l).
Proof.
  revert seen. induction l as [|x l IH]; intros seen H; [exact H|].
  simpl. apply IH, add_source_NoDup, H.
Qed.

Lemma dedup_In (l seen : list string) (u : string) :
  In u (Verifier.dedup seen l) <-> In u seen \/ In u l.
Proof.
  revert seen. induction l as [|x l IH]; intros seen; simpl; [intuition|].
  unfold Verifier.dedup in *. simpl. rewrite IH, add_source_In. intuition.
Qed.

Lemma contains_concat (p sep x : string) (l : list string) :
  In x l -> contains p x = true -> contains p (String.concat sep l) = true.
Proof.
  induction l as [|y l IH]; intros Hin Hx; [destruct Hin|].
  simpl. destruct l as [|z l].
  - destruct Hin as [->|[]]. exact Hx.
  - destruct Hin as [->|Hin].
    + apply contains_app_l. exact Hx.
    + apply contains_app_r, contains_app_r. apply IH; assumption.
Qed.

Lemma is_url_key_repr (k : string) :
  Verifier.is_url_key k = true -> contains "url" (repr_str k) = true.
Proof.
  unfold Verifier.is_url_key. intros H. apply orb_prop in H.
  destruct H as [H|H]; apply String.eqb_eq in H; subst k; reflexivity.
Qed.

(** A payload that holds a link shows the text [url] when printed. *)
Lemma links_show_url :
  forall v, Verifier.links v <> [] -> contains "url" (repr v) = true.
Proof.
  induction v as [| | | |items IH|entries IH] using value_nested_ind;
    try (intros H; exfalso; apply H; reflexivity).
  - intros H. cbn [repr]. apply contains_app_r, contains_app_l.
    assert (Hex : exists x, In x items /\ Verifier.links x <> []).
    { simpl in H. clear IH. induction items as [|x items IHi]; [congruence|].
      destruct (Verifier.links x) eqn:E.
      - destruct IHi as (y & Hy & Hl); [exact H|]. exists y. split; [right|]; assumption.
      - exists x. split; [left; reflexivity | congruence]. }
    destruct Hex as (x & Hx & Hl).
    rewrite Forall_forall in IH.
    apply (contains_concat "url" ", " (repr x)); [apply in_map; exact Hx|].
    apply IH; assumption.
  - intros H. cbn [repr]. apply contains_app_r, contains_app_l.
    assert (Hex : exists k x, In (k, x) entries /\
                   ((exists s, x = VStr s /\ Verifier.is_url_key k = true) \/
                    Verifier.links x <> [])).
    { simpl in H. clear IH. induction entries as [|[k x] entries IHe]; [congruence|].
      destruct (match x with
                | VStr s => if Verifier.is_url_key k then [s] else []
                | _ => Verifier.links x
                end) eqn:E.
      - destruct IHe as (k' & y & Hy & Hl); [exact H|].
        exists k', y. split; [right|]; assumption.
      - exists k, x. split; [left; reflexivity|].
        destruct x; try (right; congruence).
        left. exists s0. split; [reflexivity|].
        destruct (Verifier.is_url_key k); [reflexivity | discriminate]. }
    destruct Hex as (k & x & Hx & Hl).
    rewrite Forall_forall in IH.
    apply (contains_concat "url" ", " (repr_str k ++ ": " ++ repr x)).
    + apply (in_map (fun kv : string * value =>
                       let (k, x) := kv in repr_str k ++ ": " ++ repr x) _ _ Hx).
    + destruct Hl as [(s & -> & Hk)|Hl].
      * apply contains_app_l, is_url_key_repr, Hk.
      * apply contains_app_r, contains_app_r. apply (IH (k, x) Hx). exact Hl.
Qed.

(** The textual guard in front of the scan never hides a link. *)
Lemma guarded_scan (data : dict) (sources : list string) :
  (if contains "url" (str (VDict data))
   then Verifier._extract_sources (VDict data) sources
   else sources)
  = Verifier.dedup sources (Verifier.links (VDict data)).
Proof.
  destruct (contains "url" (str (VDict data))) eqn:E.
  - apply extract_sources_links.
  - destruct (Verifier.links (VDict data)) eqn:L; [reflexivity|].
    assert (contains "url" (repr (VDict data)) = true)
      by (apply links_show_url; congruence).
    unfold str in E. congruence.
Qed.

(** ** The aggregation loop *)

Lemma collect_one_sources (acc acc' : Verifier.Collected) (r : ToolResult.t) :
  Verifier.collect_one acc r = Ok acc' ->
  Verifier.sources acc'
  = Verifier.dedup (Verifier.sources acc)
      (flat_map Verifier.links
         match ToolResult.data r with Some d => [VDict d] | None => [] end).
Proof.
  unfold Verifier.collect_one.
  destruct (ToolResult.data r) as [data|]; [|intros H; inversion H; reflexivity].
  cbn [flat_map]. rewrite app_nil_r.
  pose proof (guarded_scan data (Verifier.sources acc)) as Hscan.
  destruct (truthy (VDict data)) eqn:T.
  - destruct (Verifier.with_context _ _) as [rwc|]; unfold bind at 1; [|discriminate].
    destruct (Verifier.store _ _ _) as [c|]; unfold bind at 1; [|discriminate].
    intros H. injection H as <-. exact Hscan.
  - destruct data; [|discriminate T]. intros H; inversion H; reflexivity.
Qed.

Lemma collect_sources (rs : list ToolResult.t) :
  forall acc acc',
    Verifier.collect acc rs = Ok acc' ->
    Verifier.sources acc'
    = Verifier.dedup (Verifier.sources acc)
        (flat_map Verifier.links
           (flat_map (fun r => match ToolResult.data r with
                               | Some d => [VDict d]
                               | None => []
                               end) rs)).
Proof.
  induction rs as [|r rs IH]; intros acc acc' H.
  - inversion H. reflexivity.
  - cbn [Verifier.collect] in H.
    destruct (Verifier.collect_one acc r) as [acc1|] eqn:E; cbn [bind] in H;
      [|discriminate].
    rewrite (IH _ _ H), (collect_one_sources _ _ _ E).
    cbn [flat_map]. rewrite flat_map_app, dedup_app. reflexivity.
Qed.

Lemma successful_payloads_filter (rs : list ToolResult.t) :
  flat_map (fun r => match ToolResult.data r with
                     | Some d => [VDict d]
                     | None => []
                     end)
    (filter (fun r => ToolResult.success r) rs)
  = Verifier.successful_payloads rs.
Proof.
  unfold Verifier.successful_payloads.
  induction rs as [|r rs IH]; [reflexivity|].
  cbn [filter flat_map]. destruct (ToolResult.success r); cbn [flat_map].
  - rewrite IH. destruct (ToolResult.data r); reflexivity.
  - rewrite IH. reflexivity.
Qed.

(** Labels *)

Lemma label_ignores_context (tool_name : string) (data : dict) (v : value) :
  Verifier._generate_context_label tool_name (set data "_context" v)
  = Verifier._generate_context_label tool_name data.
Proof.
  unfold Verifier._generate_context_label.
  rewrite !mem_set_other, !get_or_none_set_other by discriminate.
  reflexivity.
Qed.

Lemma label_nonempty (tool_name : string) (data : dict) (l : string) :
  Verifier._generate_context_label tool_name data = Ok (Some l) ->
  truthy (VStr l) = true.
Proof.
  unfold Verifier._generate_context_label.
  repeat match goal with
         | |- context [if ?c then _ else _] => destruct c
         end;
    try discriminate;
    try (intros H; inversion H; reflexivity).
  destruct (len _) as [n|]; cbn [bind]; [|discriminate].
  destruct (if (50 <? n)%Z then _ else _) as [q|]; cbn [bind]; [|discriminate].
  intros H; inversion H; reflexivity.
Qed.

Lemma with_context_cases (tool_name : string) (data tagged : dict) :
  Verifier.with_context tool_name data = Ok tagged ->
  (exists l, Verifier._generate_context_label tool_name data = Ok (Some l) /\
             tagged = set data "_context" (VStr l)) \/
  (Verifier._generate_context_label tool_name data = Ok None /\ tagged = data).
Proof.
  unfold Verifier.with_context.
  destruct (Verifier._generate_context_label tool_name data) as [[l|]|] eqn:E;
    cbn [bind]; [| |discriminate].
  - rewrite (label_nonempty _ _ _ E). intros H; inversion H. left. eauto.
  - intros H; inversion H. right. auto.
Qed.

(** Tagging an already tagged payload changes nothing. *)
Lemma with_context_idempotent (tool_name : string) (data tagged : dict) :
  Verifier.with_context tool_name data = Ok tagged ->
  Verifier.with_context tool_name tagged = Ok tagged.
Proof.
  intros H. destruct (with_context_cases _ _ _ H) as [(l & Hl & ->)|[Hn ->]].
  - unfold Verifier.with_context. rewrite label_ignores_context, Hl. cbn [bind].
    rewrite (label_nonempty _ _ _ Hl), set_set. reflexivity.
  - exact H.
Qed.

(** Tagging keeps every field of the payload. *)
Lemma with_context_keeps_fields (tool_name : string) (data tagged : dict) (k : string) :
  Verifier.with_context tool_name data = Ok tagged ->
  k <> "_context" -> get tagged k = get data k.
Proof.
  intros H Hk. destruct (with_context_cases _ _ _ H) as [(l & _ & ->)|[_ ->]];
    [apply get_set_other; exact Hk | reflexivity].
Qed.

Lemma label_total (tool_name : string) (data : dict) :
  Verifier.label_safe tool_name data = true ->
  exists l, Verifier._generate_context_label tool_name data = Ok l.
Proof.
  unfold Verifier.label_safe, Verifier._generate_context_label. intros Hsafe.
  destruct (String.eqb tool_name "weather" && mem "city" data); [eauto|].
  destruct (String.eqb tool_name "github" && mem "query" data) eqn:G.
  - apply andb_prop in G. destruct G as [Hg Hm]. rewrite Hg in Hsafe.
    unfold mem in Hm. unfold get_or_none.
    destruct (get data "query") as [q|]; [|discriminate].
    destruct q; try discriminate. cbn [len bind].
    destruct (50 <? _)%Z; cbn; eauto.
  - repeat match goal with
           | |- context [if ?c then _ else _] => destruct c
           end; eauto.
Qed.

Lemma with_context_total (tool_name : string) (data : dict) :
  Verifier.label_safe tool_name data = true ->
  exists tagged,
    Verifier.with_context tool_name data = Ok tagged /\
    Verifier.label_safe tool_name tagged = true.
Proof.
  intros Hsafe. unfold Verifier.with_context.
  destruct (label_total _ _ Hsafe) as ([l|] & Hl); rewrite Hl; cbn [bind].
  - rewrite (label_nonempty _ _ _ Hl). eexists. split; [reflexivity|].
    unfold Verifier.label_safe in *. rewrite get_set_other by discriminate.
    exact Hsafe.
  - eauto.
Qed.

(** Single entries of the by-tool map keep computable labels. *)
Lemma store_total (tool_name : string) (rwc : dict) (collected : dict) :
  (forall t first, get collected t = Some (VDict first) ->
                   Verifier.label_safe t first = true) ->
  Verifier.label_safe tool_name rwc = true ->
  exists collected',
    Verifier.store tool_name rwc collected = Ok collected' /\
    (forall t first, get collected' t = Some (VDict first) ->
                     Verifier.label_safe t first = true).
Proof.
  intros Hinv Hsafe. unfold Verifier.store.
  destruct (get collected tool_name) as [existing|] eqn:E.
  - assert (Hkeep : forall l t first,
               get (set collected tool_name (VList l)) t = Some (VDict first) ->
               Verifier.label_safe t first = true).
    { intros l t first. rewrite get_set.
      destruct (String.eqb tool_name t); [discriminate | apply Hinv]. }
    destruct existing as [|b|n|s|entries|first]; cbn [bind]; eauto.
    destruct (with_context_total tool_name first (Hinv _ _ E)) as (first' & Hf & _).
    rewrite Hf. cbn [bind]. eauto.
  - eexists. split; [reflexivity|].
    intros t first. rewrite get_set.
    destruct (String.eqb_spec tool_name t) as [<-|_]; [|apply Hinv].
    intros H; inversion H; subst. exact Hsafe.
Qed.

Lemma collect_total (rs : list ToolResult.t) :
  forall acc,
    Verifier.labels_computable rs = true ->
    Forall (fun r => ToolResult.success r = true) rs ->
    (forall t first, get (Verifier.collected_data acc) t = Some (VDict first) ->
                     Verifier.label_safe t first = true) ->
    exists acc', Verifier.collect acc rs = Ok acc'.
Proof.
  induction rs as [|r rs IH]; intros acc Hsafe Hsucc Hinv; [simpl; eauto|].
  cbn [Verifier.labels_computable forallb] in Hsafe.
  apply andb_prop in Hsafe. destruct Hsafe as [Hr Hrs].
  inversion Hsucc as [|? ? Hs Hsucc']; subst. rewrite Hs in Hr. cbn [negb orb] in Hr.
  cbn [Verifier.collect].
  assert (Hone : exists acc1,
             Verifier.collect_one acc r = Ok acc1 /\
             (forall t first,
                 get (Verifier.collected_data acc1) t = Some (VDict first) ->
                 Verifier.label_safe t first = true)).
  { unfold Verifier.collect_one.
    destruct (ToolResult.data r) as [data|]; [|eauto].
    destruct (truthy (VDict data)); [|eauto].
    destruct (with_context_total _ _ Hr) as (rwc & Hw & Hsafe').
    rewrite Hw. cbn [bind].
    destruct (store_total _ _ _ Hinv Hsafe') as (c & Hc & Hinv').
    rewrite Hc. cbn [bind]. eexists. split; [reflexivity | exact Hinv']. }
  destruct Hone as (acc1 & H1 & Hinv1). rewrite H1. cbn [bind].
  apply IH; assumption.
Qed.

Lemma named_link_is_url_key (key : string) :
  Verifier.is_url_key key = Verifier.named_link key.
Proof.
  unfold Verifier.is_url_key, Verifier.named_link. cbn [existsb].
  rewrite orb_false_r. reflexivity.
Qed.

(** The scan of the code meets the link strings of the payload, in reading
    order. *)
Lemma links_cited (data : value) : Verifier.links data = Verifier.cited data.
Proof.
  induction data as [| | | |items IH|entries IH] using value_nested_ind;
    try reflexivity.
  - cbn [Verifier.links Verifier.cited].
    induction IH as [|x items Hx _ IHitems]; [reflexivity|].
    cbn [flat_map]. rewrite <- Hx, <- IHitems. reflexivity.
  - cbn [Verifier.links Verifier.cited].
    induction IH as [|[k x] entries Hx _ IHentries]; [reflexivity|].
    cbn [flat_map]. rewrite <- IHentries. f_equal.
    cbn [snd] in Hx. destruct x; try reflexivity.
    + rewrite named_link_is_url_key. reflexivity.
    + exact Hx.
    + exact Hx.
Qed.

Lemma filter_filter_and {A : Type} (f g : A -> bool) (l : list A) :
  filter f (filter g l) = filter (fun y => g y && f y) l.
Proof.
  induction l as [|x l IH]; [reflexivity|]. cbn [filter].
  destruct (g x); cbn [filter andb]; rewrite IH; reflexivity.
Qed.

(** Appending what is not yet listed, one string at a time, keeps the
    strings already listed and adds the others at their first occurrence. *)
Lemma dedup_first_seen (l : list string) :
  forall seen,
    Verifier.dedup seen l
    = (seen ++ filter (fun y => negb (existsb (String.eqb y) seen))
                 (Verifier.first_seen l))%list.
Proof.
  induction l as [|x l IH]; intros seen.
  - cbn. rewrite app_nil_r. reflexivity.
  - unfold Verifier.dedup. cbn [fold_left].
    fold (Verifier.dedup (Verifier.add_source x seen) l).
    rewrite IH. unfold Verifier.add_source.
    cbn [Verifier.first_seen filter].
    destruct (existsb (String.eqb x) seen) eqn:E; cbn [negb].
    + f_equal. rewrite filter_filter_and. apply filter_ext. intros y.
      destruct (String.eqb_spec y x) as [->|_]; [|reflexivity].
      rewrite E. reflexivity.
    + rewrite <- app_assoc. cbn [app]. do 2 f_equal.
      rewrite filter_filter_and. apply filter_ext. intros y.
      rewrite existsb_app. cbn [existsb]. rewrite orb_false_r, negb_orb.
      apply andb_comm.
Qed.

Lemma dedup_from_nothing (l : list string) :
  Verifier.dedup [] l = Verifier.first_seen l.
Proof.
  rewrite dedup_first_seen. cbn [app existsb negb].
  induction (Verifier.first_seen l) as [|x f IH]; [reflexivity|].
  cbn [filter]. rewrite IH. reflexivity.
Qed.

(** C8.  When the labels of the successful payloads can be computed, the
    aggregation returns, and its citation list is exactly the strings found
    under fields named ["url"] or ["html_url"] by walking the nested dicts
    and lists of every successful outcome's payload, each once, in
    first-seen order across the outcomes. *)
Theorem sources_are_first_seen_links :
  forall (task : string) (execution_result : ExecutionResult.t),
    Verifier.labels_computable (ExecutionResult.results execution_result) = true ->
    exists final,
      Verifier.verify_and_format task execution_result = Ok final /\
      Verifier.final_sources final
      = Verifier.documented_sources (ExecutionResult.results execution_result) /\
      NoDup (Verifier.final_sources final) /\
      (forall u,
          In u (Verifier.final_sources final) <->
          exists payload,
            In payload (Verifier.successful_payloads
                          (ExecutionResult.results execution_result)) /\
            In u (Verifier.cited payload)).
Proof.
  intros task er Hsafe. unfold Verifier.verify_and_format.
  set (results := ExecutionResult.results er) in *.
  destruct (collect_total (filter (fun r => ToolResult.success r) results)
              (Verifier.mkCollected [] [] [] [])) as (acc & Hacc).
  - unfold Verifier.labels_computable in *. rewrite forallb_forall in *.
    intros r Hr. apply filter_In in Hr. apply Hsafe, Hr.
  - apply Forall_forall. intros r Hr. apply filter_In in Hr. apply Hr.
  - intros t first H. discriminate.
  - rewrite Hacc. cbn [bind]. eexists. split; [reflexivity|].
    cbn [Verifier.final_sources].
    pose proof (collect_sources _ _ _ Hacc) as Hsrc.
    rewrite successful_payloads_filter in Hsrc. cbn [Verifier.sources] in Hsrc.
    assert (Hscan : flat_map Verifier.links (Verifier.successful_payloads results)
                    = flat_map Verifier.cited (Verifier.successful_payloads results))
      by (apply flat_map_ext; intros payload; apply links_cited).
    split; [|split].
    + rewrite Hsrc, Hscan. apply dedup_from_nothing.
    + rewrite Hsrc. apply dedup_NoDup. constructor.
    + intros u. rewrite Hsrc, Hscan, dedup_In, in_flat_map. simpl. intuition.
Qed.

Lemma sources_are_first_seen_links_witness :
  exists final,
    Verifier.verify_and_format "ml repositories and news"
      (ExecutionResult.mk Examples.search_then_summary
         [Examples.github_hits; Examples.news_hits]) = Ok final /\
    Verifier.final_sources final
    = ["https://github.com/a/b"; "https://github.com/c/d";
       "https://news.example/x"] /\
    NoDup (Verifier.final_sources final) /\
    (forall u,
        In u (Verifier.final_sources final) <->
        exists payload,
          In payload (Verifier.successful_payloads
                        [Examples.github_hits; Examples.news_hits]) /\
          In u (Verifier.cited payload)).
Proof.
  apply (sources_are_first_seen_links "ml repositories and news"
           (ExecutionResult.mk Examples.search_then_summary
              [Examples.github_hits; Examples.news_hits])).
  reflexivity.
Defined.

Lemma store_absent (tool_name : string) (rwc collected : dict) :
  get collected tool_name = None ->
  Verifier.store tool_name rwc collected
  = Ok (set collected tool_name (VDict rwc)).
Proof. intros H. unfold Verifier.store. rewrite H. reflexivity. Qed.

Lemma store_single (tool_name : string) (rwc first first' collected : dict) :
  get collected tool_name = Some (VDict first) ->
  Verifier.with_context tool_name first = Ok first' ->
  Verifier.store tool_name rwc collected
  = Ok (set collected tool_name (VList [VDict first'; VDict rwc])).
Proof.
  intros H Hf. unfold Verifier.store. rewrite H. cbn [bind]. rewrite Hf. reflexivity.
Qed.

Lemma collect_one_data (acc : Verifier.Collected) (r : ToolResult.t)
    (d tagged collected : dict) :
  ToolResult.data r = Some d -> d <> [] ->
  Verifier.with_context (ToolResult.tool r) d = Ok tagged ->
  Verifier.store (ToolResult.tool r) tagged (Verifier.collected_data acc)
  = Ok collected ->
  exists acc', Verifier.collect_one acc r = Ok acc' /\
               Verifier.collected_data acc' = collected.
Proof.
  intros Hd Hne Hw Hs. unfold Verifier.collect_one. rewrite Hd.
  destruct d as [|kv d]; [congruence|]. cbn [truthy].
  rewrite Hw. unfold bind at 1. rewrite Hs. unfold bind at 1.
  eexists. split; reflexivity.
Qed.

(** An outcome of another tool leaves a tool's entry as it is. *)
Lemma collect_one_other (acc acc' : Verifier.Collected) (r : ToolResult.t)
    (tool_name : string) :
  ToolResult.tool r <> tool_name ->
  Verifier.collect_one acc r = Ok acc' ->
  get (Verifier.collected_data acc') tool_name
  = get (Verifier.collected_data acc) tool_name.
Proof.
  intros Hne. unfold Verifier.collect_one.
  destruct (ToolResult.data r) as [d|]; [|intros H; inversion H; reflexivity].
  destruct (truthy (VDict d)); [|intros H; inversion H; reflexivity].
  destruct (Verifier.with_context _ _) as [rwc|]; unfold bind at 1; [|discriminate].
  destruct (Verifier.store _ _ _) as [c|] eqn:S; unfold bind at 1; [|discriminate].
  intros H. injection H as <-. cbn [Verifier.collected_data].
  unfold Verifier.store in S.
  destruct (get (Verifier.collected_data acc) (ToolResult.tool r)) as [existing|].
  - destruct (match existing with
              | VList entries => Ok entries
              | VDict first => _
              | other => Ok [other]
              end) as [promoted|]; cbn [bind] in S; [|discriminate].
    injection S as <-. apply get_set_other. congruence.
  - injection S as <-. apply get_set_other. congruence.
Qed.

(** Two successful outcomes of one tool, aggregated on their own. *)
Lemma two_outcomes_details (task : string) (plan : ExecutionPlan.t)
    (r1 r2 : ToolResult.t) (d1 d2 t1 t2 : dict) :
  ToolResult.success r1 = true -> ToolResult.success r2 = true ->
  ToolResult.tool r2 = ToolResult.tool r1 ->
  ToolResult.data r1 = Some d1 -> d1 <> [] ->
  ToolResult.data r2 = Some d2 -> d2 <> [] ->
  Verifier.with_context (ToolResult.tool r1) d1 = Ok t1 ->
  Verifier.with_context (ToolResult.tool r1) d2 = Ok t2 ->
  exists final,
    Verifier.verify_and_format task (ExecutionResult.mk plan [r1; r2]) = Ok final /\
    Verifier.details final = [(ToolResult.tool r1, VList [VDict t1; VDict t2])].
Proof.
  intros Hs1 Hs2 Htool Hd1 Hne1 Hd2 Hne2 Hw1 Hw2.
  unfold Verifier.verify_and_format. cbn [ExecutionResult.results filter].
  rewrite Hs1, Hs2. cbn [Verifier.collect].
  destruct (collect_one_data (Verifier.mkCollected [] [] [] []) r1 d1 t1
              [(ToolResult.tool r1, VDict t1)] Hd1 Hne1 Hw1 eq_refl)
    as (acc1 & H1 & Hc1).
  rewrite H1. cbn [bind].
  rewrite <- Htool in Hw2.
  destruct (collect_one_data acc1 r2 d2 t2
              [(ToolResult.tool r1, VList [VDict t1; VDict t2])] Hd2 Hne2 Hw2)
    as (acc2 & H2 & Hc2).
  { rewrite Hc1, Htool.
    rewrite (store_single _ t2 t1 t1).
    - cbn [set]. rewrite String.eqb_refl. reflexivity.
    - cbn [get]. rewrite String.eqb_refl. reflexivity.
    - apply (with_context_idempotent _ d1). exact Hw1. }
  rewrite H2. cbn [bind].
  eexists. split; [reflexivity|]. exact Hc2.
Qed.

(** C7.  Two successful outcomes of one tool aggregate to the ordered list
    of their two tagged payloads under the tool's key.  Step by step: the
    first outcome is stored under the key as one tagged payload; when a
    second outcome of the same tool arrives, the entry becomes the list of
    the two tagged payloads, first occurrence first (the back-fill leaves
    the first entry, which already carries its label, as it is); outcomes
    of other tools in between do not touch it.  A tagged payload is the
    payload with the label under ["_context"]: every other field keeps its
    value. *)
Theorem repeated_tool_becomes_list :
  forall (acc : Verifier.Collected) (r1 r2 : ToolResult.t)
         (d1 d2 t1 t2 : dict),
    ToolResult.tool r2 = ToolResult.tool r1 ->
    ToolResult.data r1 = Some d1 -> d1 <> [] ->
    ToolResult.data r2 = Some d2 -> d2 <> [] ->
    get (Verifier.collected_data acc) (ToolResult.tool r1) = None ->
    Verifier.with_context (ToolResult.tool r1) d1 = Ok t1 ->
    Verifier.with_context (ToolResult.tool r1) d2 = Ok t2 ->
    (ToolResult.success r1 = true -> ToolResult.success r2 = true ->
     forall task plan,
     exists final,
       Verifier.verify_and_format task (ExecutionResult.mk plan [r1; r2]) = Ok final /\
       Verifier.details final
       = [(ToolResult.tool r1, VList [VDict t1; VDict t2])]) /\
    (exists acc1,
        Verifier.collect_one acc r1 = Ok acc1 /\
        get (Verifier.collected_data acc1) (ToolResult.tool r1) = Some (VDict t1)) /\
    (forall accm,
        get (Verifier.collected_data accm) (ToolResult.tool r1) = Some (VDict t1) ->
        exists acc2,
          Verifier.collect_one accm r2 = Ok acc2 /\
          get (Verifier.collected_data acc2) (ToolResult.tool r1)
          = Some (VList [VDict t1; VDict t2])) /\
    (forall other accx accy,
        ToolResult.tool other <> ToolResult.tool r1 ->
        Verifier.collect_one accx other = Ok accy ->
        get (Verifier.collected_data accy) (ToolResult.tool r1)
        = get (Verifier.collected_data accx) (ToolResult.tool r1)) /\
    (forall k, k <> "_context" -> get t1 k = get d1 k /\ get t2 k = get d2 k) /\
    (forall l,
        Verifier._generate_context_label (ToolResult.tool r1) d1 = Ok (Some l) ->
        get t1 "_context" = Some (VStr l)) /\
    (forall l,
        Verifier._generate_context_label (ToolResult.tool r1) d2 = Ok (Some l) ->
        get t2 "_context" = Some (VStr l)).
Proof.
  intros acc r1 r2 d1 d2 t1 t2 Htool Hd1 Hne1 Hd2 Hne2 Hnew Hw1 Hw2.
  assert (Hlabel : forall d t l,
             Verifier.with_context (ToolResult.tool r1) d = Ok t ->
             Verifier._generate_context_label (ToolResult.tool r1) d = Ok (Some l) ->
             get t "_context" = Some (VStr l)).
  { intros d t l Hw Hl.
    destruct (with_context_cases _ _ _ Hw) as [(l' & Hl' & ->)|[Hn _]];
      [|congruence].
    rewrite get_set, String.eqb_refl. congruence. }
  split; [intros Hs1 Hs2 task plan; eapply two_outcomes_details; eassumption|].
  repeat split.
  - destruct (collect_one_data acc r1 d1 t1 _ Hd1 Hne1 Hw1
                (store_absent _ t1 _ Hnew)) as (acc1 & H1 & Hc).
    exists acc1. split; [exact H1|]. rewrite Hc, get_set, String.eqb_refl. reflexivity.
  - intros accm Hm.
    rewrite <- Htool in Hw2.
    destruct (collect_one_data accm r2 d2 t2
                (set (Verifier.collected_data accm) (ToolResult.tool r2)
                   (VList [VDict t1; VDict t2])) Hd2 Hne2 Hw2) as (acc2 & H2 & Hc).
    { apply (store_single _ t2 t1 t1); rewrite Htool;
        [exact Hm | apply (with_context_idempotent _ d1); exact Hw1]. }
    exists acc2. split; [exact H2|].
    rewrite Hc, Htool, get_set, String.eqb_refl. reflexivity.
  - intros other accx accy Hne Hc. apply (collect_one_other _ _ other); assumption.
  - apply (with_context_keeps_fields _ _ _ _ Hw1). assumption.
  - apply (with_context_keeps_fields _ _ _ _ Hw2). assumption.
  - intros l. apply Hlabel. exact Hw1.
  - intros l. apply Hlabel. exact Hw2.
Qed.

Lemma repeated_tool_becomes_list_witness :
  (ToolResult.success (Examples.weather_outcome "Paris") = true ->
   ToolResult.success (Examples.weather_outcome "Tokyo") = true ->
   forall task plan,
   exists final,
     Verifier.verify_and_format task
       (ExecutionResult.mk plan
          [Examples.weather_outcome "Paris"; Examples.weather_outcome "Tokyo"])
     = Ok final /\
     Verifier.details final
     = [("weather", VList [VDict (Examples.labelled_weather "Paris");
                           VDict (Examples.labelled_weather "Tokyo")])]) /\
  (exists acc1,
      Verifier.collect_one (Verifier.mkCollected [] [] [] [])
        (Examples.weather_outcome "Paris") = Ok acc1 /\
      get (Verifier.collected_data acc1) "weather"
      = Some (VDict (Examples.labelled_weather "Paris"))) /\
  (forall accm,
      get (Verifier.collected_data accm) "weather"
      = Some (VDict (Examples.labelled_weather "Paris")) ->
      exists acc2,
        Verifier.collect_one accm (Examples.weather_outcome "Tokyo") = Ok acc2 /\
        get (Verifier.collected_data acc2) "weather"
        = Some (VList [VDict (Examples.labelled_weather "Paris");
                       VDict (Examples.labelled_weather "Tokyo")])) /\
  (forall other accx accy,
      ToolResult.tool other <> "weather" ->
      Verifier.collect_one accx other = Ok accy ->
      get (Verifier.collected_data accy) "weather"
      = get (Verifier.collected_data accx) "weather") /\
  (forall k, k <> "_context" ->
      get (Examples.labelled_weather "Paris") k = get (Examples.weather_in "Paris") k /\
      get (Examples.labelled_weather "Tokyo") k = get (Examples.weather_in "Tokyo") k) /\
  (forall l,
      Verifier._generate_context_label "weather" (Examples.weather_in "Paris")
      = Ok (Some l) ->
      get (Examples.labelled_weather "Paris") "_context" = Some (VStr l)) /\
  (forall l,
      Verifier._generate_context_label "weather" (Examples.weather_in "Tokyo")
      = Ok (Some l) ->
      get (Examples.labelled_weather "Tokyo") "_context" = Some (VStr l)).
Proof.
  apply (repeated_tool_becomes_list (Verifier.mkCollected [] [] [] [])
           (Examples.weather_outcome "Paris") (Examples.weather_outcome "Tokyo")
           (Examples.weather_in "Paris") (Examples.weather_in "Tokyo")
           (Examples.labelled_weather "Paris") (Examples.labelled_weather "Tokyo"));
    try reflexivity; discriminate.
Defined.

(* ================================================================== *)
(** * Further properties *)
(* ================================================================== *)

(** ** The retry decorator, continued *)

(** The loop, from attempt [a] on: its attempts and sleeps. *)
Lemma retrying_shape {A : Type} (max_attempts : nat) (wait : nat -> Z)
    (fn : nat -> result A) :
  forall fuel a slept,
    exists k,
      Tenacity.sleeps
        (Tenacity.retrying (Tenacity.stop_after_attempt max_attempts) wait
           RetryUtils.retry_condition fn fuel a slept)
      = (slept ++ map wait (seq a k))%list /\
      Tenacity.attempts
        (Tenacity.retrying (Tenacity.stop_after_attempt max_attempts) wait
           RetryUtils.retry_condition fn fuel a slept)
      = (a + k)%nat /\
      (a + k <= Nat.max a max_attempts)%nat.
Proof.
  induction fuel as [|fuel IH]; intros a slept.
  - exists 0%nat. simpl.
    destruct (fn a) as [v|e]; [|destruct (negb _); [|destruct (Tenacity.stop_after_attempt _ _)]];
      simpl; rewrite app_nil_r, Nat.add_0_r; repeat split; try reflexivity; try lia.
  - simpl. destruct (fn a) as [v|e].
    + exists 0%nat. simpl. rewrite app_nil_r, Nat.add_0_r. repeat split; try reflexivity; try lia.
    + destruct (negb (RetryUtils.retry_condition e)).
      * exists 0%nat. simpl. rewrite app_nil_r, Nat.add_0_r. repeat split; try reflexivity; try lia.
      * destruct (Tenacity.stop_after_attempt max_attempts a) eqn:Hstop.
        -- exists 0%nat. simpl. rewrite app_nil_r, Nat.add_0_r. repeat split; try reflexivity; try lia.
        -- apply Nat.leb_gt in Hstop.
           destruct (IH (S a) (slept ++ [wait a])%list) as (k & Hs & Ha & Hb).
           exists (S k). rewrite Hs, Ha. simpl seq. simpl map.
           rewrite <- app_assoc. simpl. repeat split; try reflexivity; try lia.
Qed.

(** X1.  However the wrapped operation behaves, a decorated call makes at
    least one attempt and at most [max(1, max_attempts)], and sleeps exactly
    once between two consecutive attempts. *)
Theorem retry_attempts_bounded :
  forall (A : Type) (max_attempts : nat) (initial_wait max_wait multiplier : Z)
         (fn : nat -> result A),
    (1 <= Tenacity.attempts
            (RetryUtils.retry_api_call max_attempts initial_wait max_wait
               multiplier fn)
     <= Nat.max 1 max_attempts)%nat /\
    List.length
      (Tenacity.sleeps
         (RetryUtils.retry_api_call max_attempts initial_wait max_wait
            multiplier fn))
    = (Tenacity.attempts
         (RetryUtils.retry_api_call max_attempts initial_wait max_wait
            multiplier fn) - 1)%nat.
Proof.
  intros A max_attempts iw mw mult fn.
  unfold RetryUtils.retry_api_call.
  destruct (retrying_shape max_attempts (Tenacity.wait_exponential mult iw mw) fn
              max_attempts 1 []) as (k & Hs & Ha & Hb).
  rewrite Hs, Ha. simpl app. rewrite length_map, length_seq. lia.
Qed.

Lemma wait_exponential_bounds (multiplier min max : Z) (attempt_number : nat) :
  (Z.max 0 min <= Tenacity.wait_exponential multiplier min max attempt_number
   <= Z.max (Z.max 0 min) max)%Z.
Proof. unfold Tenacity.wait_exponential. lia. Qed.

(** X2.  Every sleep a decorated call takes lasts at least
    [max(0, initial_wait)] and at most [max(initial_wait, max_wait, 0)]
    seconds: the cap holds whenever it is not below the floor. *)
Theorem retry_sleeps_within_bounds :
  forall (A : Type) (max_attempts : nat) (initial_wait max_wait multiplier : Z)
         (fn : nat -> result A),
    Forall (fun s => (Z.max 0 initial_wait <= s
                      <= Z.max (Z.max 0 initial_wait) max_wait)%Z)
      (Tenacity.sleeps
         (RetryUtils.retry_api_call max_attempts initial_wait max_wait
            multiplier fn)).
Proof.
  intros A max_attempts iw mw mult fn. unfold RetryUtils.retry_api_call.
  destruct (retrying_shape max_attempts (Tenacity.wait_exponential mult iw mw) fn
              max_attempts 1 []) as (k & Hs & _ & _).
  rewrite Hs. simpl app. apply Forall_forall. intros s Hin.
  apply in_map_iff in Hin. destruct Hin as (n & <- & _).
  apply wait_exponential_bounds.
Qed.

Lemma wait_exponential_le_next (multiplier min max : Z) (n : nat) :
  (0 <= multiplier)%Z ->
  (Tenacity.wait_exponential multiplier min max n
   <= Tenacity.wait_exponential multiplier min max (S n))%Z.
Proof.
  intros Hm. unfold Tenacity.wait_exponential.
  assert (Hpow : (2 ^ Z.of_nat (n - 1) <= 2 ^ Z.of_nat (S n - 1))%Z)
    by (apply Z.pow_le_mono_r; lia).
  assert (Hmul : (multiplier * 2 ^ Z.of_nat (n - 1)
                  <= multiplier * 2 ^ Z.of_nat (S n - 1))%Z)
    by (apply Z.mul_le_mono_nonneg_l; assumption).
  lia.
Qed.

Lemma sorted_map_seq (wait : nat -> Z) :
  (forall n, (wait n <= wait (S n))%Z) ->
  forall k a, Sorted Z.le (map wait (seq a k)).
Proof.
  intros Hmono. induction k as [|k IH]; intros a; [constructor|].
  cbn [seq map]. constructor; [apply IH|].
  destruct k; cbn [seq map]; constructor. apply Hmono.
Qed.

(** X3.  With a non-negative multiplier the backoff never shrinks: the
    sleeps of a decorated call are in non-decreasing order. *)
Theorem retry_backoff_never_shrinks :
  forall (A : Type) (max_attempts : nat) (initial_wait max_wait multiplier : Z)
         (fn : nat -> result A),
    (0 <= multiplier)%Z ->
    Sorted Z.le
      (Tenacity.sleeps
         (RetryUtils.retry_api_call max_attempts initial_wait max_wait
            multiplier fn)).
Proof.
  intros A max_attempts iw mw mult fn Hm. unfold RetryUtils.retry_api_call.
  destruct (retrying_shape max_attempts (Tenacity.wait_exponential mult iw mw) fn
              max_attempts 1 []) as (k & Hs & _ & _).
  rewrite Hs. cbn [app]. apply sorted_map_seq.
  intros n. apply wait_exponential_le_next. exact Hm.
Qed.

Lemma retry_backoff_never_shrinks_witness :
  Sorted Z.le
    (Tenacity.sleeps
       (RetryUtils.retry_api_call 3 1 10 2
          (fun _ => Raise (ConnectError "offline") : result value))).
Proof.
  apply (retry_backoff_never_shrinks value 3 1 10 2
           (fun _ => Raise (ConnectError "offline"))).
  lia.
Defined.

(** X4.  When every allowed attempt fails with a retryable fault, the call
    ends after exactly [max_attempts] attempts by raising the exception of
    the last attempt, unchanged, having slept before each retry. *)
Theorem retry_exhaustion_reraises_last :
  forall (A : Type) (max_attempts : nat) (initial_wait max_wait multiplier : Z)
         (fn : nat -> result A) (last : exn),
    (1 <= max_attempts)%nat ->
    (forall j, (1 <= j < max_attempts)%nat ->
               exists e, fn j = Raise e /\ RetryUtils.retry_condition e = true) ->
    fn max_attempts = Raise last ->
    RetryUtils.retry_api_call max_attempts initial_wait max_wait multiplier fn
    = Tenacity.mkRun (Raise last) max_attempts
        (map (Tenacity.wait_exponential multiplier initial_wait max_wait)
           (seq 1 (max_attempts - 1))).
Proof.
  intros A max_attempts iw mw mult fn last Hmax Hfail Hlast.
  unfold RetryUtils.retry_api_call.
  rewrite (retrying_advance max_attempts _ fn (max_attempts - 1)); try lia.
  - replace (1 + (max_attempts - 1))%nat with max_attempts by lia.
    apply retrying_exhausted; [exact Hlast | lia].
  - intros j Hj. apply Hfail. lia.
Qed.

Lemma retry_exhaustion_reraises_last_witness :
  RetryUtils.retry_api_call 3 1 10 2
    (fun k => Raise (HTTPStatusError 503 (str_of_Z (Z.of_nat k))) : result value)
  = Tenacity.mkRun (Raise (HTTPStatusError 503 "3")) 3 [2; 4]%Z.
Proof.
  apply (retry_exhaustion_reraises_last value 3 1 10 2
           (fun k => Raise (HTTPStatusError 503 (str_of_Z (Z.of_nat k))))
           (HTTPStatusError 503 "3")).
  - lia.
  - intros j Hj. eexists. split; reflexivity.
  - reflexivity.
Defined.

(** X5.  The value returned is that of the first attempt that succeeds:
    after [k - 1] retried failures a success on attempt [k] ends the call
    with that value, [k] attempts and [k - 1] sleeps. *)
Theorem retry_returns_first_success :
  forall (A : Type) (max_attempts : nat) (initial_wait max_wait multiplier : Z)
         (fn : nat -> result A) (k : nat) (v : A),
    (1 <= k <= max_attempts)%nat ->
    (forall j, (1 <= j < k)%nat ->
               exists e, fn j = Raise e /\ RetryUtils.retry_condition e = true) ->
    fn k = Ok v ->
    RetryUtils.retry_api_call max_attempts initial_wait max_wait multiplier fn
    = Tenacity.mkRun (Ok v) k
        (map (Tenacity.wait_exponential multiplier initial_wait max_wait)
           (seq 1 (k - 1))).
Proof.
  intros A max_attempts iw mw mult fn k v Hk Hfail Hok.
  unfold RetryUtils.retry_api_call.
  rewrite (retrying_advance max_attempts _ fn (k - 1)); try lia.
  - replace (1 + (k - 1))%nat with k by lia.
    apply retrying_success. exact Hok.
  - intros j Hj. apply Hfail. lia.
Qed.

Lemma retry_returns_first_success_witness :
  RetryUtils.retry_api_call 3 1 10 2
    (fun k => if (k <=? 1)%nat then Raise (TimeoutException "slow")
              else Ok (VStr "payload"))
  = Tenacity.mkRun (Ok (VStr "payload")) 2 [2%Z].
Proof.
  apply (retry_returns_first_success value 3 1 10 2
           (fun k => if (k <=? 1)%nat then Raise (TimeoutException "slow")
                     else Ok (VStr "payload"))
           2 (VStr "payload")).
  - lia.
  - intros j Hj. assert (j = 1%nat) by lia. subst j. eexists. split; reflexivity.
  - reflexivity.
Defined.

(** X6.  The two [retry_if_exception_type] clauses of the decorator add
    nothing: the retry condition is [should_retry_http_error] itself. *)
Theorem retry_condition_is_should_retry :
  forall e : exn,
    RetryUtils.retry_condition e = RetryUtils.should_retry_http_error e.
Proof.
  intros e. unfold RetryUtils.retry_condition, Tenacity.retry_any,
    Tenacity.retry_if_exception_type, Tenacity.retry_if_exception,
    RetryUtils.should_retry_http_error.
  destruct e; simpl; try reflexivity.
Qed.

(** ** The Wikipedia adapter, continued *)


Lemma build_results_lists (titles descriptions urls : list value) :
  forall indices,
    (forall i, In i indices ->
               (i < List.length titles /\ i < List.length descriptions /\
                i < List.length urls)%nat) ->
    WikipediaTool.build_results (VList titles) (VList descriptions) (VList urls)
      indices
    = Ok (map (fun i => VDict [("title", nth i titles VNone);
                               ("description", nth i descriptions VNone);
                               ("url", nth i urls VNone)]) indices).
Proof.
  assert (Hnth : forall (l : list value) i, (i < List.length l)%nat ->
                   getitem_int (VList l) i = Ok (nth i l VNone)).
  { intros l i Hi. simpl. rewrite (nth_error_nth' l VNone Hi). reflexivity. }
  induction indices as [|i rest IH]; intros Hin; [reflexivity|].
  destruct (Hin i (or_introl eq_refl)) as (Ht & Hd & Hu).
  cbn [WikipediaTool.build_results].
  rewrite (Hnth titles i Ht), (Hnth descriptions i Hd), (Hnth urls i Hu).
  cbn [bind]. rewrite IH by (intros j Hj; apply Hin; right; exact Hj).
  reflexivity.
Qed.

Lemma build_results_ragged (titles descriptions urls : list value) :
  forall indices,
    (exists i, In i indices /\
               (List.length titles <= i \/ List.length descriptions <= i \/
                List.length urls <= i)%nat) ->
    WikipediaTool.build_results (VList titles) (VList descriptions) (VList urls)
      indices
    = Raise (Exception "IndexError" "list index out of range").
Proof.
  assert (Hget : forall (l : list value) i,
             (exists x, getitem_int (VList l) i = Ok x /\ (i < List.length l)%nat) \/
             (getitem_int (VList l) i
              = Raise (Exception "IndexError" "list index out of range") /\
              (List.length l <= i)%nat)).
  { intros l i. simpl. destruct (nth_error l i) as [x|] eqn:E.
    - left. exists x. split; [reflexivity|]. apply nth_error_Some. congruence.
    - right. split; [reflexivity|]. apply nth_error_None. exact E. }
  induction indices as [|i rest IH]; intros (j & Hj & Hbad); [destruct Hj|].
  cbn [WikipediaTool.build_results].
  destruct (Hget titles i) as [(t & -> & Ht)|[-> _]]; [|reflexivity].
  destruct (Hget descriptions i) as [(d & -> & Hd)|[-> _]]; [|reflexivity].
  destruct (Hget urls i) as [(u & -> & Hu)|[-> _]]; [|reflexivity].
  cbn [bind]. rewrite IH; [reflexivity|].
  exists j. split; [|exact Hbad].
  destruct Hj as [<-|Hj]; [lia | exact Hj].
Qed.

(** X7.  On a well-formed OpenSearch answer [[q, titles, descriptions,
    urls, ...]] whose description and url lists are at least as long as the
    title list, [search] succeeds with one result per title, in order, the
    i-th result holding the i-th title, description and url. *)
Theorem search_pairs_titles_in_order :
  forall (client : Httpx.Client) (query limit : value) (response : Httpx.Response)
         (q : value) (titles descriptions urls more : list value),
    (forall request, client 0%nat request = Ok response) ->
    Httpx.raise_for_status response = Ok tt ->
    Httpx.json response
    = Ok (VList (q :: VList titles :: VList descriptions :: VList urls :: more)) ->
    (List.length titles <= List.length descriptions)%nat ->
    (List.length titles <= List.length urls)%nat ->
    WikipediaTool.search client query limit
    = [("success", VBool true); ("query", query);
       ("results",
        VList (map (fun i => VDict [("title", nth i titles VNone);
                                    ("description", nth i descriptions VNone);
                                    ("url", nth i urls VNone)])
                 (seq 0 (List.length titles))))].
Proof.
  intros client query limit response q titles descriptions urls more
    Hc Hs Hj Hd Hu.
  unfold WikipediaTool.search. rewrite Hc. cbn [bind]. rewrite Hs. cbn [bind].
  rewrite Hj. cbn [bind len List.length].
  replace (4 <=? Z.of_nat (S (S (S (S (List.length more))))))%Z with true
    by (symmetry; apply Z.leb_le; lia).
  cbn [getitem_int nth_error bind len]. rewrite Nat2Z.id.
  rewrite build_results_lists; [reflexivity|].
  intros i Hi. apply in_seq in Hi. lia.
Qed.

Lemma search_pairs_titles_in_order_witness :
  WikipediaTool.search Examples.nepal_hits (VStr "Nepal") (VInt 5)
  = [("success", VBool true); ("query", VStr "Nepal");
     ("results",
      VList [VDict [("title", VStr "Nepal (country)"); ("description", VStr "");
                    ("url", VStr "https://en.wikipedia.org/wiki/Nepal")];
             VDict [("title", VStr "Nepali language"); ("description", VStr "");
                    ("url", VStr "https://en.wikipedia.org/wiki/Nepali_language")]])].
Proof.
  apply (search_pairs_titles_in_order Examples.nepal_hits (VStr "Nepal") (VInt 5)
           (Examples.reply
              (VList [VStr "Nepal";
                      VList [VStr "Nepal (country)"; VStr "Nepali language"];
                      VList [VStr ""; VStr ""];
                      VList [VStr "https://en.wikipedia.org/wiki/Nepal";
                             VStr "https://en.wikipedia.org/wiki/Nepali_language"]]))
           (VStr "Nepal")
           [VStr "Nepal (country)"; VStr "Nepali language"]
           [VStr ""; VStr ""]
           [VStr "https://en.wikipedia.org/wiki/Nepal";
            VStr "https://en.wikipedia.org/wiki/Nepali_language"] []);
    try reflexivity; simpl; lia.
Defined.

(** X8.  When the description list or the url list of the answer is shorter
    than the title list, [search] gives up every result: it returns the
    failure ["Unexpected error: list index out of range"]. *)
Theorem search_ragged_answer_fails :
  forall (client : Httpx.Client) (query limit : value) (response : Httpx.Response)
         (q : value) (titles descriptions urls more : list value),
    (forall request, client 0%nat request = Ok response) ->
    Httpx.raise_for_status response = Ok tt ->
    Httpx.json response
    = Ok (VList (q :: VList titles :: VList descriptions :: VList urls :: more)) ->
    (List.length descriptions < List.length titles \/
     List.length urls < List.length titles)%nat ->
    WikipediaTool.search client query limit
    = failure "Unexpected error: list index out of range".
Proof.
  intros client query limit response q titles descriptions urls more
    Hc Hs Hj Hshort.
  unfold WikipediaTool.search. rewrite Hc. cbn [bind]. rewrite Hs. cbn [bind].
  rewrite Hj. cbn [bind len List.length].
  replace (4 <=? Z.of_nat (S (S (S (S (List.length more))))))%Z with true
    by (symmetry; apply Z.leb_le; lia).
  cbn [getitem_int nth_error bind len]. rewrite Nat2Z.id.
  rewrite build_results_ragged; [reflexivity|].
  exists (List.length titles - 1)%nat. split; [apply in_seq; lia | lia].
Qed.

Lemma search_ragged_answer_fails_witness :
  WikipediaTool.search Cases.ragged_hits (VStr "Nepal") (VInt 5)
  = failure "Unexpected error: list index out of range".
Proof.
  apply (search_ragged_answer_fails Cases.ragged_hits (VStr "Nepal") (VInt 5)
           (Examples.reply
              (VList [VStr "Nepal";
                      VList [VStr "Nepal"; VStr "Nepali language"];
                      VList [VStr "Country in Asia"];
                      VList [VStr "https://en.wikipedia.org/wiki/Nepal";
                             VStr "https://en.wikipedia.org/wiki/Nepali_language"]]))
           (VStr "Nepal")
           [VStr "Nepal"; VStr "Nepali language"]
           [VStr "Country in Asia"]
           [VStr "https://en.wikipedia.org/wiki/Nepal";
            VStr "https://en.wikipedia.org/wiki/Nepali_language"] []);
    try reflexivity. simpl. lia.
Defined.

(** X9.  An answer of fewer than four elements -- a short list, a string,
    an error object with up to three keys -- is not a failure: [search]
    reports success with an empty result list. *)
Theorem search_short_answer_is_empty_success :
  forall (client : Httpx.Client) (query limit : value) (response : Httpx.Response)
         (data : value) (n : Z),
    (forall request, client 0%nat request = Ok response) ->
    Httpx.raise_for_status response = Ok tt ->
    Httpx.json response = Ok data ->
    len data = Ok n -> (n < 4)%Z ->
    WikipediaTool.search client query limit
    = [("success", VBool true); ("query", query); ("results", VList [])].
Proof.
  intros client query limit response data n Hc Hs Hj Hlen Hn.
  unfold WikipediaTool.search. rewrite Hc. cbn [bind]. rewrite Hs. cbn [bind].
  rewrite Hj. cbn [bind]. rewrite Hlen. cbn [bind].
  replace (4 <=? n)%Z with false by (symmetry; apply Z.leb_gt; exact Hn).
  reflexivity.
Qed.

Lemma search_short_answer_is_empty_success_witness :
  WikipediaTool.search
    (fun _ _ => Ok (Examples.reply (VDict [("error", VStr "rate limited")])))
    (VStr "Nepal") (VInt 5)
  = [("success", VBool true); ("query", VStr "Nepal"); ("results", VList [])].
Proof.
  apply (search_short_answer_is_empty_success
           (fun _ _ => Ok (Examples.reply (VDict [("error", VStr "rate limited")])))
           (VStr "Nepal") (VInt 5)
           (Examples.reply (VDict [("error", VStr "rate limited")]))
           (VDict [("error", VStr "rate limited")]) 1);
    try reflexivity; lia.
Defined.

(** X10.  [get_summary] tells three kinds of fault apart by their text: a
    404 answer names the missing article, any other non-2xx answer is a
    ["Wikipedia API error"], and a connection fault or timeout is an
    ["Unexpected error"]. *)
Theorem get_summary_fault_texts :
  forall (client : Httpx.Client) (title : string),
    (forall (response : Httpx.Response),
        (forall request, client 0%nat request = Ok response) ->
        Httpx.status_code response = 404%Z ->
        WikipediaTool.get_summary client (VStr title)
        = failure ("Article '" ++ title ++ "' not found")) /\
    (forall (response : Httpx.Response) (e : exn),
        (forall request, client 0%nat request = Ok response) ->
        Httpx.raise_for_status response = Raise e ->
        Httpx.status_code response <> 404%Z ->
        WikipediaTool.get_summary client (VStr title)
        = failure ("Wikipedia API error: " ++ exn_str e)) /\
    (forall (e : exn),
        (forall request, client 0%nat request = Raise e) ->
        is_HTTPStatusError e = false ->
        WikipediaTool.get_summary client (VStr title)
        = failure ("Unexpected error: " ++ exn_str e)).
Proof.
  intros client title. split; [|split].
  - intros response Hc H404. unfold WikipediaTool.get_summary.
    cbn [str_replace_spaces bind]. rewrite Hc. cbn [bind].
    unfold Httpx.raise_for_status. rewrite H404. reflexivity.
  - intros response e Hc Hr Hne. unfold WikipediaTool.get_summary.
    cbn [str_replace_spaces bind]. rewrite Hc. cbn [bind]. rewrite Hr. cbn [bind].
    unfold Httpx.raise_for_status in Hr.
    destruct (_ && _); [discriminate|]. inversion Hr; subst e.
    destruct (Z.eqb_spec (Httpx.status_code response) 404); [contradiction|].
    reflexivity.
  - intros e Hc He. unfold WikipediaTool.get_summary.
    cbn [str_replace_spaces bind]. rewrite Hc. cbn [bind].
    destruct e; try reflexivity. discriminate.
Qed.

Lemma get_summary_fault_texts_witness :
  WikipediaTool.get_summary (Cases.always_status 404) (VStr "Atlantis")
  = failure "Article 'Atlantis' not found".
Proof.
  apply (proj1 (get_summary_fault_texts (Cases.always_status 404) "Atlantis")
           (Cases.status_reply 404)); reflexivity.
Defined.

Lemma char_length_take_chars (n : nat) (s : string) :
  char_length (take_chars n s) = Nat.min n (char_length s).
Proof.
  revert n. induction s as [|c s IH]; intros n; cbn [take_chars char_length].
  - rewrite Nat.min_0_r. reflexivity.
  - destruct (is_continuation c) eqn:E.
    + cbn [char_length]. rewrite E. apply IH.
    + destruct n as [|n]; [reflexivity|].
      cbn [char_length]. rewrite E, IH. reflexivity.
Qed.

Lemma take_chars_all (n : nat) (s : string) :
  (char_length s <= n)%nat -> take_chars n s = s.
Proof.
  revert n. induction s as [|c s IH]; intros n; cbn [take_chars char_length];
    [reflexivity|].
  destruct (is_continuation c).
  - intros H. rewrite IH by exact H. reflexivity.
  - destruct n as [|n]; [lia|]. intros H. rewrite IH by lia. reflexivity.
Qed.

Lemma take_chars_prefix (n : nat) (s : string) :
  String.prefix (take_chars n s) s = true.
Proof.
  revert n. induction s as [|c s IH]; intros n; cbn [take_chars]; [reflexivity|].
  destruct (is_continuation c).
  - cbn [String.prefix]. destruct (Ascii.ascii_dec c c); [apply IH | contradiction].
  - destruct n as [|n]; [reflexivity|].
    cbn [String.prefix]. destruct (Ascii.ascii_dec c c); [apply IH | contradiction].
Qed.

(** X11.  When [get_article_html] succeeds, the payload echoes the title it
    was given and its ["html"] is the first 1000 characters of the text of
    the answer to the one request made: a prefix of that text with
    [min(1000, len(text))] characters, the whole text when it has at most
    1000. *)
Theorem article_html_is_truncated :
  forall (client : Httpx.Client) (title : value) (payload : dict),
    WikipediaTool.get_article_html client title = Ok payload ->
    get payload "success" = Some (VBool true) ->
    get payload "title" = Some title /\
    exists title_encoded response html,
      str_replace_spaces title = Ok title_encoded /\
      client 0%nat
        (Httpx.mkRequest (WikipediaTool.BASE_URL ++ "/page/html/" ++ title_encoded)
           None) = Ok response /\
      get payload "html" = Some (VStr html) /\
      html = take_chars 1000 (Httpx.text response) /\
      String.prefix html (Httpx.text response) = true /\
      char_length html = Nat.min 1000 (char_length (Httpx.text response)) /\
      ((char_length (Httpx.text response) <= 1000)%nat ->
       html = Httpx.text response).
Proof.
  intros client title payload. unfold WikipediaTool.get_article_html.
  destruct (str_replace_spaces title) as [enc|e]; cbn [bind];
    [|destruct (is_HTTPError e); [intros H; inversion H; discriminate | discriminate]].
  destruct (client 0%nat _) as [response|e] eqn:Hr; cbn [bind];
    [|destruct (is_HTTPError e); [intros H; inversion H; discriminate | discriminate]].
  destruct (Httpx.raise_for_status response) as [[]|e]; cbn [bind];
    [|destruct (is_HTTPError e); [intros H; inversion H; discriminate | discriminate]].
  intros H _. inversion H. split; [reflexivity|].
  exists enc, response, (take_chars 1000 (Httpx.text response)).
  split; [reflexivity|]. split; [exact Hr|]. split; [reflexivity|].
  split; [reflexivity|]. split; [apply take_chars_prefix|].
  split; [apply char_length_take_chars | apply take_chars_all].
Qed.

Lemma article_html_is_truncated_witness :
  exists payload,
    WikipediaTool.get_article_html
      (fun _ _ => Ok (Httpx.mkResponse 200 (Ok VNone) "<p>Népal, népalais</p>"))
      (VStr "Nepal") = Ok payload /\
    get payload "title" = Some (VStr "Nepal") /\
    exists title_encoded response html,
      str_replace_spaces (VStr "Nepal") = Ok title_encoded /\
      Ok (Httpx.mkResponse 200 (Ok VNone) "<p>Népal, népalais</p>") = Ok response /\
      get payload "html" = Some (VStr html) /\
      html = take_chars 1000 (Httpx.text response) /\
      String.prefix html (Httpx.text response) = true /\
      char_length html = Nat.min 1000 (char_length (Httpx.text response)) /\
      ((char_length (Httpx.text response) <= 1000)%nat ->
       html = Httpx.text response).
Proof.
  eexists. split; [reflexivity|].
  apply (article_html_is_truncated
           (fun _ _ => Ok (Httpx.mkResponse 200 (Ok VNone) "<p>Népal, népalais</p>"))
           (VStr "Nepal")); reflexivity.
Defined.

(** ** The step runner, continued *)

(** How the outcome follows from what the resolved coroutine returned. *)
Lemma execute_step_of_payload (w : Executor.World) (step : PlanStep.t)
    (tool : Tool) (m : Method) :
  Executor.tools_get (Executor.tools w) (PlanStep.tool step) = Some tool ->
  tool (PlanStep.action step) = Some (Coroutine m) ->
  (forall e,
      call m (Executor.filter_params (parameters m) (PlanStep.params step))
      = Raise e ->
      Executor._execute_step w step
      = ToolResult.mk (PlanStep.tool step) false None
          (Some ("Execution error: " ++ exn_str e))) /\
  (forall d,
      call m (Executor.filter_params (parameters m) (PlanStep.params step))
      = Ok (VDict d) ->
      get d "success" = Some (VBool true) ->
      Executor._execute_step w step
      = ToolResult.mk (PlanStep.tool step) true (Some d) None) /\
  (forall msg,
      call m (Executor.filter_params (parameters m) (PlanStep.params step))
      = Ok (VDict (failure msg)) ->
      Executor._execute_step w step
      = ToolResult.mk (PlanStep.tool step) false None (Some msg)).
Proof.
  intros Ht Ha.
  unfold Executor._execute_step, Executor.execute_step_body.
  rewrite Ht, Ha. repeat split.
  - intros e ->. reflexivity.
  - intros d -> Hs. cbn [bind]. unfold mem, get_or_none. rewrite Hs. reflexivity.
  - intros msg ->. reflexivity.
Qed.

Lemma get_summary_shape (client : Httpx.Client) (title : value) :
  get (WikipediaTool.get_summary client title) "success" = Some (VBool true) \/
  exists msg, WikipediaTool.get_summary client title = failure msg.
Proof.
  unfold WikipediaTool.get_summary.
  match goal with
  | |- context [match ?c with Ok _ => _ | Raise _ => _ end] =>
      destruct c as [payload|e] eqn:E
  end.
  - left.
    repeat match type of E with
           | bind ?c _ = Ok _ => destruct c; cbn [bind] in E; [|discriminate]
           end.
    inversion E. reflexivity.
  - right. destruct e; try (eexists; reflexivity).
    destruct (status_code =? 404)%Z; eexists; reflexivity.
Qed.

Lemma get_article_html_shape (client : Httpx.Client) (title : value) (payload : dict) :
  WikipediaTool.get_article_html client title = Ok payload ->
  get payload "success" = Some (VBool true) \/ exists msg, payload = failure msg.
Proof.
  unfold WikipediaTool.get_article_html.
  match goal with
  | |- context [match ?c with Ok _ => _ | Raise _ => _ end] =>
      destruct c as [p|e] eqn:E
  end.
  - intros H; inversion H; subst p. left.
    repeat match type of E with
           | bind ?c _ = Ok _ => destruct c; cbn [bind] in E; [|discriminate]
           end.
    inversion E. reflexivity.
  - destruct (is_HTTPError e); [|discriminate].
    intros H; inversion H. right. eauto.
Qed.

Lemma get_current_weather_shape (client : Httpx.Client) (api_key : string)
    (optimizer : QueryOptimizer) (city units : value) (payload : dict) :
  WeatherTool.get_current_weather client api_key optimizer city units = Ok payload ->
  get payload "success" = Some (VBool true) \/ exists msg, payload = failure msg.
Proof.
  unfold WeatherTool.get_current_weather.
  destruct (correct_query optimizer city "city") as [[corrected note]|e];
    cbn [bind]; [|discriminate].
  match goal with
  | |- context [match ?c with Ok _ => _ | Raise _ => _ end] =>
      destruct c as [p|e] eqn:E
  end.
  - intros H; inversion H; subst p. left.
    destruct (Tenacity.outcome _) as [data|]; cbn [bind] in E; [|discriminate].
    unfold WeatherTool.format_weather in E.
    repeat match type of E with
           | bind ?c _ = Ok _ => destruct c; cbn [bind] in E; [|discriminate]
           end.
    inversion E. destruct (truthy note); reflexivity.
  - intros H. right.
    destruct e; try (inversion H; eauto; fail).
    destruct (status_code =? 404)%Z; inversion H; eauto.
Qed.

(** X12.  For the data actions of the two embedded adapters -- Wikipedia's
    [search], [get_summary], [get_article_html] and the weather adapter's
    [get_current_weather] -- the outcome carries exactly one of data and
    error: a payload flagged successful when [success] holds, an error text
    when it does not. *)
Theorem data_actions_set_data_or_error :
  forall (w : Executor.World) (step : PlanStep.t),
    (PlanStep.tool step = "wikipedia" /\
     (PlanStep.action step = "search" \/ PlanStep.action step = "get_summary" \/
      PlanStep.action step = "get_article_html")) \/
    (PlanStep.tool step = "weather" /\
     PlanStep.action step = "get_current_weather") ->
    (ToolResult.success (Executor._execute_step w step) = true ->
       ToolResult.error (Executor._execute_step w step) = None /\
       exists d, ToolResult.data (Executor._execute_step w step) = Some d /\
                 get d "success" = Some (VBool true)) /\
    (ToolResult.success (Executor._execute_step w step) = false ->
       ToolResult.data (Executor._execute_step w step) = None /\
       exists msg, ToolResult.error (Executor._execute_step w step) = Some msg).
Proof.
  intros w step Hwhich.
  assert (Hgen : forall tool m,
             Executor.tools_get (Executor.tools w) (PlanStep.tool step) = Some tool ->
             tool (PlanStep.action step) = Some (Coroutine m) ->
             (forall kw d, body m kw = Ok d ->
                exists p, d = VDict p /\
                  (get p "success" = Some (VBool true) \/ exists msg, p = failure msg)) ->
             (ToolResult.success (Executor._execute_step w step) = true ->
                ToolResult.error (Executor._execute_step w step) = None /\
                exists d, ToolResult.data (Executor._execute_step w step) = Some d /\
                          get d "success" = Some (VBool true)) /\
             (ToolResult.success (Executor._execute_step w step) = false ->
                ToolResult.data (Executor._execute_step w step) = None /\
                exists msg, ToolResult.error (Executor._execute_step w step) = Some msg)).
  { intros tool m Ht Ha Hbody.
    destruct (execute_step_of_payload w step tool m Ht Ha) as (Hraise & Hok & Hfail).
    destruct (call m _) as [d|e] eqn:Hcall.
    - assert (Hb : body m (Executor.filter_params (parameters m) (PlanStep.params step))
                   = Ok d).
      { unfold call in Hcall. destruct (filter _ (required m)); [exact Hcall | discriminate]. }
      destruct (Hbody _ _ Hb) as (p & -> & [Hs|(msg & ->)]).
      + rewrite (Hok p eq_refl Hs). simpl. split; [eauto | discriminate].
      + rewrite (Hfail msg eq_refl). simpl. split; [discriminate | eauto].
    - rewrite (Hraise e eq_refl). simpl. split; [discriminate | eauto]. }
  destruct Hwhich as [[Ht [Ha|[Ha|Ha]]]|[Ht Ha]].
  - eapply Hgen; [rewrite Ht; reflexivity | rewrite Ha; reflexivity |].
    intros kw d H. cbn [body] in H. inversion H. eexists. split; [reflexivity|].
    destruct (search_shape (Executor.wikipedia_client w) (get_or_none kw "query")
                (arg kw "limit" (VInt 5))) as [(rs & -> & _)|(msg & ->)]; eauto.
  - eapply Hgen; [rewrite Ht; reflexivity | rewrite Ha; reflexivity |].
    intros kw d H. cbn [body] in H. inversion H. eexists. split; [reflexivity|].
    apply get_summary_shape.
  - eapply Hgen; [rewrite Ht; reflexivity | rewrite Ha; reflexivity |].
    intros kw d H. cbn [body] in H.
    destruct (WikipediaTool.get_article_html _ _) as [p|] eqn:E; cbn [bind] in H;
      [|discriminate].
    inversion H. eexists. split; [reflexivity|].
    eapply get_article_html_shape; exact E.
  - eapply Hgen; [rewrite Ht; reflexivity | rewrite Ha; reflexivity |].
    intros kw d H. cbn [body] in H.
    destruct (WeatherTool.get_current_weather _ _ _ _ _) as [p|] eqn:E;
      cbn [bind] in H; [|discriminate].
    inversion H. eexists. split; [reflexivity|].
    eapply get_current_weather_shape; exact E.
Qed.

Lemma data_actions_set_data_or_error_witness :
  (ToolResult.success
     (Executor._execute_step (Examples.world Examples.nepal_hits Examples.offline)
        (Examples.step 1 "weather" "get_current_weather" [("city", VStr "Paris")]))
   = true ->
   ToolResult.error
     (Executor._execute_step (Examples.world Examples.nepal_hits Examples.offline)
        (Examples.step 1 "weather" "get_current_weather" [("city", VStr "Paris")]))
   = None /\
   exists d,
     ToolResult.data
       (Executor._execute_step (Examples.world Examples.nepal_hits Examples.offline)
          (Examples.step 1 "weather" "get_current_weather" [("city", VStr "Paris")]))
     = Some d /\ get d "success" = Some (VBool true)) /\
  (ToolResult.success
     (Executor._execute_step (Examples.world Examples.nepal_hits Examples.offline)
        (Examples.step 1 "weather" "get_current_weather" [("city", VStr "Paris")]))
   = false ->
   ToolResult.data
     (Executor._execute_step (Examples.world Examples.nepal_hits Examples.offline)
        (Examples.step 1 "weather" "get_current_weather" [("city", VStr "Paris")]))
   = None /\
   exists msg,
     ToolResult.error
       (Executor._execute_step (Examples.world Examples.nepal_hits Examples.offline)
          (Examples.step 1 "weather" "get_current_weather" [("city", VStr "Paris")]))
     = Some msg).
Proof.
  apply (data_actions_set_data_or_error
           (Examples.world Examples.nepal_hits Examples.offline)
           (Examples.step 1 "weather" "get_current_weather" [("city", VStr "Paris")])).
  right. split; reflexivity.
Defined.

Lemma filter_params_set_other (valid : list string) (params : dict)
    (k : string) (v : value) :
  ~ In k valid ->
  Executor.filter_params valid (set params k v) = Executor.filter_params valid params.
Proof.
  intros Hk.
  assert (Hno : existsb (String.eqb k) valid = false).
  { destruct (existsb (String.eqb k) valid) eqn:E; [|reflexivity].
    apply existsb_exists in E. destruct E as (x & Hx & Heq).
    apply String.eqb_eq in Heq. subst x. contradiction. }
  unfold Executor.filter_params.
  induction params as [|[k' v'] params IH]; simpl.
  - rewrite Hno. reflexivity.
  - destruct (String.eqb_spec k' k) as [->|Hne]; simpl.
    + rewrite Hno. reflexivity.
    + rewrite IH. reflexivity.
Qed.

(** X13.  A parameter the resolved action does not declare has no effect:
    setting it on the step leaves the outcome as it was. *)
Theorem undeclared_parameter_is_ignored :
  forall (w : Executor.World) (step : PlanStep.t) (k : string) (v : value),
    (forall tool m,
        Executor.tools_get (Executor.tools w) (PlanStep.tool step) = Some tool ->
        tool (PlanStep.action step) = Some (Coroutine m) ->
        ~ In k (parameters m)) ->
    Executor._execute_step w (PlanStep.set_param step k v)
    = Executor._execute_step w step.
Proof.
  intros w step k v Hk.
  unfold Executor._execute_step, Executor.execute_step_body.
  destruct step as [n a t p r]. cbn [PlanStep.set_param PlanStep.tool
    PlanStep.action PlanStep.params PlanStep.step_number PlanStep.reasoning] in *.
  destruct (Executor.tools_get (Executor.tools w) t) as [tool|] eqn:Ht; [|reflexivity].
  destruct (tool a) as [[m|e]|] eqn:Ha; try reflexivity.
  rewrite (filter_params_set_other _ _ _ _ (Hk tool m eq_refl Ha)). reflexivity.
Qed.

Lemma undeclared_parameter_is_ignored_witness :
  Executor._execute_step (Examples.world Examples.nepal_hits Examples.offline)
    (PlanStep.set_param
       (Examples.step 1 "wikipedia" "search" [("query", VStr "Nepal")])
       "language" (VStr "en"))
  = Executor._execute_step (Examples.world Examples.nepal_hits Examples.offline)
      (Examples.step 1 "wikipedia" "search" [("query", VStr "Nepal")]).
Proof.
  apply (undeclared_parameter_is_ignored
           (Examples.world Examples.nepal_hits Examples.offline)
           (Examples.step 1 "wikipedia" "search" [("query", VStr "Nepal")])
           "language" (VStr "en")).
  intros tool m Ht Ha. vm_compute in Ht. inversion Ht; subst tool.
  vm_compute in Ha. inversion Ha; subst m.
  simpl. intros [H|[H|[]]]; discriminate.
Defined.

(** ** Whole plans, continued *)

Lemma sequential_independent (env : Executor.Env) (steps : list PlanStep.t) :
  (forall j, Executor.depends_on_previous steps j = false) ->
  forall rest i results,
    Executor.sequential env steps rest i results
    = Ok (steps,
          (results
             ++ map (fun p => Executor._execute_step
                                (Executor.world_at env (fst p)) (snd p))
                  (combine (seq i (List.length rest)) rest))%list).
Proof.
  intros Hind. induction rest as [|step rest IH]; intros i results; simpl.
  - rewrite app_nil_r. reflexivity.
  - rewrite Hind, IH, <- app_assoc. reflexivity.
Qed.

(** X14.  A plan in which no step is a Wikipedia summary right after a
    Wikipedia search is run exactly as planned: the plan comes back
    unchanged and outcome [j] is the outcome of step [j] as written,
    whatever the completion order inside the batch. *)
Theorem independent_steps_run_as_planned :
  forall (env : Executor.Env) (plan : ExecutionPlan.t),
    (forall j, Executor.depends_on_previous (ExecutionPlan.steps plan) j = false) ->
    Executor.execute_plan env plan
    = Some (Ok (ExecutionResult.mk plan
                  (map (fun p => Executor._execute_step
                                   (Executor.world_at env (fst p)) (snd p))
                     (combine (seq 0 (List.length (ExecutionPlan.steps plan)))
                        (ExecutionPlan.steps plan))))).
Proof.
  intros env plan Hind. unfold Executor.execute_plan.
  rewrite run_sequential by (try apply Hind; lia).
  cbn [skipn]. rewrite (sequential_independent env _ Hind).
  destruct plan; reflexivity.
Qed.

Lemma independent_steps_run_as_planned_witness :
  Executor.execute_plan
    (Examples.env_of (Examples.world Examples.nepal_hits Examples.offline))
    (ExecutionPlan.mk "Nepal and Paris"
       [Examples.step 1 "wikipedia" "search" [("query", VStr "Nepal")];
        Examples.step 2 "weather" "get_current_weather" [("city", VStr "Paris")]]
       ["wikipedia"; "weather"])
  = Some (Ok (ExecutionResult.mk
                (ExecutionPlan.mk "Nepal and Paris"
                   [Examples.step 1 "wikipedia" "search" [("query", VStr "Nepal")];
                    Examples.step 2 "weather" "get_current_weather"
                      [("city", VStr "Paris")]]
                   ["wikipedia"; "weather"])
                (map (fun p => Executor._execute_step
                                 (Executor.world_at
                                    (Examples.env_of (Examples.world Examples.nepal_hits Examples.offline)) (fst p)) (snd p))
                   (combine (seq 0 2)
                      [Examples.step 1 "wikipedia" "search" [("query", VStr "Nepal")];
                       Examples.step 2 "weather" "get_current_weather"
                         [("city", VStr "Paris")]])))).
Proof.
  apply (independent_steps_run_as_planned
           (Examples.env_of (Examples.world Examples.nepal_hits Examples.offline))
           (ExecutionPlan.mk "Nepal and Paris"
              [Examples.step 1 "wikipedia" "search" [("query", VStr "Nepal")];
               Examples.step 2 "weather" "get_current_weather" [("city", VStr "Paris")]]
              ["wikipedia"; "weather"])).
  intros [|[|[|j]]]; reflexivity.
Defined.

(** X15.  The plan a run returns is the plan it was given except for the
    ["title"] parameter of dependent steps: task, tool list, length, and
    every step's number, tool, action, reasoning and other parameters are
    kept, and a step that is not dependent comes back as it was. *)
Theorem returned_plan_differs_only_in_title :
  forall (env : Executor.Env) (plan : ExecutionPlan.t),
  exists er,
    Executor.execute_plan env plan = Some (Ok er) /\
    ExecutionPlan.task (ExecutionResult.plan er) = ExecutionPlan.task plan /\
    ExecutionPlan.estimated_tools (ExecutionResult.plan er)
    = ExecutionPlan.estimated_tools plan /\
    List.length (ExecutionPlan.steps (ExecutionResult.plan er))
    = List.length (ExecutionPlan.steps plan) /\
    forall j s,
      nth_error (ExecutionPlan.steps plan) j = Some s ->
      exists s',
        nth_error (ExecutionPlan.steps (ExecutionResult.plan er)) j = Some s' /\
        PlanStep.step_number s' = PlanStep.step_number s /\
        PlanStep.tool s' = PlanStep.tool s /\
        PlanStep.action s' = PlanStep.action s /\
        PlanStep.reasoning s' = PlanStep.reasoning s /\
        (forall k, k <> "title" ->
                   get (PlanStep.params s') k = get (PlanStep.params s) k) /\
        (Executor.depends_on_previous (ExecutionPlan.steps plan) j = false ->
         s' = s).
Proof.
  intros env plan.
  destruct (execute_plan_outcome env plan) as (er & Her & Hsig & Hlen & Hres & Hdis).
  exists er. split; [exact Her|].
  assert (Hplan : ExecutionPlan.task (ExecutionResult.plan er) = ExecutionPlan.task plan /\
                  ExecutionPlan.estimated_tools (ExecutionResult.plan er)
                  = ExecutionPlan.estimated_tools plan).
  { unfold Executor.execute_plan in Her.
    destruct (Executor.run _ _ _ _ _) as [[[steps results]|e]|]; try discriminate.
    inversion Her. split; reflexivity. }
  destruct Hplan as [Htask Htools].
  repeat split; try assumption.
  - apply signature_length. exact Hsig.
  - intros j s Hs. destruct (Hdis j s Hs) as (s' & Hs' & Hd).
    exists s'. split; [exact Hs'|].
    unfold Executor.dispatched_as in Hd.
    destruct (Executor.depends_on_previous (ExecutionPlan.steps plan) j).
    + destruct Hd as (prev & _ & Hinj).
      destruct (inject_title_cases _ _ _ Hinj) as [->|(t & ->)].
      * repeat split; try reflexivity; try discriminate.
      * repeat split; try reflexivity; try discriminate.
        intros k Hk. cbn [PlanStep.set_param PlanStep.params].
        apply get_set_other. exact Hk.
    + subst s'. repeat split; reflexivity.
Qed.

Lemma depends_on_previous_app (steps more : list PlanStep.t) (j : nat) :
  (j < List.length steps)%nat ->
  Executor.depends_on_previous (steps ++ more) j
  = Executor.depends_on_previous steps j.
Proof.
  intros Hj. unfold Executor.depends_on_previous.
  rewrite !nth_error_app1 by lia. reflexivity.
Qed.

(** X16.  Outcomes do not depend on later steps: when a plan is extended at
    its end, the run of the longer plan starts with the outcomes of the run
    of the shorter one. *)
Theorem later_steps_do_not_affect_earlier_outcomes :
  forall (env : Executor.Env) (task task' : string) (tools tools' : list string)
         (steps more : list PlanStep.t),
  exists er er',
    Executor.execute_plan env (ExecutionPlan.mk task steps tools) = Some (Ok er) /\
    Executor.execute_plan env (ExecutionPlan.mk task' (steps ++ more) tools')
    = Some (Ok er') /\
    firstn (List.length steps) (ExecutionResult.results er')
    = ExecutionResult.results er.
Proof.
  intros env task task' tools tools' steps more.
  destruct (execute_plan_outcome env (ExecutionPlan.mk task steps tools))
    as (er & Her & _ & Hlen & Hres & Hdis).
  destruct (execute_plan_outcome env (ExecutionPlan.mk task' (steps ++ more) tools'))
    as (er' & Her' & _ & Hlen' & Hres' & Hdis').
  cbn [ExecutionPlan.steps] in *.
  exists er, er'. split; [exact Her|]. split; [exact Her'|].
  assert (Hsame : forall j, (j < List.length steps)%nat ->
            nth_error (ExecutionResult.results er') j
            = nth_error (ExecutionResult.results er) j).
  { intros j. induction j as [j IH] using lt_wf_ind. intros Hj.
    destruct (nth_error steps j) as [s|] eqn:Hs;
      [|apply nth_error_None in Hs; lia].
    destruct (Hdis j s Hs) as (s1 & Hs1 & Hd1).
    assert (Hs' : nth_error (steps ++ more) j = Some s)
      by (rewrite nth_error_app1 by lia; exact Hs).
    destruct (Hdis' j s Hs') as (s2 & Hs2 & Hd2).
    rewrite (Hres' j s2 Hs2), (Hres j s1 Hs1).
    unfold Executor.dispatched_as in Hd1, Hd2.
    rewrite depends_on_previous_app in Hd2 by exact Hj.
    destruct (Executor.depends_on_previous steps j) eqn:Hdep.
    - destruct Hd1 as (prev & Hprev & Hinj).
      destruct Hd2 as (prev' & Hprev' & Hinj').
      assert (Hpos : (0 < j)%nat).
      { destruct j; [|lia]. rewrite depends_on_previous_0 in Hdep. discriminate. }
      rewrite IH in Hprev' by lia.
      rewrite Hprev in Hprev'. inversion Hprev'; subst prev'.
      rewrite Hinj in Hinj'. inversion Hinj'. reflexivity.
    - subst. reflexivity. }
  apply nth_error_ext. intros j.
  destruct (Nat.lt_ge_cases j (List.length steps)) as [Hj|Hj].
  - rewrite nth_error_firstn.
    destruct (Nat.ltb_spec j (List.length steps)); [|lia].
    apply Hsame. exact Hj.
  - rewrite nth_error_firstn.
    destruct (Nat.ltb_spec j (List.length steps)); [lia|].
    symmetry. apply nth_error_None. lia.
Qed.

(** ** The weather adapter, continued *)

Section ThreeAttempts.

Context {A : Type}.
Variable fn : nat -> result A.

Local Abbreviation decorated :=
  (RetryUtils.retry_api_call 3 RetryUtils.default_initial_wait
     RetryUtils.default_max_wait RetryUtils.default_multiplier fn).

Lemma three_attempts_terminal (e : exn) :
  fn 1%nat = Raise e -> RetryUtils.retry_condition e = false ->
  decorated = Tenacity.mkRun (Raise e) 1 [].
Proof.
  intros H Hr. unfold RetryUtils.retry_api_call. cbn [Tenacity.retrying].
  rewrite H, Hr. reflexivity.
Qed.

Lemma three_attempts_first (v : A) :
  fn 1%nat = Ok v -> decorated = Tenacity.mkRun (Ok v) 1 [].
Proof.
  intros H. unfold RetryUtils.retry_api_call. cbn [Tenacity.retrying].
  rewrite H. reflexivity.
Qed.

Lemma three_attempts_second (e : exn) (v : A) :
  fn 1%nat = Raise e -> RetryUtils.retry_condition e = true ->
  fn 2%nat = Ok v ->
  decorated = Tenacity.mkRun (Ok v) 2 [2%Z].
Proof.
  intros H1 Hr H2. unfold RetryUtils.retry_api_call. cbn [Tenacity.retrying].
  rewrite H1, Hr. cbn. rewrite H2. reflexivity.
Qed.

Lemma three_attempts_exhausted (e1 e2 e3 : exn) :
  fn 1%nat = Raise e1 -> RetryUtils.retry_condition e1 = true ->
  fn 2%nat = Raise e2 -> RetryUtils.retry_condition e2 = true ->
  fn 3%nat = Raise e3 ->
  decorated = Tenacity.mkRun (Raise e3) 3 [2%Z; 4%Z].
Proof.
  intros H1 Hr1 H2 Hr2 H3. unfold RetryUtils.retry_api_call.
  cbn [Tenacity.retrying].
  rewrite H1, Hr1. cbn. rewrite H2, Hr2. cbn. rewrite H3.
  destruct (RetryUtils.retry_condition e3); reflexivity.
Qed.

End ThreeAttempts.

(** X17.  A city the service does not know is asked for once: a 404 answer
    to the first request ends the action without a retry or a sleep, and the
    error text is the optimizer's reason for the city as the caller wrote
    it, not as it was corrected. *)
Theorem weather_unknown_city_is_not_retried :
  forall (client : Httpx.Client) (api_key : string) (optimizer : QueryOptimizer)
         (city units corrected note : value) (response : Httpx.Response),
    correct_query optimizer city "city" = Ok (corrected, note) ->
    client 0%nat
      (Httpx.mkRequest (WeatherTool.BASE_URL ++ "/weather")
         (Some [("q", corrected); ("appid", VStr api_key); ("units", units)]))
    = Ok response ->
    Httpx.status_code response = 404%Z ->
    WeatherTool.get_current_weather client api_key optimizer city units
    = Ok (failure (get_error_reason optimizer "weather" city "City not found")) /\
    Tenacity.attempts (WeatherTool._fetch_weather_data client api_key corrected units)
    = 1%nat /\
    Tenacity.sleeps (WeatherTool._fetch_weather_data client api_key corrected units)
    = [].
Proof.
  intros client api_key optimizer city units corrected note response Hc Hr H404.
  assert (Hrun : WeatherTool._fetch_weather_data client api_key corrected units
                 = Tenacity.mkRun
                     (Raise (HTTPStatusError 404 ("HTTP status " ++ str_of_Z 404)))
                     1 []).
  { unfold WeatherTool._fetch_weather_data.
    apply three_attempts_terminal; [|reflexivity].
    cbn [Nat.sub]. unfold WeatherTool.fetch_weather_once.
    rewrite Hr. cbn [bind]. unfold Httpx.raise_for_status. rewrite H404.
    reflexivity. }
  unfold WeatherTool.get_current_weather.
  rewrite Hc. cbn [bind]. rewrite Hrun. repeat split.
Qed.

Lemma weather_unknown_city_is_not_retried_witness :
  WeatherTool.get_current_weather (Cases.always_status 404) "key"
    Examples.plain_optimizer (VStr "Atlantis") (VStr "metric")
  = Ok (failure (get_error_reason Examples.plain_optimizer "weather"
                   (VStr "Atlantis") "City not found")) /\
  Tenacity.attempts
    (WeatherTool._fetch_weather_data (Cases.always_status 404) "key"
       (VStr "Atlantis") (VStr "metric")) = 1%nat /\
  Tenacity.sleeps
    (WeatherTool._fetch_weather_data (Cases.always_status 404) "key"
       (VStr "Atlantis") (VStr "metric")) = [].
Proof.
  apply (weather_unknown_city_is_not_retried (Cases.always_status 404) "key"
           Examples.plain_optimizer (VStr "Atlantis") (VStr "metric")
           (VStr "Atlantis") VNone (Cases.status_reply 404));
    reflexivity.
Defined.

(** X18.  One transient fault is invisible in the payload: when the first
    attempt fails retryably and the second returns, the action gives what
    it gives on a connection that starts at the second request, after two
    attempts and one sleep of 2 seconds. *)
Theorem weather_recovers_after_one_transient_fault :
  forall (client : Httpx.Client) (api_key : string) (optimizer : QueryOptimizer)
         (city units corrected note : value) (e : exn) (data : value),
    correct_query optimizer city "city" = Ok (corrected, note) ->
    WeatherTool.fetch_weather_once client api_key corrected units 0 = Raise e ->
    RetryUtils.retry_condition e = true ->
    WeatherTool.fetch_weather_once client api_key corrected units 1 = Ok data ->
    WeatherTool.get_current_weather client api_key optimizer city units
    = WeatherTool.get_current_weather (fun k => client (S k)) api_key optimizer
        city units /\
    Tenacity.attempts (WeatherTool._fetch_weather_data client api_key corrected units)
    = 2%nat /\
    Tenacity.sleeps (WeatherTool._fetch_weather_data client api_key corrected units)
    = [2%Z].
Proof.
  intros client api_key optimizer city units corrected note e data Hc H0 Hr H1.
  assert (Hrun : WeatherTool._fetch_weather_data client api_key corrected units
                 = Tenacity.mkRun (Ok data) 2 [2%Z]).
  { unfold WeatherTool._fetch_weather_data.
    apply (three_attempts_second _ e); assumption. }
  assert (Hrun' : WeatherTool._fetch_weather_data (fun k => client (S k)) api_key
                    corrected units
                  = Tenacity.mkRun (Ok data) 1 []).
  { unfold WeatherTool._fetch_weather_data.
    apply three_attempts_first. exact H1. }
  unfold WeatherTool.get_current_weather.
  rewrite Hc. cbn [bind]. rewrite Hrun, Hrun'. repeat split.
Qed.

Lemma weather_recovers_after_one_transient_fault_witness :
  WeatherTool.get_current_weather (Examples.flaky Cases.weather_service) "key"
    Examples.plain_optimizer (VStr "Paris") (VStr "metric")
  = WeatherTool.get_current_weather
      (fun k => Examples.flaky Cases.weather_service (S k)) "key"
      Examples.plain_optimizer (VStr "Paris") (VStr "metric") /\
  Tenacity.attempts
    (WeatherTool._fetch_weather_data (Examples.flaky Cases.weather_service) "key"
       (VStr "Paris") (VStr "metric")) = 2%nat /\
  Tenacity.sleeps
    (WeatherTool._fetch_weather_data (Examples.flaky Cases.weather_service) "key"
       (VStr "Paris") (VStr "metric")) = [2%Z].
Proof.
  apply (weather_recovers_after_one_transient_fault
           (Examples.flaky Cases.weather_service) "key" Examples.plain_optimizer
           (VStr "Paris") (VStr "metric") (VStr "Paris") VNone
           (ConnectError "connection reset") Cases.weather_reply);
    reflexivity.
Defined.

(** X19.  A connection that fails on all three attempts gives a failure
    payload, not an exception: its text is "Network error: ", the message of
    the last fault and ". Please check your connection.", after sleeps of 2
    and 4 seconds. *)
Theorem weather_network_fault_payload :
  forall (client : Httpx.Client) (api_key : string) (optimizer : QueryOptimizer)
         (city units corrected note : value) (fault : nat -> exn),
    correct_query optimizer city "city" = Ok (corrected, note) ->
    (forall k, (k < 3)%nat ->
       client k
         (Httpx.mkRequest (WeatherTool.BASE_URL ++ "/weather")
            (Some [("q", corrected); ("appid", VStr api_key); ("units", units)]))
       = Raise (fault k) /\
       is_ConnectError (fault k) || is_TimeoutException (fault k) = true) ->
    WeatherTool.get_current_weather client api_key optimizer city units
    = Ok (failure ("Network error: " ++ exn_str (fault 2%nat)
                     ++ ". Please check your connection.")) /\
    Tenacity.sleeps (WeatherTool._fetch_weather_data client api_key corrected units)
    = [2%Z; 4%Z].
Proof.
  intros client api_key optimizer city units corrected note fault Hc Hf.
  assert (Hretry : forall k, (k < 3)%nat ->
            WeatherTool.fetch_weather_once client api_key corrected units k
            = Raise (fault k) /\
            RetryUtils.retry_condition (fault k) = true).
  { intros k Hk. destruct (Hf k Hk) as [Hr Hkind]. split.
    - unfold WeatherTool.fetch_weather_once. rewrite Hr. reflexivity.
    - unfold RetryUtils.retry_condition, Tenacity.retry_any,
        Tenacity.retry_if_exception_type. rewrite Hkind. reflexivity. }
  destruct (Hretry 0%nat ltac:(lia)) as [H0 R0].
  destruct (Hretry 1%nat ltac:(lia)) as [H1 R1].
  destruct (Hretry 2%nat ltac:(lia)) as [H2 R2].
  assert (Hrun : WeatherTool._fetch_weather_data client api_key corrected units
                 = Tenacity.mkRun (Raise (fault 2%nat)) 3 [2%Z; 4%Z]).
  { unfold WeatherTool._fetch_weather_data.
    apply (three_attempts_exhausted _ (fault 0%nat) (fault 1%nat)); assumption. }
  unfold WeatherTool.get_current_weather.
  rewrite Hc. cbn [bind]. rewrite Hrun. cbn [Tenacity.outcome Tenacity.sleeps bind].
  split; [|reflexivity].
  destruct (Hf 2%nat ltac:(lia)) as [_ Hkind].
  destruct (fault 2%nat); try discriminate; reflexivity.
Qed.

Lemma weather_network_fault_payload_witness :
  WeatherTool.get_current_weather Examples.offline "key" Examples.plain_optimizer
    (VStr "Paris") (VStr "metric")
  = Ok (failure ("Network error: " ++ exn_str (ConnectError "offline")
                   ++ ". Please check your connection.")) /\
  Tenacity.sleeps
    (WeatherTool._fetch_weather_data Examples.offline "key" (VStr "Paris")
       (VStr "metric")) = [2%Z; 4%Z].
Proof.
  apply (weather_network_fault_payload Examples.offline "key"
           Examples.plain_optimizer (VStr "Paris") (VStr "metric") (VStr "Paris")
           VNone (fun _ => ConnectError "offline")).
  - reflexivity.
  - intros k _. split; reflexivity.
Defined.

Lemma getitem_str_raises_plain (v : value) (k : string) (e : exn) :
  getitem_str v k = Raise e -> is_HTTPError e = false.
Proof.
  destruct v; simpl; try (intros H; inversion H; reflexivity).
  destruct (get entries k); intros H; inversion H; reflexivity.
Qed.

Lemma getitem_int_raises_plain (v : value) (i : nat) (e : exn) :
  getitem_int v i = Raise e -> is_HTTPError e = false.
Proof.
  destruct v; simpl; try (intros H; inversion H; reflexivity).
  - destruct (nth_error (chars s) i); intros H; inversion H; reflexivity.
  - destruct (nth_error items i); intros H; inversion H; reflexivity.
Qed.

Ltac plain_step H :=
  match type of H with
  | bind ?c _ = Raise _ =>
      let E := fresh "E" in
      destruct c eqn:E; cbn [bind] in H;
      [| inversion H; subst;
         first [ eapply getitem_str_raises_plain; eassumption
               | eapply getitem_int_raises_plain; eassumption ] ]
  end.

Lemma format_weather_raises_plain (data units note : value) (e : exn) :
  WeatherTool.format_weather data units note = Raise e -> is_HTTPError e = false.
Proof.
  unfold WeatherTool.format_weather. intros H.
  repeat plain_step H. discriminate.
Qed.

Lemma forecast_entry_raises_plain (units item : value) (e : exn) :
  WeatherForecast.forecast_entry units item = Raise e -> is_HTTPError e = false.
Proof.
  unfold WeatherForecast.forecast_entry. intros H.
  repeat plain_step H. discriminate.
Qed.

Lemma forecast_entries_raises_plain (units : value) (items : list value) (e : exn) :
  WeatherForecast.forecast_entries units items = Raise e -> is_HTTPError e = false.
Proof.
  induction items as [|item items IH]; simpl; [discriminate|].
  intros H.
  destruct (WeatherForecast.forecast_entry units item) eqn:E1; cbn [bind] in H.
  - destruct (WeatherForecast.forecast_entries units items) eqn:E2; cbn [bind] in H;
      [discriminate|].
    inversion H; subst. apply IH. reflexivity.
  - inversion H; subst. eapply forecast_entry_raises_plain; eassumption.
Qed.

Lemma format_forecast_raises_plain (data units days note : value) (e : exn) :
  WeatherForecast.format_forecast data units days note = Raise e ->
  is_HTTPError e = false.
Proof.
  unfold WeatherForecast.format_forecast. intros H.
  destruct (getitem_str data "list") as [lst|] eqn:E1; cbn [bind] in H;
    [|inversion H; subst; eapply getitem_str_raises_plain; eassumption].
  destruct (WeatherForecast.mul_int days 8) as [stop|] eqn:E2; cbn [bind] in H;
    [|inversion H; subst; destruct days; simpl in E2; inversion E2; reflexivity].
  destruct (WeatherForecast.slice8_value lst stop) as [sliced|] eqn:E3;
    cbn [bind] in H;
    [|inversion H; subst; destruct stop, lst; simpl in E3; inversion E3; reflexivity].
  destruct (WeatherForecast.iterate sliced) as [items|] eqn:E4; cbn [bind] in H;
    [|inversion H; subst; destruct sliced; simpl in E4; inversion E4; reflexivity].
  destruct (WeatherForecast.forecast_entries units items) as [fl|] eqn:E5;
    cbn [bind] in H;
    [|inversion H; subst; eapply forecast_entries_raises_plain; eassumption].
  repeat plain_step H. discriminate.
Qed.

(** X20.  An answer the current-weather action cannot read (a field is
    missing or of the wrong shape) becomes a failure payload whose text is
    "Unexpected error: " and the message of the exception raised while
    reading it. *)
Theorem weather_unreadable_answer_is_a_failure :
  forall (client : Httpx.Client) (api_key : string) (optimizer : QueryOptimizer)
         (city units corrected note data : value) (e : exn),
    correct_query optimizer city "city" = Ok (corrected, note) ->
    Tenacity.outcome (WeatherTool._fetch_weather_data client api_key corrected units)
    = Ok data ->
    WeatherTool.format_weather data units note = Raise e ->
    WeatherTool.get_current_weather client api_key optimizer city units
    = Ok (failure ("Unexpected error: " ++ exn_str e)).
Proof.
  intros client api_key optimizer city units corrected note data e Hc Hd Hf.
  pose proof (format_weather_raises_plain _ _ _ _ Hf) as Hplain.
  unfold WeatherTool.get_current_weather.
  rewrite Hc. cbn [bind]. rewrite Hd. cbn [bind]. rewrite Hf.
  destruct e; try discriminate. reflexivity.
Qed.

Lemma weather_unreadable_answer_is_a_failure_witness :
  WeatherTool.get_current_weather (Cases.always_status 200) "key"
    Examples.plain_optimizer (VStr "Paris") (VStr "metric")
  = Ok (failure ("Unexpected error: "
                   ++ exn_str (Exception "TypeError" "object is not subscriptable"))).
Proof.
  apply (weather_unreadable_answer_is_a_failure (Cases.always_status 200) "key"
           Examples.plain_optimizer (VStr "Paris") (VStr "metric") (VStr "Paris")
           VNone VNone (Exception "TypeError" "object is not subscriptable"));
    reflexivity.
Defined.

(** X21.  The forecast action has no handler for such an answer: the
    exception raised while reading it leaves [get_forecast] instead of
    becoming a failure payload. *)
Theorem forecast_unreadable_answer_raises :
  forall (client : Httpx.Client) (api_key : string) (optimizer : QueryOptimizer)
         (city days units corrected note data : value) (e : exn),
    correct_query optimizer city "city" = Ok (corrected, note) ->
    Tenacity.outcome
      (WeatherForecast._fetch_forecast_data client api_key corrected units days)
    = Ok data ->
    WeatherForecast.format_forecast data units days note = Raise e ->
    WeatherForecast.get_forecast client api_key optimizer city days units = Raise e.
Proof.
  intros client api_key optimizer city days units corrected note data e Hc Hd Hf.
  pose proof (format_forecast_raises_plain _ _ _ _ _ Hf) as Hplain.
  unfold WeatherForecast.get_forecast.
  rewrite Hc. cbn [bind]. rewrite Hd. cbn [bind]. rewrite Hf.
  destruct e; try discriminate. reflexivity.
Qed.

Lemma forecast_unreadable_answer_raises_witness :
  WeatherForecast.get_forecast (Cases.always_status 200) "key"
    Examples.plain_optimizer (VStr "Paris") (VInt 3) (VStr "metric")
  = Raise (Exception "TypeError" "object is not subscriptable").
Proof.
  apply (forecast_unreadable_answer_raises (Cases.always_status 200) "key"
           Examples.plain_optimizer (VStr "Paris") (VInt 3) (VStr "metric")
           (VStr "Paris") VNone VNone
           (Exception "TypeError" "object is not subscriptable"));
    reflexivity.
Defined.

(** ** The forecast action *)

Lemma length_flat_map_le {A B : Type} (f : A -> list B) (l : list A) :
  (forall x, List.length (f x) <= 1)%nat ->
  (List.length (flat_map f l) <= List.length l)%nat.
Proof.
  intros Hf. induction l as [|x l IH]; simpl; [lia|].
  rewrite length_app. specialize (Hf x). lia.
Qed.

Lemma length_slice8 {A : Type} (l : list A) (stop : Z) :
  (List.length (WeatherForecast.slice8 l stop)
   <= (WeatherForecast.slice_stop (List.length l) stop + 7) / 8)%nat.
Proof.
  unfold WeatherForecast.slice8.
  etransitivity; [apply length_flat_map_le|rewrite length_seq; lia].
  intros k. destruct (nth_error l (8 * k)); simpl; lia.
Qed.

Lemma length_slice8_days {A : Type} (l : list A) (d : Z) :
  (0 <= d)%Z ->
  (Z.of_nat (List.length (WeatherForecast.slice8 l (d * 8))) <= d)%Z.
Proof.
  intros Hd. pose proof (length_slice8 l (d * 8)) as H.
  unfold WeatherForecast.slice_stop in H.
  destruct (Z.ltb_spec (d * 8) 0) as [Hneg|_]; [lia|].
  assert (Hle : ((Nat.min (Z.to_nat (d * 8)) (List.length l) + 7) / 8
                 <= Z.to_nat d)%nat).
  { replace (Z.to_nat (d * 8)) with (Z.to_nat d * 8)%nat by lia.
    etransitivity.
    - apply Nat.Div0.div_le_mono with (b := (Z.to_nat d * 8 + 7)%nat). lia.
    - rewrite Nat.div_add_l by lia. cbn. lia. }
  lia.
Qed.

Lemma length_forecast_entries (units : value) (items entries : list value) :
  WeatherForecast.forecast_entries units items = Ok entries ->
  List.length entries = List.length items.
Proof.
  revert entries. induction items as [|item items IH]; intros entries; simpl.
  - intros H; inversion H; reflexivity.
  - destruct (WeatherForecast.forecast_entry units item); cbn [bind]; [|discriminate].
    destruct (WeatherForecast.forecast_entries units items) as [more|]; cbn [bind];
      [|discriminate].
    intros H; inversion H; subst. simpl. f_equal. apply IH. reflexivity.
Qed.

(** A forecast list that is text gives no entry: its first character has
    no ["dt_txt"]. *)
Lemma forecast_entries_of_text (units : value) (cs : list string)
    (entries : list value) :
  WeatherForecast.forecast_entries units (map VStr cs) = Ok entries ->
  cs = [] /\ entries = [].
Proof.
  destruct cs as [|c cs]; cbn [map WeatherForecast.forecast_entries].
  - intros H; inversion H. split; reflexivity.
  - unfold WeatherForecast.forecast_entry. cbn [getitem_str bind]. discriminate.
Qed.

Lemma format_forecast_entries (data units note : value) (d : Z) (payload : dict) :
  (0 <= d)%Z ->
  WeatherForecast.format_forecast data units (VInt d) note = Ok payload ->
  get payload "success" = Some (VBool true) /\
  exists entries,
    get payload "forecast" = Some (VList entries) /\
    (Z.of_nat (List.length entries) <= d)%Z.
Proof.
  intros Hd. unfold WeatherForecast.format_forecast.
  destruct (getitem_str data "list") as [lst|]; cbn [bind]; [|discriminate].
  cbn [WeatherForecast.mul_int bind].
  destruct (WeatherForecast.slice8_value lst (VInt (d * 8))) as [sliced|] eqn:Hs;
    cbn [bind]; [|discriminate].
  destruct (WeatherForecast.iterate sliced) as [items|] eqn:Hi; cbn [bind];
    [|discriminate].
  destruct (WeatherForecast.forecast_entries units items) as [entries|] eqn:He;
    cbn [bind]; [|discriminate].
  destruct (getitem_str data "city") as [c|]; cbn [bind]; [|discriminate].
  destruct (getitem_str c "name") as [name|]; cbn [bind]; [|discriminate].
  destruct (getitem_str c "country") as [country|]; cbn [bind]; [|discriminate].
  intros H. inversion H; subst payload. clear H.
  assert (Hlen : (Z.of_nat (List.length entries) <= d)%Z).
  { destruct lst; cbn [WeatherForecast.slice8_value] in Hs; try discriminate;
      inversion Hs; subst sliced; cbn [WeatherForecast.iterate] in Hi;
      inversion Hi; subst items.
    - destruct (forecast_entries_of_text _ _ _ He) as [_ ->]. cbn [List.length]. lia.
    - rewrite (length_forecast_entries _ _ _ He).
      apply length_slice8_days. exact Hd. }
  destruct (truthy note).
  - split; [reflexivity|]. exists entries. split; [reflexivity | exact Hlen].
  - split; [reflexivity|]. exists entries. split; [reflexivity | exact Hlen].
Qed.

(** X22.  For a number of days that is a non-negative integer, a forecast
    that succeeds lists at most that many entries, however many slots the
    service sent. *)
Theorem forecast_has_at_most_days_entries :
  forall (client : Httpx.Client) (api_key : string) (optimizer : QueryOptimizer)
         (city units : value) (d : Z) (payload : dict),
    (0 <= d)%Z ->
    WeatherForecast.get_forecast client api_key optimizer city (VInt d) units
    = Ok payload ->
    get payload "success" = Some (VBool true) ->
    exists entries,
      get payload "forecast" = Some (VList entries) /\
      (Z.of_nat (List.length entries) <= d)%Z.
Proof.
  intros client api_key optimizer city units d payload Hd.
  unfold WeatherForecast.get_forecast.
  destruct (correct_query optimizer city "city") as [[corrected note]|];
    cbn [bind]; [|discriminate].
  destruct (Tenacity.outcome _) as [data|e]; cbn [bind].
  - destruct (WeatherForecast.format_forecast data units (VInt d) note)
      as [p|e] eqn:Hf.
    + intros H _. inversion H; subst p.
      apply (format_forecast_entries _ _ _ _ _ Hd Hf).
    + destruct e; try discriminate;
        try (intros H Hs; inversion H; subst payload; discriminate).
      destruct (status_code =? 404)%Z;
        intros H Hs; inversion H; subst payload; discriminate.
  - destruct e; try discriminate;
      try (intros H Hs; inversion H; subst payload; discriminate).
    destruct (status_code =? 404)%Z;
      intros H Hs; inversion H; subst payload; discriminate.
Qed.

Lemma forecast_has_at_most_days_entries_witness :
  exists entries,
    get [("success", VBool true); ("city", VStr "Paris"); ("country", VStr "FR");
         ("forecast",
          VList [VDict [("date", VStr "slot 0"); ("temperature", VStr "0°C");
                        ("description", VStr "clear sky"); ("humidity", VStr "50%")];
                 VDict [("date", VStr "slot 8"); ("temperature", VStr "8°C");
                        ("description", VStr "clear sky"); ("humidity", VStr "50%")]])]
      "forecast" = Some (VList entries) /\
    (Z.of_nat (List.length entries) <= 2)%Z.
Proof.
  apply (forecast_has_at_most_days_entries Cases.forecast_service "key"
           Examples.plain_optimizer (VStr "Paris") (VStr "metric") 2
           [("success", VBool true); ("city", VStr "Paris"); ("country", VStr "FR");
            ("forecast",
             VList [VDict [("date", VStr "slot 0"); ("temperature", VStr "0°C");
                           ("description", VStr "clear sky"); ("humidity", VStr "50%")];
                    VDict [("date", VStr "slot 8"); ("temperature", VStr "8°C");
                           ("description", VStr "clear sky");
                           ("humidity", VStr "50%")]])]).
  - lia.
  - vm_compute. reflexivity.
  - reflexivity.
Defined.

Lemma get_filter_params (valid : list string) (d : dict) (k : string) :
  existsb (String.eqb k) valid = true ->
  get (Executor.filter_params valid d) k = get d k.
Proof.
  intros Hk. unfold Executor.filter_params.
  induction d as [|[k' v] d IH]; simpl; [reflexivity|].
  destruct (String.eqb_spec k' k) as [->|Hne].
  - rewrite Hk. simpl. rewrite String.eqb_refl. reflexivity.
  - destruct (existsb (String.eqb k') valid); simpl.
    + destruct (String.eqb_spec k' k); [contradiction | exact IH].
    + exact IH.
Qed.

(** X23.  A forecast step whose ["days"] is text fails without a request
    being made: multiplying and comparing the text with 40 raises before the
    client is used, [get_forecast] lets the exception through, and the
    outcome is the "Execution error: " failure, whatever the service would
    have answered. *)
Theorem forecast_text_days_fails_the_step :
  forall (w : Executor.World) (rest : Tool) (step : PlanStep.t) (s : string)
         (corrected : value * value),
    Executor.weather_other w
    = WeatherForecast.getattr (Executor.weather_client w)
        (Executor.weather_api_key w) (Executor.optimizer w) rest ->
    PlanStep.tool step = "weather" ->
    PlanStep.action step = "get_forecast" ->
    mem "city" (PlanStep.params step) = true ->
    get (PlanStep.params step) "days" = Some (VStr s) ->
    correct_query (Executor.optimizer w)
      (get_or_none (PlanStep.params step) "city") "city" = Ok corrected ->
    Executor._execute_step w step
    = ToolResult.mk "weather" false None
        (Some "Execution error: '<' not supported between instances of 'int' and 'str'").
Proof.
  intros w rest step s [corrected note] Hw Ht Ha Hcity Hdays Hc.
  set (m := mkMethod ["city"; "days"; "units"] ["city"]
              (fun kw =>
                 payload <- WeatherForecast.get_forecast (Executor.weather_client w)
                              (Executor.weather_api_key w) (Executor.optimizer w)
                              (get_or_none kw "city") (arg kw "days" (VInt 3))
                              (arg kw "units" (VStr "metric")) ;;
                 Ok (VDict payload))).
  destruct (execute_step_of_payload w step
              (WeatherTool.getattr (Executor.weather_client w)
                 (Executor.weather_api_key w) (Executor.optimizer w)
                 (Executor.weather_other w)) m) as (Hraise & _ & _).
  - rewrite Ht. reflexivity.
  - rewrite Ha, Hw. reflexivity.
  - rewrite <- Ht.
    apply (Hraise (Exception "TypeError"
                     "'<' not supported between instances of 'int' and 'str'")).
    unfold call. cbn [required m filter negb].
    unfold mem in *. rewrite get_filter_params by reflexivity.
    destruct (get (PlanStep.params step) "city") as [c|] eqn:Hget; [|discriminate].
    cbn [negb body m]. unfold arg, get_or_none in *.
    rewrite !get_filter_params by reflexivity.
    rewrite Hget, Hdays in *.
    unfold WeatherForecast.get_forecast. rewrite Hc. cbn [bind].
    unfold WeatherForecast._fetch_forecast_data.
    rewrite (three_attempts_terminal _
               (Exception "TypeError"
                  "'<' not supported between instances of 'int' and 'str'"));
      reflexivity.
Qed.

Lemma forecast_text_days_fails_the_step_witness :
  Executor._execute_step (Cases.forecast_world Cases.forecast_service)
    (Examples.step 1 "weather" "get_forecast"
       [("city", VStr "Paris"); ("days", VStr "3")])
  = ToolResult.mk "weather" false None
      (Some "Execution error: '<' not supported between instances of 'int' and 'str'").
Proof.
  apply (forecast_text_days_fails_the_step
           (Cases.forecast_world Cases.forecast_service) Examples.no_tool
           (Examples.step 1 "weather" "get_forecast"
              [("city", VStr "Paris"); ("days", VStr "3")])
           "3" (VStr "Paris", VNone));
    reflexivity.
Defined.

(** ** The aggregation loop, continued *)

Lemma collect_one_step (acc acc' : Verifier.Collected) (r : ToolResult.t) :
  Verifier.collect_one acc r = Ok acc' ->
  match ToolResult.data r with
  | Some (kv :: d) =>
      exists tagged,
        Verifier.with_context (ToolResult.tool r) (kv :: d) = Ok tagged /\
        Verifier.store (ToolResult.tool r) tagged (Verifier.collected_data acc)
        = Ok (Verifier.collected_data acc') /\
        Verifier.suggestions acc'
        = (Verifier.suggestions acc
             ++ if mem "suggestion" (kv :: d)
                then [get_or_none (kv :: d) "suggestion"] else [])%list /\
        Verifier.correction_notes acc'
        = (Verifier.correction_notes acc
             ++ if mem "correction_note" (kv :: d)
                then [get_or_none (kv :: d) "correction_note"] else [])%list
  | _ => acc' = acc
  end.
Proof.
  unfold Verifier.collect_one.
  destruct (ToolResult.data r) as [[|kv d]|]; try (intros H; inversion H; reflexivity).
  cbn [truthy].
  destruct (Verifier.with_context _ _) as [tagged|]; unfold bind at 1; [|discriminate].
  destruct (Verifier.store _ _ _) as [c|] eqn:S; unfold bind at 1; [|discriminate].
  intros H. injection H as <-.
  cbn [Verifier.collected_data Verifier.suggestions Verifier.correction_notes].
  exists tagged. split; [reflexivity|]. split; [exact S|]. split.
  - destruct (mem "suggestion" (kv :: d)); [reflexivity | rewrite app_nil_r; reflexivity].
  - destruct (mem "correction_note" (kv :: d));
      [reflexivity | rewrite app_nil_r; reflexivity].
Qed.

Lemma store_entry (t : string) (tagged collected collected' : dict)
    (T : list dict) :
  get collected t = VerifierNotes.entry_of T ->
  (forall d, In d T -> Verifier.with_context t d = Ok d) ->
  Verifier.store t tagged collected = Ok collected' ->
  get collected' t = VerifierNotes.entry_of (T ++ [tagged]) /\
  (forall t', t' <> t -> get collected' t' = get collected t').
Proof.
  intros Hget Hfix. unfold Verifier.store. rewrite Hget.
  destruct T as [|a [|b T]]; cbn [VerifierNotes.entry_of].
  - intros H. injection H as <-. split.
    + rewrite get_set, String.eqb_refl. reflexivity.
    + intros t' Hne. apply get_set_other. exact Hne.
  - rewrite (Hfix a (or_introl eq_refl)). cbn [bind].
    intros H. injection H as <-. split.
    + rewrite get_set, String.eqb_refl. reflexivity.
    + intros t' Hne. apply get_set_other. exact Hne.
  - cbn [bind]. intros H. injection H as <-. split.
    + rewrite get_set, String.eqb_refl.
      replace (VerifierNotes.entry_of ((a :: b :: T) ++ [tagged]))
        with (Some (VList (map VDict ((a :: b :: T) ++ [tagged])))) by reflexivity.
      rewrite map_app. reflexivity.
    + intros t' Hne. apply get_set_other. exact Hne.
Qed.

Lemma tagged_of_cons (t : string) (r : ToolResult.t) (rs : list ToolResult.t) :
  VerifierNotes.tagged_of t (r :: rs)
  = (VerifierNotes.tagged_of t [r] ++ VerifierNotes.tagged_of t rs)%list.
Proof.
  cbn [VerifierNotes.tagged_of].
  destruct (ToolResult.data r) as [[|kv d]|]; try reflexivity.
  destruct (String.eqb (ToolResult.tool r) t); try reflexivity.
  destruct (Verifier.with_context t (kv :: d)); reflexivity.
Qed.

Lemma collect_groups (rs : list ToolResult.t) :
  forall (acc acc' : Verifier.Collected) (T : string -> list dict),
    (forall t, get (Verifier.collected_data acc) t = VerifierNotes.entry_of (T t)) ->
    (forall t d, In d (T t) -> Verifier.with_context t d = Ok d) ->
    Verifier.collect acc rs = Ok acc' ->
    forall t,
      get (Verifier.collected_data acc') t
      = VerifierNotes.entry_of (T t ++ VerifierNotes.tagged_of t rs).
Proof.
  induction rs as [|r rs IH]; intros acc acc' T Hinv Hfix Hc t.
  - simpl in Hc. injection Hc as <-. cbn [VerifierNotes.tagged_of].
    rewrite app_nil_r. apply Hinv.
  - cbn [Verifier.collect] in Hc.
    destruct (Verifier.collect_one acc r) as [acc1|] eqn:H1; cbn [bind] in Hc;
      [|discriminate].
    pose proof (collect_one_step _ _ _ H1) as Hstep.
    rewrite tagged_of_cons, app_assoc.
    apply (IH acc1 acc' (fun t => T t ++ VerifierNotes.tagged_of t [r])%list);
      [| |exact Hc].
    + intros t'. cbn [VerifierNotes.tagged_of].
      destruct (ToolResult.data r) as [[|kv d]|].
      * subst acc1. rewrite app_nil_r. apply Hinv.
      * destruct Hstep as (tagged & Hw & Hs & _).
        destruct (store_entry _ _ _ _ (T (ToolResult.tool r))
                    (Hinv _) (Hfix _) Hs) as [Hsame Hother].
        destruct (String.eqb_spec (ToolResult.tool r) t') as [<-|Hne].
        -- rewrite Hw. exact Hsame.
        -- rewrite app_nil_r, Hother by congruence. apply Hinv.
      * subst acc1. rewrite app_nil_r. apply Hinv.
    + intros t' d' Hin. apply in_app_or in Hin. destruct Hin as [Hin|Hin].
      * apply Hfix. exact Hin.
      * cbn [VerifierNotes.tagged_of] in Hin.
        destruct (ToolResult.data r) as [[|kv d]|]; try contradiction.
        destruct (String.eqb_spec (ToolResult.tool r) t') as [<-|Hne];
          [|contradiction].
        destruct (Verifier.with_context (ToolResult.tool r) (kv :: d))
          as [tagged|] eqn:Hw; [|contradiction].
        destruct Hin as [<-|[]].
        apply (with_context_idempotent _ _ _ Hw).
Qed.

(** X24.  In the by-tool map of the final result, a tool's entry is built
    from the labelled payloads of its successful outcomes, in outcome order:
    absent when there is none, the payload itself when there is one, the
    list of all of them when there are several. *)
Theorem details_group_payloads_by_tool :
  forall (task : string) (execution_result : ExecutionResult.t)
         (final : Verifier.FinalResult),
    Verifier.verify_and_format task execution_result = Ok final ->
    forall t,
      get (Verifier.details final) t
      = VerifierNotes.entry_of
          (VerifierNotes.tagged_of t
             (filter (fun r => ToolResult.success r)
                (ExecutionResult.results execution_result))).
Proof.
  intros task er final. unfold Verifier.verify_and_format.
  destruct (Verifier.collect _ _) as [acc|] eqn:Hc; cbn [bind]; [|discriminate].
  intros H. injection H as <-. cbn [Verifier.details]. intros t.
  apply (collect_groups _ (Verifier.mkCollected [] [] [] []) acc (fun _ => [])
           ltac:(reflexivity) ltac:(intros ? ? []) Hc t).
Qed.

Lemma details_group_payloads_by_tool_witness :
  get [("weather",
        VList [VDict (Examples.labelled_weather "Paris");
               VDict (Examples.labelled_weather "Oslo");
               VDict (Examples.labelled_weather "Rome")])] "weather"
  = VerifierNotes.entry_of
      (VerifierNotes.tagged_of "weather"
         (filter (fun r => ToolResult.success r)
            [Examples.weather_outcome "Paris"; Cases.failed "news" "down";
             Examples.weather_outcome "Oslo"; Examples.weather_outcome "Rome"])).
Proof.
  apply (details_group_payloads_by_tool "weather in three cities"
           (ExecutionResult.mk (ExecutionPlan.mk "weather in three cities" [] [])
              [Examples.weather_outcome "Paris"; Cases.failed "news" "down";
               Examples.weather_outcome "Oslo"; Examples.weather_outcome "Rome"])
           (Verifier.mkFinalResult "weather in three cities"
              [("weather",
                VList [VDict (Examples.labelled_weather "Paris");
                       VDict (Examples.labelled_weather "Oslo");
                       VDict (Examples.labelled_weather "Rome")])]
              []
              (ExecutionPlan.mk "weather in three cities" [] [])
              [Examples.weather_outcome "Paris"; Cases.failed "news" "down";
               Examples.weather_outcome "Oslo"; Examples.weather_outcome "Rome"]
              false)).
  vm_compute. reflexivity.
Defined.

Lemma map_fst_set (d : dict) (k : string) (v : value) :
  map fst (set d k v) = Verifier.add_source k (map fst d).
Proof.
  unfold Verifier.add_source.
  induction d as [|[k' v'] d IH]; [reflexivity|].
  cbn [set map fst existsb]. rewrite (String.eqb_sym k k').
  destruct (String.eqb k' k); cbn [orb map fst]; [reflexivity|].
  rewrite IH. destruct (existsb (String.eqb k) (map fst d)); reflexivity.
Qed.

Lemma store_keys (t : string) (tagged collected collected' : dict) :
  Verifier.store t tagged collected = Ok collected' ->
  map fst collected' = Verifier.add_source t (map fst collected).
Proof.
  unfold Verifier.store.
  destruct (get collected t) as [existing|].
  - destruct (match existing with
              | VList entries => Ok entries
              | VDict first => _
              | other => Ok [other]
              end) as [promoted|]; cbn [bind]; [|discriminate].
    intros H. injection H as <-. apply map_fst_set.
  - intros H. injection H as <-. apply map_fst_set.
Qed.

Lemma collect_keys (rs : list ToolResult.t) :
  forall acc acc',
    Verifier.collect acc rs = Ok acc' ->
    map fst (Verifier.collected_data acc')
    = Verifier.dedup (map fst (Verifier.collected_data acc))
        (VerifierNotes.payload_tools rs).
Proof.
  induction rs as [|r rs IH]; intros acc acc' Hc.
  - simpl in Hc. injection Hc as <-. reflexivity.
  - cbn [Verifier.collect] in Hc.
    destruct (Verifier.collect_one acc r) as [acc1|] eqn:H1; cbn [bind] in Hc;
      [|discriminate].
    pose proof (collect_one_step _ _ _ H1) as Hstep.
    rewrite (IH _ _ Hc). unfold VerifierNotes.payload_tools. cbn [flat_map].
    destruct (ToolResult.data r) as [[|kv d]|].
    + subst acc1. reflexivity.
    + destruct Hstep as (tagged & _ & Hs & _).
      rewrite (store_keys _ _ _ _ Hs). reflexivity.
    + subst acc1. reflexivity.
Qed.

(** X25.  The keys of the by-tool map are the tools that produced a payload,
    each once, in the order of their first successful outcome. *)
Theorem details_keys_in_first_success_order :
  forall (task : string) (execution_result : ExecutionResult.t)
         (final : Verifier.FinalResult),
    Verifier.verify_and_format task execution_result = Ok final ->
    map fst (Verifier.details final)
    = Verifier.dedup []
        (VerifierNotes.payload_tools
           (filter (fun r => ToolResult.success r)
              (ExecutionResult.results execution_result))) /\
    NoDup (map fst (Verifier.details final)).
Proof.
  intros task er final. unfold Verifier.verify_and_format.
  destruct (Verifier.collect _ _) as [acc|] eqn:Hc; cbn [bind]; [|discriminate].
  intros H. injection H as <-. cbn [Verifier.details].
  rewrite (collect_keys _ _ _ Hc). split; [reflexivity|].
  apply dedup_NoDup. constructor.
Qed.

Lemma details_keys_in_first_success_order_witness :
  map fst
    [("weather",
      VList [VDict (Examples.labelled_weather "Paris");
             VDict (Examples.labelled_weather "Oslo")]);
     ("github",
      VDict (set match ToolResult.data Examples.github_hits with
                 | Some d => d
                 | None => []
                 end "_context" (VStr "GitHub search: ml")))]
  = Verifier.dedup []
      (VerifierNotes.payload_tools
         (filter (fun r => ToolResult.success r)
            [Examples.weather_outcome "Paris"; Examples.github_hits;
             Examples.weather_outcome "Oslo"])) /\
  NoDup
    (map fst
       [("weather",
         VList [VDict (Examples.labelled_weather "Paris");
                VDict (Examples.labelled_weather "Oslo")]);
        ("github",
         VDict (set match ToolResult.data Examples.github_hits with
                    | Some d => d
                    | None => []
                    end "_context" (VStr "GitHub search: ml")))]).
Proof.
  apply (details_keys_in_first_success_order "weather and repositories"
           (ExecutionResult.mk (ExecutionPlan.mk "weather and repositories" [] [])
              [Examples.weather_outcome "Paris"; Examples.github_hits;
               Examples.weather_outcome "Oslo"])
           (Verifier.mkFinalResult "weather and repositories"
              [("weather",
                VList [VDict (Examples.labelled_weather "Paris");
                       VDict (Examples.labelled_weather "Oslo")]);
               ("github",
                VDict (set match ToolResult.data Examples.github_hits with
                           | Some d => d
                           | None => []
                           end "_context" (VStr "GitHub search: ml")))]
              ["https://github.com/a/b"; "https://github.com/c/d"]
              (ExecutionPlan.mk "weather and repositories" [] [])
              [Examples.weather_outcome "Paris"; Examples.github_hits;
               Examples.weather_outcome "Oslo"]
              true)).
  vm_compute. reflexivity.
Defined.

(** ** The verification notes *)

Lemma collect_advisories (rs : list ToolResult.t) :
  forall acc acc',
    Verifier.collect acc rs = Ok acc' ->
    Verifier.suggestions acc'
    = (Verifier.suggestions acc ++ VerifierNotes.advisories "suggestion" rs)%list /\
    Verifier.correction_notes acc'
    = (Verifier.correction_notes acc
         ++ VerifierNotes.advisories "correction_note" rs)%list.
Proof.
  induction rs as [|r rs IH]; intros acc acc' Hc.
  - simpl in Hc. injection Hc as <-. cbn [VerifierNotes.advisories flat_map].
    rewrite !app_nil_r. split; reflexivity.
  - cbn [Verifier.collect] in Hc.
    destruct (Verifier.collect_one acc r) as [acc1|] eqn:H1; cbn [bind] in Hc;
      [|discriminate].
    pose proof (collect_one_step _ _ _ H1) as Hstep.
    destruct (IH _ _ Hc) as [Hs Hn]. rewrite Hs, Hn.
    unfold VerifierNotes.advisories. cbn [flat_map].
    destruct (ToolResult.data r) as [[|kv d]|].
    + subst acc1. split; reflexivity.
    + destruct Hstep as (tagged & _ & _ & Hs1 & Hn1).
      rewrite Hs1, Hn1, <- !app_assoc. split; reflexivity.
    + subst acc1. split; reflexivity.
Qed.

Lemma notes_of_run (execution_result : ExecutionResult.t) (notes : option string) :
  VerifierNotes.notes_of execution_result = Ok notes ->
  notes
  = VerifierNotes.verification_notes
      (filter (fun r => negb (ToolResult.success r))
         (ExecutionResult.results execution_result))
      (VerifierNotes.advisories "suggestion"
         (filter (fun r => ToolResult.success r)
            (ExecutionResult.results execution_result)))
      (VerifierNotes.advisories "correction_note"
         (filter (fun r => ToolResult.success r)
            (ExecutionResult.results execution_result))).
Proof.
  unfold VerifierNotes.notes_of.
  destruct (Verifier.collect _ _) as [acc|] eqn:Hc; cbn [bind]; [|discriminate].
  destruct (collect_advisories _ _ _ Hc) as [Hs Hn].
  intros H. injection H as <-. rewrite Hs, Hn. reflexivity.
Qed.

Lemma prefix_refl (p : string) : String.prefix p p = true.
Proof. induction p as [|c p IH]; simpl; [reflexivity|]. rewrite IH.
  destruct (Ascii.ascii_dec c c); [reflexivity | contradiction]. Qed.

Lemma contains_refl (p : string) : contains p p = true.
Proof. destruct p; simpl; [reflexivity|]. rewrite prefix_refl.
  destruct (Ascii.ascii_dec a a); [reflexivity | contradiction]. Qed.

Lemma failed_line (failed_steps : list ToolResult.t)
    (suggestions correction_notes : list value) (f : ToolResult.t) (e : string) :
  In f failed_steps -> ToolResult.error f = Some e -> e <> "" ->
  exists text,
    VerifierNotes.verification_notes failed_steps suggestions correction_notes
    = Some text /\
    contains ("- " ++ ToolResult.tool f ++ ": " ++ e) text = true.
Proof.
  intros Hin He Hne.
  unfold VerifierNotes.verification_notes, VerifierNotes.notes_parts.
  destruct failed_steps as [|f0 rest]; [contradiction|].
  cbn [VerifierNotes.failure_lines app].
  eexists. split; [reflexivity|].
  apply (contains_concat _ _ ("- " ++ ToolResult.tool f ++ ": " ++ e));
    [|apply contains_refl].
  right. apply in_or_app. left. apply in_flat_map.
  exists f. split; [exact Hin|].
  rewrite He. cbn [truthy].
  destruct (String.eqb_spec e ""); [contradiction|]. left. reflexivity.
Qed.

(** X26.  Every failed outcome that has an error text is named in the
    verification notes, on a line of its own made of "- ", the tool, ": "
    and the text. *)
Theorem failed_outcome_is_reported :
  forall (execution_result : ExecutionResult.t) (r : ToolResult.t) (e : string)
         (notes : option string),
    In r (ExecutionResult.results execution_result) ->
    ToolResult.success r = false ->
    ToolResult.error r = Some e -> e <> "" ->
    VerifierNotes.notes_of execution_result = Ok notes ->
    exists text,
      notes = Some text /\
      contains ("- " ++ ToolResult.tool r ++ ": " ++ e) text = true.
Proof.
  intros er r e notes Hin Hs He Hne Hnotes.
  rewrite (notes_of_run _ _ Hnotes).
  apply failed_line; try assumption.
  apply filter_In. split; [exact Hin|]. rewrite Hs. reflexivity.
Qed.

Lemma failed_outcome_is_reported_witness :
  exists text,
    Some ("Some steps failed: ['news']" ++ VerifierNotes.line_break
            ++ "- news: quota exceeded")
    = Some text /\
    contains ("- " ++ ToolResult.tool (Cases.failed "news" "quota exceeded")
                ++ ": " ++ "quota exceeded") text = true.
Proof.
  apply (failed_outcome_is_reported
           (ExecutionResult.mk (ExecutionPlan.mk "news and weather" [] [])
              [Examples.weather_outcome "Paris";
               Cases.failed "news" "quota exceeded"])
           (Cases.failed "news" "quota exceeded") "quota exceeded").
  - right. left. reflexivity.
  - reflexivity.
  - reflexivity.
  - discriminate.
  - vm_compute. reflexivity.
Defined.

(** X27.  Planner to verifier: a step naming an unknown tool anywhere in the
    plan still lets the run finish, but the final result is not verified and
    its notes carry the line "- <tool>: Tool '<tool>' not found". *)
Theorem unknown_tool_makes_result_unverified :
  forall (env : Executor.Env) (plan : ExecutionPlan.t) (task : string)
         (j : nat) (s : PlanStep.t),
    nth_error (ExecutionPlan.steps plan) j = Some s ->
    Executor.registered (PlanStep.tool s) = false ->
    exists er,
      Executor.execute_plan env plan = Some (Ok er) /\
      (forall final,
          Verifier.verify_and_format task er = Ok final ->
          Verifier.verified final = false) /\
      (forall notes,
          VerifierNotes.notes_of er = Ok notes ->
          exists text,
            notes = Some text /\
            contains ("- " ++ PlanStep.tool s ++ ": Tool '" ++ PlanStep.tool s
                        ++ "' not found") text = true).
Proof.
  intros env plan task j s Hs Hreg.
  destruct (execute_plan_outcome env plan) as (er & Her & _ & _ & Hres & Hdis).
  exists er. split; [exact Her|].
  destruct (Hdis j s Hs) as (s' & Hs' & Hd).
  destruct (dispatched_signature _ _ _ _ _ Hd) as [Htool _].
  pose proof (Hres j s' Hs') as Hr.
  rewrite unregistered_outcome in Hr by (rewrite Htool; exact Hreg).
  rewrite Htool in Hr.
  apply nth_error_In in Hr.
  assert (Hfailed : In (ToolResult.mk (PlanStep.tool s) false None
                          (Some ("Tool '" ++ PlanStep.tool s ++ "' not found")))
                      (filter (fun r => negb (ToolResult.success r))
                         (ExecutionResult.results er))).
  { apply filter_In. split; [exact Hr | reflexivity]. }
  split.
  - intros final. unfold Verifier.verify_and_format.
    destruct (Verifier.collect _ _); cbn [bind]; [|discriminate].
    intros H. injection H as <-. cbn [Verifier.verified].
    destruct (filter _ _); [contradiction | reflexivity].
  - intros notes Hnotes. rewrite (notes_of_run _ _ Hnotes).
    apply (failed_line _ _ _ _ _ Hfailed eq_refl). discriminate.
Qed.

Lemma unknown_tool_makes_result_unverified_witness :
  exists er,
    Executor.execute_plan
      (Examples.env_of (Examples.world Examples.nepal_hits Examples.offline))
      Examples.unknown_then_search = Some (Ok er) /\
    (forall final,
        Verifier.verify_and_format "Use a tool that does not exist" er = Ok final ->
        Verifier.verified final = false) /\
    (forall notes,
        VerifierNotes.notes_of er = Ok notes ->
        exists text,
          notes = Some text /\
          contains ("- " ++ "doesnotexist" ++ ": Tool '" ++ "doesnotexist"
                      ++ "' not found") text = true).
Proof.
  apply (unknown_tool_makes_result_unverified
           (Examples.env_of (Examples.world Examples.nepal_hits Examples.offline))
           Examples.unknown_then_search "Use a tool that does not exist" 0%nat
           (Examples.step 1 "doesnotexist" "run" []));
    reflexivity.
Defined.

Lemma flat_map_nil {A B : Type} (f : A -> list B) (l : list A) :
  flat_map f l = [] <-> forall x, In x l -> f x = [].
Proof.
  induction l as [|x l IH]; simpl.
  - split; [intros _ y [] | reflexivity].
  - split.
    + intros H. apply app_eq_nil in H. destruct H as [Hx Hl].
      intros y [<-|Hy]; [exact Hx | apply IH; assumption].
    + intros H. rewrite (H x (or_introl eq_refl)). simpl.
      apply IH. intros y Hy. apply H. right. exact Hy.
Qed.

Lemma advisories_nil (key : string) (rs : list ToolResult.t) :
  VerifierNotes.advisories key rs = [] <->
  forall r d, In r rs -> ToolResult.data r = Some d -> mem key d = false.
Proof.
  unfold VerifierNotes.advisories. rewrite flat_map_nil. split.
  - intros H r d Hr Hd. specialize (H r Hr). rewrite Hd in H.
    destruct d as [|kv d]; [reflexivity|].
    destruct (mem key (kv :: d)); [discriminate | reflexivity].
  - intros H r Hr. destruct (ToolResult.data r) as [[|kv d]|] eqn:Hd; try reflexivity.
    rewrite (H r _ Hr Hd). reflexivity.
Qed.

Lemma verification_notes_none (failed_steps : list ToolResult.t)
    (suggestions correction_notes : list value) :
  VerifierNotes.verification_notes failed_steps suggestions correction_notes = None
  <-> failed_steps = [] /\ suggestions = [] /\ correction_notes = [].
Proof.
  unfold VerifierNotes.verification_notes, VerifierNotes.notes_parts. split.
  - destruct failed_steps; [|discriminate].
    destruct suggestions; [|discriminate].
    destruct correction_notes; [|discriminate].
    repeat split.
  - intros (-> & -> & ->). reflexivity.
Qed.

(** X28.  The verification notes are absent exactly when there is nothing to
    report: every outcome succeeded and no payload has a ["suggestion"] or a
    ["correction_note"] key. *)
Theorem notes_absent_iff_nothing_to_report :
  forall (execution_result : ExecutionResult.t) (notes : option string),
    VerifierNotes.notes_of execution_result = Ok notes ->
    (notes = None <->
     forall r, In r (ExecutionResult.results execution_result) ->
       ToolResult.success r = true /\
       forall d, ToolResult.data r = Some d ->
                 mem "suggestion" d = false /\ mem "correction_note" d = false).
Proof.
  intros er notes Hnotes. rewrite (notes_of_run _ _ Hnotes).
  rewrite verification_notes_none, !advisories_nil. split.
  - intros (Hf & Hs & Hn) r Hr.
    assert (Hok : ToolResult.success r = true).
    { destruct (ToolResult.success r) eqn:E; [reflexivity|].
      assert (Hin : In r (filter (fun r => negb (ToolResult.success r))
                            (ExecutionResult.results er)))
        by (apply filter_In; split; [exact Hr | rewrite E; reflexivity]).
      rewrite Hf in Hin. contradiction. }
    split; [exact Hok|]. intros d Hd.
    assert (Hin : In r (filter (fun r => ToolResult.success r)
                          (ExecutionResult.results er)))
      by (apply filter_In; split; assumption).
    split; [apply (Hs r d Hin Hd) | apply (Hn r d Hin Hd)].
  - intros H. repeat split.
    + destruct (filter _ _) as [|r rest] eqn:E; [reflexivity|].
      assert (Hin : In r (filter (fun r => negb (ToolResult.success r))
                            (ExecutionResult.results er)))
        by (rewrite E; left; reflexivity).
      apply filter_In in Hin. destruct Hin as [Hr Hneg].
      destruct (H r Hr) as [Hok _]. rewrite Hok in Hneg. discriminate.
    + intros r d Hr Hd. apply filter_In in Hr. destruct Hr as [Hr _].
      apply (H r Hr). exact Hd.
    + intros r d Hr Hd. apply filter_In in Hr. destruct Hr as [Hr _].
      apply (H r Hr). exact Hd.
Qed.

Lemma notes_absent_iff_nothing_to_report_witness :
  @None string = None <->
  forall r, In r [Examples.weather_outcome "Paris"; Examples.github_hits] ->
    ToolResult.success r = true /\
    forall d, ToolResult.data r = Some d ->
              mem "suggestion" d = false /\ mem "correction_note" d = false.
Proof.
  apply (notes_absent_iff_nothing_to_report
           (ExecutionResult.mk (ExecutionPlan.mk "weather and repositories" [] [])
              [Examples.weather_outcome "Paris"; Examples.github_hits])
           None).
  vm_compute. reflexivity.
Defined.

(** ** Citations, continued *)

Lemma dedup_extends (l : list string) :
  forall seen,
  exists added,
    Verifier.dedup seen l = (seen ++ added)%list /\
    forall u, In u added -> In u l /\ ~ In u seen.
Proof.
  induction l as [|x l IH]; intros seen.
  - exists []. split; [rewrite app_nil_r; reflexivity | intros u []].
  - unfold Verifier.dedup. cbn [fold_left].
    fold (Verifier.dedup (Verifier.add_source x seen) l).
    destruct (IH (Verifier.add_source x seen)) as (added & Heq & Hadded).
    unfold Verifier.add_source in *.
    destruct (existsb (String.eqb x) seen) eqn:E.
    + exists added. split; [exact Heq|].
      intros u Hu. destruct (Hadded u Hu) as [Hl Hs]. split; [right; exact Hl | exact Hs].
    + exists (x :: added). split.
      * rewrite Heq, <- app_assoc. reflexivity.
      * intros u [<-|Hu].
        -- split; [left; reflexivity|]. intros Hin.
           assert (existsb (String.eqb x) seen = true)
             by (apply existsb_exists; exists x; split;
                 [exact Hin | apply String.eqb_refl]).
           congruence.
        -- destruct (Hadded u Hu) as [Hl Hs]. split; [right; exact Hl|].
           intros Hin. apply Hs. apply in_or_app. left. exact Hin.
Qed.

Lemma dedup_absorbs (l : list string) :
  forall seen, (forall u, In u l -> In u seen) -> Verifier.dedup seen l = seen.
Proof.
  induction l as [|x l IH]; intros seen Hall; [reflexivity|].
  unfold Verifier.dedup. cbn [fold_left].
  fold (Verifier.dedup (Verifier.add_source x seen) l).
  assert (Hx : Verifier.add_source x seen = seen).
  { unfold Verifier.add_source.
    assert (existsb (String.eqb x) seen = true) as ->; [|reflexivity].
    apply existsb_exists. exists x. split;
      [apply Hall; left; reflexivity | apply String.eqb_refl]. }
  rewrite Hx. apply IH. intros u Hu. apply Hall. right. exact Hu.
Qed.

(** X29.  Extracting the links of a payload only ever appends to the list
    it is given: what was there stays in front in its order, what is added
    are links of the payload not yet listed, a list without repetition stays
    so, and extracting the same payload again changes nothing. *)
Theorem extract_sources_only_appends :
  forall (data : value) (sources : list string),
    (exists added,
        Verifier._extract_sources data sources = (sources ++ added)%list /\
        forall u, In u added -> In u (Verifier.links data) /\ ~ In u sources) /\
    (NoDup sources -> NoDup (Verifier._extract_sources data sources)) /\
    Verifier._extract_sources data (Verifier._extract_sources data sources)
    = Verifier._extract_sources data sources.
Proof.
  intros data sources. rewrite !extract_sources_links. repeat split.
  - apply dedup_extends.
  - apply dedup_NoDup.
  - apply dedup_absorbs. intros u Hu. apply dedup_In. right. exact Hu.
Qed.

(** ** Labels, continued *)

Lemma char_length_append (a b : string) :
  char_length (a ++ b) = (char_length a + char_length b)%nat.
Proof.
  induction a as [|c a IH]; [reflexivity|].
  cbn [append char_length]. destruct (is_continuation c); rewrite IH; reflexivity.
Qed.

(** X30.  The label of a GitHub payload shows at most 50 characters of the
    query: the query itself when it has at most 50, else its first 47
    followed by three dots. *)
Theorem github_label_is_bounded :
  forall (data : dict) (q : string),
    get data "query" = Some (VStr q) ->
    exists shown,
      Verifier._generate_context_label "github" data
      = Ok (Some ("GitHub search: " ++ shown)) /\
      (char_length shown <= 50)%nat /\
      ((char_length q <= 50)%nat -> shown = q) /\
      ((50 < char_length q)%nat ->
       shown = take_chars 47 q ++ "..." /\
       String.prefix (take_chars 47 q) q = true /\
       char_length (take_chars 47 q) = 47%nat).
Proof.
  intros data q Hq. unfold Verifier._generate_context_label.
  replace (String.eqb "github" "weather") with false by reflexivity.
  replace (String.eqb "github" "github") with true by reflexivity.
  cbn [andb]. unfold mem, get_or_none. rewrite Hq. cbn [len bind].
  destruct (Z.ltb_spec 50 (Z.of_nat (char_length q))) as [Hlong|Hshort].
  - cbn [Verifier.truncate_query bind str].
    exists (take_chars 47 q ++ "..."). split; [reflexivity|].
    assert (H47 : char_length (take_chars 47 q) = 47%nat)
      by (rewrite char_length_take_chars; lia).
    split; [|split; [lia|]].
    + rewrite char_length_append, H47. reflexivity.
    + intros _. split; [reflexivity|]. split; [apply take_chars_prefix | exact H47].
  - cbn [bind str]. exists q. split; [reflexivity|].
    split; [lia|]. split; [reflexivity | lia].
Qed.

Lemma github_label_is_bounded_witness :
  exists shown,
    Verifier._generate_context_label "github"
      [("success", VBool true);
       ("query", VStr "café crème brûlée près de la gare, très bon marché, été 2024")]
    = Ok (Some ("GitHub search: " ++ shown)) /\
    (char_length shown <= 50)%nat /\
    ((char_length "café crème brûlée près de la gare, très bon marché, été 2024"
      <= 50)%nat ->
     shown = "café crème brûlée près de la gare, très bon marché, été 2024") /\
    ((50 < char_length
             "café crème brûlée près de la gare, très bon marché, été 2024")%nat ->
     shown
     = take_chars 47 "café crème brûlée près de la gare, très bon marché, été 2024"
       ++ "..." /\
     String.prefix
       (take_chars 47 "café crème brûlée près de la gare, très bon marché, été 2024")
       "café crème brûlée près de la gare, très bon marché, été 2024" = true /\
     char_length
       (take_chars 47 "café crème brûlée près de la gare, très bon marché, été 2024")
     = 47%nat).
Proof.
  apply (github_label_is_bounded
           [("success", VBool true);
            ("query",
             VStr "café crème brûlée près de la gare, très bon marché, été 2024")]
           "café crème brûlée près de la gare, très bon marché, été 2024").
  reflexivity.
Defined.
